(** * tutor_me: segmentation of textbook pages and answer assembly

    A shallow embedding of [2_structure_data.py] (ChunkCreator,
    structure_textbook), of the chunk file read by [3_create_embeddings.py]
    and of [4_rag_query.py] (RAGSystem), with the properties of the
    specification stated and proved over it.  Further parts cover the OCR
    directory that [structure_textbook] reads and the page files that
    [process_pdf_pages] names, the text [extract_text_only] makes of a page,
    and the embedding manager of [3_create_embeddings.py] with the index
    it fills.

    Python [str] values are sequences of Unicode code points: [str] is
    [list N].  A string literal of this file is UTF-8 and is decoded by [u]. *)

From Stdlib Require Import ZArith NArith List String Ascii Bool Lia PrimFloat.
From Stdlib Require DecimalN.
From Stdlib Require Import Sorted.
From stdpp Require Import base option list gmap.

Local Open Scope N_scope.

(** ** Strings *)

Definition str := list N.

Fixpoint utf8_go (s : string) (need : nat) (acc : N) : str :=
  match s with
  | EmptyString => []
  | String a s' =>
      let b := N_of_ascii a in
      match need with
      | O =>
          if b <? 0x80 then b :: utf8_go s' 0 0
          else if b <? 0xE0 then utf8_go s' 1 (b - 0xC0)
          else if b <? 0xF0 then utf8_go s' 2 (b - 0xE0)
          else utf8_go s' 3 (b - 0xF0)
      | S O => (acc * 64 + (b - 0x80)) :: utf8_go s' 0 0
      | S n => utf8_go s' n (acc * 64 + (b - 0x80))
      end
  end.

(** Backslash followed by [n] stands for a line feed, as in the source. *)
Fixpoint unescape (s : str) : str :=
  match s with
  | 0x5c :: 0x6e :: s' => 0xa :: unescape s'
  | c :: s' => c :: unescape s'
  | [] => []
  end.

(** [u "текст"] is the Python string written "текст". *)
Definition u (s : string) : str := unescape (utf8_go s 0 0).
Arguments u s%_string.

Definition str_eqb (a b : str) : bool := bool_decide (a = b).

(** ** The interpreter's character tables

    [str.isspace], [str.strip] and the pattern class [\s] share one table;
    [\d] and [int] use the decimal digits (Unicode 14.0, CPython 3.11):
    every run of decimal digits starts at a zero and counts upwards. *)

Definition in_ranges (rs : list (N * N)) (c : N) : bool :=
  existsb (fun r => (fst r <=? c) && (c <=? snd r)) rs.

Definition space_ranges : list (N * N) :=
  [ (0x9, 0xd); (0x1c, 0x20); (0x85, 0x85); (0xa0, 0xa0); (0x1680, 0x1680);
    (0x2000, 0x200a); (0x2028, 0x2029); (0x202f, 0x202f); (0x205f, 0x205f);
    (0x3000, 0x3000) ].

Definition isspace (c : N) : bool := in_ranges space_ranges c.

Definition decimal_zeros : list N :=
  [ 0x30; 0x660; 0x6f0; 0x7c0; 0x966; 0x9e6; 0xa66; 0xae6; 0xb66; 0xbe6;
    0xc66; 0xce6; 0xd66; 0xde6; 0xe50; 0xed0; 0xf20; 0x1040; 0x1090; 0x17e0;
    0x1810; 0x1946; 0x19d0; 0x1a80; 0x1a90; 0x1b50; 0x1bb0; 0x1c40; 0x1c50;
    0xa620; 0xa8d0; 0xa900; 0xa9d0; 0xa9f0; 0xaa50; 0xabf0; 0xff10; 0x104a0;
    0x10d30; 0x11066; 0x110f0; 0x11136; 0x111d0; 0x112f0; 0x11450; 0x114d0;
    0x11650; 0x116c0; 0x11730; 0x118e0; 0x11950; 0x11c50; 0x11d50; 0x11da0;
    0x16a60; 0x16ac0; 0x16b50; 0x1d7ce; 0x1d7d8; 0x1d7e2; 0x1d7ec; 0x1d7f6;
    0x1e140; 0x1e2f0; 0x1e950; 0x1fbf0 ].

Definition isdecimal (c : N) : bool :=
  existsb (fun z => (z <=? c) && (c <=? z + 9)) decimal_zeros.

(** The value of a decimal digit ([0] for any other character). *)
Definition todecimal (c : N) : N :=
  match find (fun z => (z <=? c) && (c <=? z + 9)) decimal_zeros with
  | Some z => c - z
  | None => 0
  end.

(** What this file takes from the interpreter without spelling it out:
    the alphanumeric table above U+052F, the case variants the pattern
    engine consults under [re.IGNORECASE], the order in which a [set] is
    iterated, and [repr] of a list or dict. *)
#[local] Unset Elimination Schemes.
Inductive pyval :=
| PNone
| PInt (z : Z)
| PStr (s : str)
| PList (l : list pyval)
| PTuple (l : list pyval)
| PDict (d : list (str * pyval)).
#[local] Set Elimination Schemes.

Class Interp := {
  isalnum_ext : N -> bool;
  case_variants : N -> list N;
  set_order : list str -> list str;
  py_repr : pyval -> str;
  set_order_NoDup : forall l, NoDup (set_order l);
  set_order_In : forall l x, In x (set_order l) <-> In x l
}.

(** [str.isalnum] on Basic Latin up to the Cyrillic Supplement. *)
Definition alnum_ranges : list (N * N) :=
  [ (0x30, 0x39); (0x41, 0x5a); (0x61, 0x7a); (0xaa, 0xaa); (0xb2, 0xb3);
    (0xb5, 0xb5); (0xb9, 0xba); (0xbc, 0xbe); (0xc0, 0xd6); (0xd8, 0xf6);
    (0xf8, 0x2c1); (0x2c6, 0x2d1); (0x2e0, 0x2e4); (0x2ec, 0x2ec);
    (0x2ee, 0x2ee); (0x370, 0x374); (0x376, 0x377); (0x37a, 0x37d);
    (0x37f, 0x37f); (0x386, 0x386); (0x388, 0x38a); (0x38c, 0x38c);
    (0x38e, 0x3a1); (0x3a3, 0x3f5); (0x3f7, 0x481); (0x48a, 0x52f) ].

Definition isalnum `{Interp} (c : N) : bool :=
  if c <=? 0x52f then in_ranges alnum_ranges c else isalnum_ext c.

(** The class [\w] of a [str] pattern: alphanumeric or underscore. *)
Definition isword `{Interp} (c : N) : bool := isalnum c || (c =? 0x5f).

(** ** Python string operations *)

Module PyStr.

Fixpoint lstrip (s : str) : str :=
match s with
| c :: s' => if isspace c then lstrip s' else s
| [] => []
end.

Definition rstrip (s : str) : str := rev (lstrip (rev s)).

Definition strip (s : str) : str := rstrip (lstrip s).

Fixpoint starts_with (p s : str) : bool :=
match p, s with
| [], _ => true
| a :: p', b :: s' => (a =? b) && starts_with p' s'
| _ :: _, [] => false
end.

(** [s.split(sep)] for a non-empty [sep]: [cur] is the piece being read,
  backwards, and [skip] counts the characters of a separator still to
  pass. *)
Fixpoint split_go (sep s : str) (skip : nat) (cur : str) : list str :=
match s with
| [] => [rev cur]
| c :: s' =>
    match skip with
    | S n => split_go sep s' n cur
    | O =>
        if starts_with sep s
        then rev cur :: split_go sep s' (Nat.pred (length sep)) []
        else split_go sep s' 0 (c :: cur)
    end
end.

Definition split (sep s : str) : list str := split_go sep s 0 [].

Fixpoint join (sep : str) (l : list str) : str :=
match l with
| [] => []
| [x] => x
| x :: l' => x ++ sep ++ join sep l'
end.

End PyStr.

(** [int(s)] for a run of decimal digits, and [str(n)] for an [int]. *)
Definition int_of_digits (s : str) : Z :=
  Z.of_N (fold_left (fun acc c => acc * 10 + todecimal c) s 0).

Fixpoint digits_of_uint (d : Decimal.uint) : str :=
  match d with
  | Decimal.Nil => []
  | Decimal.D0 d => 0x30 :: digits_of_uint d
  | Decimal.D1 d => 0x31 :: digits_of_uint d
  | Decimal.D2 d => 0x32 :: digits_of_uint d
  | Decimal.D3 d => 0x33 :: digits_of_uint d
  | Decimal.D4 d => 0x34 :: digits_of_uint d
  | Decimal.D5 d => 0x35 :: digits_of_uint d
  | Decimal.D6 d => 0x36 :: digits_of_uint d
  | Decimal.D7 d => 0x37 :: digits_of_uint d
  | Decimal.D8 d => 0x38 :: digits_of_uint d
  | Decimal.D9 d => 0x39 :: digits_of_uint d
  end.

Definition str_of_N (n : N) : str := digits_of_uint (N.to_uint n).

Definition str_of_int (z : Z) : str :=
  match z with
  | Zneg p => 0x2d :: str_of_N (Npos p)
  | _ => str_of_N (Z.to_N z)
  end.

(** ** The pattern engine

    The fragment of [re] the program uses: classes, quantified classes
    (greedy or lazy), sequence, alternation, capturing groups, look-ahead,
    [$] (without [re.MULTILINE]) and [\b].  Matching is by backtracking in
    the order [re] tries the alternatives; the continuation [k] is the rest
    of the pattern. *)

Inductive regex :=
| Chr (cls : N -> bool)
| Rep (greedy : bool) (lo : nat) (hi : option nat) (cls : N -> bool)
| Seq (r1 r2 : regex)
| Alt (r1 r2 : regex)
| Group (i : nat) (r : regex)
| Ahead (r : regex)
| Eos
| Bound.

Definition caps := list (nat * str).

Definition get_cap (i : nat) (cs : caps) : str :=
  match find (fun p => Nat.eqb (fst p) i) cs with
  | Some p => snd p
  | None => []
  end.

Definition or_else {A} (a : option A) (b : unit -> option A) : option A :=
  match a with
  | Some x => Some x
  | None => b tt
  end.

Fixpoint rep_greedy {A} (cls : N -> bool) (lo hi : nat) (prev : option N)
    (s : str) (k : option N -> str -> option A) : option A :=
  or_else
    match hi, s with
    | S hi', c :: s' =>
        if cls c then rep_greedy cls (Nat.pred lo) hi' (Some c) s' k
        else None
    | _, _ => None
    end
    (fun _ => match lo with O => k prev s | S _ => None end).

Fixpoint rep_lazy {A} (cls : N -> bool) (lo hi : nat) (prev : option N)
    (s : str) (k : option N -> str -> option A) : option A :=
  or_else
    match lo with O => k prev s | S _ => None end
    (fun _ =>
       match hi, s with
       | S hi', c :: s' =>
           if cls c then rep_lazy cls (Nat.pred lo) hi' (Some c) s' k
           else None
       | _, _ => None
       end).

(** [$] without [re.MULTILINE]: at the end of the text, or before a line
    feed that ends it. *)
Definition at_end (s : str) : bool :=
  match s with
  | [] => true
  | [c] => c =? 0xa
  | _ => false
  end.

Section Engine.
(** The class [\w], which [\b] consults. *)
Variable wordc : N -> bool.

Definition at_word (c : option N) : bool :=
  match c with
  | Some c => wordc c
  | None => false
  end.

(** [prev] is the character before the position, [s] the text from the
    position on, [cs] the groups closed so far. *)
Fixpoint rmatch {A} (r : regex) (prev : option N) (s : str) (cs : caps)
    (k : option N -> str -> caps -> option A) : option A :=
  match r with
  | Chr cls =>
      match s with
      | c :: s' => if cls c then k (Some c) s' cs else None
      | [] => None
      end
  | Rep greedy lo hi cls =>
      let hi := match hi with Some n => n | None => length s end in
      (if greedy then rep_greedy else rep_lazy)
        cls lo hi prev s (fun p s' => k p s' cs)
  | Seq r1 r2 =>
      rmatch r1 prev s cs (fun p s' cs' => rmatch r2 p s' cs' k)
  | Alt r1 r2 =>
      or_else (rmatch r1 prev s cs k) (fun _ => rmatch r2 prev s cs k)
  | Group i r1 =>
      rmatch r1 prev s cs
        (fun p s' cs' =>
           k p s' ((i, firstn (length s - length s') s) :: cs'))
  | Ahead r1 =>
      match rmatch r1 prev s cs (fun _ _ cs' => Some cs') with
      | Some cs' => k prev s cs'
      | None => None
      end
  | Eos => if at_end s then k prev s cs else None
  | Bound =>
      if xorb (at_word prev) (at_word (head s)) then k prev s cs else None
  end.

(** One attempt at a position: the text left after the match, and the
    groups. *)
Definition match_at (r : regex) (prev : option N) (s : str)
    : option (str * caps) :=
  rmatch r prev s [] (fun _ s' cs => Some (s', cs)).

(** [re.finditer]: the matches from left to right, none overlapping.
    [skip] counts the characters of the last match still to pass.  (No
    pattern of the program matches the empty string.) *)
Fixpoint scan (r : regex) (prev : option N) (s : str) (skip : nat)
    : list (str * caps) :=
  match skip with
  | S n =>
      match s with
      | c :: s' => scan r (Some c) s' n
      | [] => []
      end
  | O =>
      match match_at r prev s with
      | Some (s', cs) =>
          let n := (length s - length s')%nat in
          (firstn n s, cs) ::
            match s with
            | c :: t => scan r (Some c) t (Nat.pred n)
            | [] => []
            end
      | None =>
          match s with
          | c :: t => scan r (Some c) t 0
          | [] => []
          end
      end
  end.

Definition finditer (r : regex) (s : str) : list (str * caps) :=
  scan r None s 0.

(** [re.findall] for a pattern without group, and with two groups. *)
Definition findall (r : regex) (s : str) : list str :=
  map fst (finditer r s).

Definition findall2 (r : regex) (s : str) : list (str * str) :=
  map (fun m => (get_cap 1 (snd m), get_cap 2 (snd m))) (finditer r s).
End Engine.

(** *** Classes and the patterns of the program *)

Definition only (c : N) : N -> bool := N.eqb c.
Definition between (a b : N) : N -> bool := fun c => (a <=? c) && (c <=? b).
Definition any_of (l : list (N -> bool)) : N -> bool :=
  fun c => existsb (fun p => p c) l.
(** [.] under [re.DOTALL]. *)
Definition dot_all : N -> bool := fun _ => true.

(** A class under [re.IGNORECASE]: some case variant of the character is
    in the class.  ([=] and [\s] outside a class have no case and are
    compiled as without the flag.) *)
Definition ignorecase `{Interp} (cls : N -> bool) : N -> bool :=
  fun c => cls c || existsb cls (case_variants c).

Definition many1 (cls : N -> bool) : regex := Rep true 1 None cls.
Definition many0 (cls : N -> bool) : regex := Rep true 0 None cls.
Definition maybe (cls : N -> bool) : regex := Rep true 0 (Some 1%nat) cls.

Fixpoint sequence (l : list regex) : regex :=
  match l with
  | [] => Rep true 0 (Some 0%nat) dot_all
  | [r] => r
  | r :: l' => Seq r (sequence l')
  end.

(** [r'(\d+)\.\s+(.*?)(?=\n\d+\.|$)'] with [re.DOTALL]. *)
Definition task_pattern : regex :=
  sequence [ Group 1 (many1 isdecimal); Chr (only 0x2e); many1 isspace;
        Group 2 (Rep false 0 None dot_all);
        Ahead
          (Alt (sequence [Chr (only 0xa); many1 isdecimal; Chr (only 0x2e)])
             Eos) ].

(** [r'\b\d{1,4}\s*г\.?|\b\d{1,4}[-–]\d{1,4}\s*гг\.?'] *)
Definition date_pattern : regex :=
  Alt
    (sequence [ Bound; Rep true 1 (Some 4%nat) isdecimal; many0 isspace;
           Chr (only 0x433); maybe (only 0x2e) ])
    (sequence [ Bound; Rep true 1 (Some 4%nat) isdecimal;
           Chr (any_of [only 0x2d; only 0x2013]);
           Rep true 1 (Some 4%nat) isdecimal; many0 isspace;
           Chr (only 0x433); Chr (only 0x433); maybe (only 0x2e) ]).

(** [r'\b[А-ЯЁ][а-яё]+\s+[А-ЯЁ][а-яё]+'] *)
Definition upper_cyr : N -> bool := any_of [between 0x410 0x42f; only 0x401].
Definition lower_cyr : N -> bool := any_of [between 0x430 0x44f; only 0x451].

Definition name_pattern : regex :=
  sequence [ Bound; Chr upper_cyr; many1 lower_cyr; many1 isspace;
        Chr upper_cyr; many1 lower_cyr ].

(** [r'[a-zа-я0-9\s\+\-\*\/\(\)]+\s*=\s*[a-zа-я0-9\s\+\-\*\/\(\)]+']
    with [re.IGNORECASE]. *)
Definition formula_class `{Interp} : N -> bool :=
  ignorecase
    (any_of [ between 0x61 0x7a; between 0x430 0x44f; between 0x30 0x39;
              isspace; only 0x2b; only 0x2d; only 0x2a; only 0x2f;
              only 0x28; only 0x29 ]).

Definition formula_pattern `{Interp} : regex :=
  sequence [ many1 formula_class; many0 isspace; Chr (only 0x3d); many0 isspace;
        many1 formula_class ].

(** An interpreter for the examples: nothing alphanumeric above U+052F,
    case variants for the Latin and Cyrillic alphabets, a set iterated in
    order of first insertion, and an empty [repr]. *)
Definition basic_case_variants (c : N) : list N :=
  if between 0x41 0x5a c || between 0x410 0x42f c then [c + 32]
  else if between 0x61 0x7a c || between 0x430 0x44f c then [c - 32]
  else if between 0x400 0x40f c then [c + 80]
  else if between 0x450 0x45f c then [c - 80]
  else [].

#[refine] Instance basic_interp : Interp := {
  isalnum_ext := fun _ => false;
  case_variants := basic_case_variants;
  set_order := remove_dups;
  py_repr := fun _ => []
}.
Proof.
  - intros l. apply NoDup_remove_dups.
  - intros l x. rewrite <- !list_elem_of_In. apply elem_of_remove_dups.
Defined.

(** ** Python values, dicts and exceptions *)

(** A [dict] with [str] keys, in insertion order; a key occurs once. *)
Definition dict := list (str * pyval).

Fixpoint dict_get (k : str) (d : dict) : option pyval :=
  match d with
  | [] => None
  | (k', v) :: d' => if str_eqb k' k then Some v else dict_get k d'
  end.

(** [d[k] = v]: the value of an existing key is replaced where it stands, a
    new key goes to the end. *)
Fixpoint dict_set (k : str) (v : pyval) (d : dict) : dict :=
  match d with
  | [] => [(k, v)]
  | (k', v') :: d' =>
      if str_eqb k' k then (k', v) :: d' else (k', v') :: dict_set k v d'
  end.

(** [d.update(e)] *)
Definition dict_update (d e : dict) : dict :=
  fold_left (fun acc kv => dict_set (fst kv) (snd kv) acc) e d.

(** [d.get(k, default)] *)
Definition dict_get_default (k : str) (default : pyval) (d : dict) : pyval :=
  match dict_get k d with
  | Some v => v
  | None => default
  end.

(** The exceptions of class [Exception] that occur; [Fault] is any other
    one, with its [str()]. *)
Inductive exn :=
| KeyError (key : str)
| IndexError (msg : str)
| ValueError (msg : str)
| TypeError (msg : str)
| Fault (detail : str).

Inductive result (A : Type) :=
| Ok (a : A)
| Raise (e : exn).
Arguments Ok {A} a.
Arguments Raise {A} e.

Definition bind {A B} (r : result A) (f : A -> result B) : result B :=
  match r with
  | Ok a => f a
  | Raise e => Raise e
  end.

Notation "'let!' x ':=' r 'in' k" := (bind r (fun x => k))
  (at level 10, x name, r at level 100, k at level 200).

(** [d[k]] *)
Definition dict_item (k : str) (d : dict) : result pyval :=
  match dict_get k d with
  | Some v => Ok v
  | None => Raise (KeyError k)
  end.

(** [l[i]] for [i >= 0] *)
Definition list_item {A} (l : list A) (i : nat) : result A :=
  match l !! i with
  | Some x => Ok x
  | None => Raise (IndexError (u "list index out of range"))
  end.

(** [str(v)], which an f-string applies to a value. *)
Definition py_str `{Interp} (v : pyval) : str :=
  match v with
  | PNone => u "None"
  | PInt z => str_of_int z
  | PStr s => s
  | _ => py_repr v
  end.

(** [str(e)] *)
Definition exn_str `{Interp} (e : exn) : str :=
  match e with
  | KeyError k => py_repr (PStr k)
  | IndexError m | ValueError m | TypeError m | Fault m => m
  end.

(** ** config.py *)

Module Config.
Definition CHROMA_COLLECTION_PREFIX : str := u "textbook".
Definition OLLAMA_MODEL : str := u "qwen3:8b".
End Config.

Record TextbookMetadata := {
  title : str;
  author : str;
  year : Z;
  grade : Z;
  subject : str;
  isbn : option str;
  part : option Z
}.

Definition opt_val {A} (f : A -> pyval) (o : option A) : pyval :=
  match o with
  | Some a => f a
  | None => PNone
  end.

Definition model_dump (m : TextbookMetadata) : dict :=
  [ (u "title", PStr (title m)); (u "author", PStr (author m));
    (u "year", PInt (year m)); (u "grade", PInt (grade m));
    (u "subject", PStr (subject m)); (u "isbn", opt_val PStr (isbn m));
    (u "part", opt_val PInt (part m)) ].

(** ** 2_structure_data.py *)

Record chunk := {
  chunk_id : str;
  metadata : dict;
  content : dict
}.

Record ChunkCreator := {
  creator_subject : str;
  chunk_id_counter : Z
}.

(** [ChunkCreator(subject)] *)
Definition new_creator (subject : str) : ChunkCreator :=
  {| creator_subject := subject; chunk_id_counter := 0 |}.

Section Segmenter.
Context `{Interp}.

(** The counter is advanced before the identifier is formatted. *)
Definition create_chunk_id (self : ChunkCreator) (metadata : dict)
    : ChunkCreator * result str :=
  let self :=
    {| creator_subject := creator_subject self;
       chunk_id_counter := chunk_id_counter self + 1 |} in
  (self,
   let! grade := dict_item (u "grade") metadata in
   let chapter := dict_get_default (u "chapter") (PInt 0) metadata in
   let! page := dict_item (u "page") metadata in
   Ok (creator_subject self ++ u "_" ++ py_str grade ++ u "_" ++
       u "ch" ++ py_str chapter ++ u "_" ++
       u "p" ++ py_str page ++ u "_" ++
       str_of_int (chunk_id_counter self))).

Definition _extract_formulas (text : str) : list str :=
  map PyStr.strip (findall isword formula_pattern text).

Definition extract_math_tasks (page_text : str) (page_num : Z)
    : list chunk :=
  map
    (fun task =>
       let '(task_num, task_text) := task in
       {| chunk_id :=
            u "math_temp_" ++ str_of_int page_num ++ u "_" ++ task_num;
          metadata :=
            [ (u "page", PInt page_num);
              (u "task_number", PInt (int_of_digits task_num));
              (u "content_type", PStr (u "task")) ];
          content :=
            [ (u "text", PStr (PyStr.strip task_text));
              (u "formulas",
               PList (map PStr (_extract_formulas task_text))) ] |})
    (findall2 isword task_pattern page_text).

(** The paragraphs of a page: [[p.strip() for p in
    page_text.split('\n\n') if p.strip()]]. *)
Definition paragraphs (page_text : str) : list str :=
  map PyStr.strip
    (filter (fun p => PyStr.strip p <> [])
       (PyStr.split (u "\n\n") page_text)).

Definition extract_history_content (page_text : str) (page_num : Z)
    : list chunk :=
  imap
    (fun idx para =>
       let dates := findall isword date_pattern para in
       let names := findall isword name_pattern para in
       {| chunk_id :=
            u "history_temp_" ++ str_of_int page_num ++ u "_" ++
            str_of_int (Z.of_nat idx);
          metadata :=
            [ (u "page", PInt page_num);
              (u "content_type", PStr (u "text"));
              (u "dates", PList (map PStr dates));
              (u "historical_figures",
               PList (map PStr (set_order names))) ];
          content := [ (u "text", PStr para) ] |})
    (paragraphs page_text).
End Segmenter.

(** The page files of the OCR directory, in the order [sorted] gives them:
    the number read from the name of [page_NNN.json], and the [text] of
    its content. *)
Record page_file := {
  page_num : Z;
  page_text : str
}.

(** What a run leaves behind: the name of the file written, the dict
    given to [json.dump], and the list returned. *)
Record run := {
  output_file : str;
  dumped : pyval;
  all_chunks : list chunk
}.

(** A chunk as the dict it is in the source. *)
Definition chunk_dict (c : chunk) : pyval :=
  PDict [ (u "chunk_id", PStr (chunk_id c));
          (u "metadata", PDict (metadata c));
          (u "content", PDict (content c)) ].

Section Structure.
Context `{Interp}.

(** The inner loop over the chunks of one page: book metadata, then the
    final identifier. *)
Fixpoint finalize (textbook_metadata : TextbookMetadata)
    (chunk_creator : ChunkCreator) (chunks : list chunk)
    : result (ChunkCreator * list chunk) :=
  match chunks with
  | [] => Ok (chunk_creator, [])
  | chunk :: rest =>
      let metadata :=
        dict_update (metadata chunk)
          [ (u "textbook_title", PStr (title textbook_metadata));
            (u "grade", PInt (grade textbook_metadata));
            (u "subject", PStr (subject textbook_metadata));
            (u "author", PStr (author textbook_metadata)) ] in
      let (chunk_creator, id) := create_chunk_id chunk_creator metadata in
      let! id := id in
      let! done := finalize textbook_metadata chunk_creator rest in
      Ok (fst done,
          {| chunk_id := id; metadata := metadata;
             content := content chunk |} :: snd done)
  end.

(** The loop over the pages. *)
Fixpoint process_pages (textbook_metadata : TextbookMetadata)
    (chunk_creator : ChunkCreator) (page_files : list page_file)
    (all_chunks : list chunk) : result (list chunk) :=
  match page_files with
  | [] => Ok all_chunks
  | page_file :: rest =>
      let page_num := page_num page_file in
      let page_text := page_text page_file in
      if str_eqb (subject textbook_metadata) (u "математика") then
        let chunks := extract_math_tasks page_text page_num in
        let! done := finalize textbook_metadata chunk_creator chunks in
        process_pages textbook_metadata (fst done) rest
          (all_chunks ++ snd done)
      else if str_eqb (subject textbook_metadata) (u "история") then
        let chunks := extract_history_content page_text page_num in
        let! done := finalize textbook_metadata chunk_creator chunks in
        process_pages textbook_metadata (fst done) rest
          (all_chunks ++ snd done)
      else
        process_pages textbook_metadata chunk_creator rest all_chunks
  end.

Definition structure_textbook (page_files : list page_file)
    (textbook_metadata : TextbookMetadata) : result run :=
  let chunk_creator := new_creator (subject textbook_metadata) in
  let! all_chunks :=
    process_pages textbook_metadata chunk_creator page_files [] in
  Ok {| output_file :=
          subject textbook_metadata ++ u "_" ++
          str_of_int (grade textbook_metadata) ++ u "_chunks.json";
        dumped :=
          PDict [ (u "metadata", PDict (model_dump textbook_metadata));
                  (u "chunks", PList (map chunk_dict all_chunks));
                  (u "total_chunks",
                   PInt (Z.of_nat (length all_chunks))) ];
        all_chunks := all_chunks |}.
End Structure.

(** ** The chunk file

    [json.dump] and [json.load] by the conversion table of the [json]
    module: a dict is an object, a list or a tuple an array, an [int] a
    number, [None] is [null]; an object is read into a dict key by key, a
    repeated key keeping its last value, and an array into a list.  The
    characters of the file are those of the module and not modelled. *)

#[local] Unset Elimination Schemes.
Inductive json :=
| JNull
| JNumber (z : Z)
| JString (s : str)
| JArray (l : list json)
| JObject (members : list (str * json)).
#[local] Set Elimination Schemes.

Fixpoint json_dump (v : pyval) : json :=
  match v with
  | PNone => JNull
  | PInt z => JNumber z
  | PStr s => JString s
  | PList l | PTuple l => JArray (map json_dump l)
  | PDict d => JObject (map (fun kv => (fst kv, json_dump (snd kv))) d)
  end.

Fixpoint json_load (j : json) : pyval :=
  match j with
  | JNull => PNone
  | JNumber z => PInt z
  | JString s => PStr s
  | JArray l => PList (map json_load l)
  | JObject ms =>
      PDict (dict_update [] (map (fun kv => (fst kv, json_load (snd kv))) ms))
  end.

(** ** 3_create_embeddings.py: reading the chunk file *)



Fixpoint traverse {A B} (f : A -> result B) (l : list A) : result (list B) :=
  match l with
  | [] => Ok []
  | a :: l' =>
      let! b := f a in
      let! bs := traverse f l' in
      Ok (b :: bs)
  end.



(** ** 4_rag_query.py *)

Record retrieved := {
  id : str;
  document : str;
  chunk_metadata : dict;
  distance : float
}.

(** What [collection.query] returns: one inner list per query vector. *)
Record query_result := {
  ids : list (list str);
  documents : list (list str);
  metadatas : list (list dict);
  distances : list (list float)
}.

Record source := {
  textbook : pyval;
  page : pyval;
  relevance : float
}.

Record answer_metadata := {
  answer_subject : str;
  answer_grade : Z;
  model : str;
  chunks_used : Z
}.

Record answer_result := {
  query : str;
  answer : pyval;
  sources : list source;
  result_metadata : answer_metadata
}.

Definition quote : str := [0x22].

Section RAG.
Context `{Interp}.

(** The collaborators: the collections of the vector index, the
    embedding model, the nearest-neighbour query of a collection, and the
    generation runtime, which returns a dict or raises. *)
Variable collection : Type.
Variable encode : str -> list float.
Variable collection_query :
  collection -> list float -> Z -> result query_result.
Variable ollama_generate : str -> str -> result dict.

Record RAGSystem := {
  client : gmap str collection;
  ollama_model : str
}.

(** [client.get_collection(name=...)] raises when the index has no
    collection of that name. *)
Definition get_collection (client : gmap str collection) (name : str)
    : result collection :=
  match client !! name with
  | Some c => Ok c
  | None =>
      Raise (Fault (u "Collection " ++ name ++ u " does not exist."))
  end.

Definition search_relevant_chunks (self : RAGSystem) (query : str)
    (subject : str) (grade : Z) (n_results : Z) : result (list retrieved) :=
  let collection_name :=
    Config.CHROMA_COLLECTION_PREFIX ++ u "_" ++ subject ++ u "_" ++
    str_of_int grade in
  match get_collection (client self) collection_name with
  | Raise _ =>
      Raise (ValueError
               (u "Коллекция '" ++ collection_name ++
                u "' не найдена. Запустите 3_create_embeddings.py"))
  | Ok collection =>
      let query_embedding := encode query in
      let! results :=
        collection_query collection query_embedding n_results in
      let! ids0 := list_item (ids results) 0%nat in
      traverse
        (fun i =>
           let! ids0 := list_item (ids results) 0%nat in
           let! id := list_item ids0 i in
           let! docs0 := list_item (documents results) 0%nat in
           let! doc := list_item docs0 i in
           let! metas0 := list_item (metadatas results) 0%nat in
           let! meta := list_item metas0 i in
           let! dists0 := list_item (distances results) 0%nat in
           let! dist := list_item dists0 i in
           Ok {| id := id; document := doc; chunk_metadata := meta;
                 distance := dist |})
        (List.seq 0 (length ids0))
  end.

Definition context_part (idx : nat) (chunk : retrieved) : str :=
  let metadata := chunk_metadata chunk in
  u "[Источник " ++ str_of_int (Z.of_nat idx) ++ u "]\n" ++
  u "Учебник: " ++
  py_str (dict_get_default (u "textbook_title") (PStr (u "Неизвестно"))
            metadata) ++ u "\n" ++
  u "Страница: " ++
  py_str (dict_get_default (u "page") (PStr (u "?")) metadata) ++ u "\n" ++
  u "Содержание:\n" ++ document chunk ++ u "\n".

Definition create_prompt (query : str) (chunks : list retrieved)
    (grade : Z) (subject : str) : str :=
  let context_parts := imap (fun i => context_part (S i)) chunks in
  let context := PyStr.join (u "\n") context_parts in
  u "Ты — репетитор для школьника " ++ str_of_int grade ++
  u " класса по предмету " ++ quote ++ subject ++ quote ++ u ".\n\n" ++
  u "КОНТЕКСТ ИЗ УЧЕБНИКА:\n" ++ context ++ u "\n\n" ++
  u "ВОПРОС УЧЕНИКА:\n" ++ query ++ u "\n\n" ++
  u "ПРАВИЛА ОТВЕТА:\n" ++
  u "1. Используй ТОЛЬКО информацию из предоставленного контекста\n" ++
  u "2. Объясняй на уровне " ++ str_of_int grade ++ u " класса\n" ++
  u "3. Приводи примеры из учебника, если есть\n" ++
  u "4. Если в контексте нет ответа, честно скажи об этом\n" ++
  u "5. Укажи источник (страницу учебника)\n" ++
  u "6. Объясняй пошагово\n\n" ++
  u "ОТВЕТ:".

Definition source_of (chunk : retrieved) : source :=
  {| textbook :=
       dict_get_default (u "textbook_title") (PStr (u "Неизвестно"))
         (chunk_metadata chunk);
     page := dict_get_default (u "page") (PStr (u "?"))
               (chunk_metadata chunk);
     relevance := (1 - distance chunk)%float |}.

(** The narration under [verbose] prints and changes nothing else; it is
    left out. *)
Definition answer_question (self : RAGSystem) (query : str)
    (subject : str) (grade : Z) (n_results : Z) : result answer_result :=
  let! chunks :=
    search_relevant_chunks self query subject grade n_results in
  let prompt := create_prompt query chunks grade subject in
  let answer :=
    match
      (let! response := ollama_generate (ollama_model self) prompt in
       dict_item (u "response") response)
    with
    | Ok answer => answer
    | Raise e => PStr (u "Ошибка при генерации ответа: " ++ exn_str e)
    end in
  Ok {| query := query;
        answer := answer;
        sources := map source_of chunks;
        result_metadata :=
          {| answer_subject := subject; answer_grade := grade;
             model := ollama_model self;
             chunks_used := Z.of_nat (length chunks) |} |}.
End RAG.

(** * Properties *)

Arguments u : simpl never.

(** ** Dicts *)

Lemma str_eqb_eq (a b : str) : str_eqb a b = true <-> a = b.
Proof. unfold str_eqb. apply bool_decide_eq_true. Qed.

Lemma str_eqb_neq (a b : str) : str_eqb a b = false <-> a <> b.
Proof. unfold str_eqb. apply bool_decide_eq_false. Qed.

Lemma dict_get_set (k k' : str) (v : pyval) (d : dict) :
  dict_get k (dict_set k' v d) = if str_eqb k' k then Some v else dict_get k d.
Proof.
  induction d as [|[k0 v0] d IH]; simpl.
  - destruct (str_eqb k' k); reflexivity.
  - destruct (str_eqb k0 k') eqn:E0; simpl.
    + apply str_eqb_eq in E0; subst k0.
      destruct (str_eqb k' k); reflexivity.
    + destruct (str_eqb k0 k) eqn:E1; [|exact IH].
      apply str_eqb_eq in E1; subst k0.
      destruct (str_eqb k' k) eqn:E2; [|reflexivity].
      apply str_eqb_eq in E2; subst k'.
      apply str_eqb_neq in E0. destruct E0; reflexivity.
Qed.

Lemma dict_get_update (k : str) (e d : dict) :
  dict_get k (dict_update d e) =
  match dict_get k (rev e) with
  | Some v => Some v
  | None => dict_get k d
  end.
Proof.
  unfold dict_update. revert d.
  induction e as [|[k' v'] e IH] using rev_ind; intros d; simpl.
  - reflexivity.
  - rewrite fold_left_app, rev_app_distr. simpl.
    rewrite dict_get_set, IH.
    destruct (str_eqb k' k); reflexivity.
Qed.

(** The keys of a dict. *)
Definition keys (d : dict) : list str := map fst d.

Lemma keys_dict_set (k : str) (v : pyval) (d : dict) :
  keys (dict_set k v d) = if bool_decide (k ∈ keys d) then keys d
                          else keys d ++ [k].
Proof.
  unfold keys. induction d as [|[k0 v0] d IH]; simpl.
  - reflexivity.
  - destruct (str_eqb k0 k) eqn:E; simpl.
    + apply str_eqb_eq in E; subst.
      rewrite bool_decide_eq_true_2 by left. reflexivity.
    + apply str_eqb_neq in E. rewrite IH.
      destruct (bool_decide (k ∈ map fst d)) eqn:D.
      * apply bool_decide_eq_true in D.
        rewrite bool_decide_eq_true_2 by (right; exact D). reflexivity.
      * apply bool_decide_eq_false in D.
        rewrite bool_decide_eq_false_2; [reflexivity|].
        intros [->|?]%elem_of_cons; [apply E; reflexivity|auto].
Qed.

Lemma NoDup_keys_dict_set (k : str) (v : pyval) (d : dict) :
  NoDup (keys d) -> NoDup (keys (dict_set k v d)).
Proof.
  intros Hd. rewrite keys_dict_set. case_bool_decide as E; [exact Hd|].
  apply NoDup_app. split; [exact Hd|]. split.
  - intros x Hx ->%list_elem_of_singleton. exact (E Hx).
  - apply NoDup_singleton.
Qed.

Lemma NoDup_keys_dict_update (d e : dict) :
  NoDup (keys d) -> NoDup (keys (dict_update d e)).
Proof.
  unfold dict_update. revert d.
  induction e as [|[k v] e IH]; intros d Hd; simpl; [exact Hd|].
  apply IH, NoDup_keys_dict_set, Hd.
Qed.

(** ** One run of structure_textbook *)

(** The identifier a chunk of page [page] gets when the counter shows [k]:
    no chunk carries a chapter, so the chapter is the default. *)
Definition final_id (tm : TextbookMetadata) (page k : Z) : str :=
  subject tm ++ u "_" ++ str_of_int (grade tm) ++ u "_" ++
  u "ch" ++ str_of_int 0 ++ u "_" ++
  u "p" ++ str_of_int page ++ u "_" ++ str_of_int k.

Definition with_book (tm : TextbookMetadata) (md : dict) : dict :=
  dict_update md
    [ (u "textbook_title", PStr (title tm)); (u "grade", PInt (grade tm));
      (u "subject", PStr (subject tm)); (u "author", PStr (author tm)) ].

(** A chunk as an extractor leaves it: a page number, no chapter. *)
Definition paged (p : Z) (c : chunk) : Prop :=
  dict_get (u "page") (metadata c) = Some (PInt p) /\
  dict_get (u "chapter") (metadata c) = None.

Definition page_of (c : chunk) : Z :=
  match dict_get (u "page") (metadata c) with
  | Some (PInt p) => p
  | _ => 0%Z
  end.

Definition finalized (tm : TextbookMetadata) (start : Z) (i : nat)
    (c : chunk) : chunk :=
  {| chunk_id := final_id tm (page_of c) (start + Z.of_nat i + 1);
     metadata := with_book tm (metadata c);
     content := content c |}.

Definition advance (cc : ChunkCreator) (n : nat) : ChunkCreator :=
  {| creator_subject := creator_subject cc;
     chunk_id_counter := chunk_id_counter cc + Z.of_nat n |}.

Ltac key_neq := let E := fresh in intros E; vm_compute in E; discriminate E.

Lemma with_book_page (tm : TextbookMetadata) (md : dict) :
  dict_get (u "page") (with_book tm md) = dict_get (u "page") md.
Proof. unfold with_book. rewrite dict_get_update. reflexivity. Qed.

Lemma with_book_chapter (tm : TextbookMetadata) (md : dict) :
  dict_get (u "chapter") (with_book tm md) = dict_get (u "chapter") md.
Proof. unfold with_book. rewrite dict_get_update. reflexivity. Qed.

Lemma with_book_grade (tm : TextbookMetadata) (md : dict) :
  dict_get (u "grade") (with_book tm md) = Some (PInt (grade tm)).
Proof. unfold with_book. rewrite dict_get_update. reflexivity. Qed.

Section Run.
Context `{Interp}.
Variable tm : TextbookMetadata.

Lemma create_chunk_id_final (cc : ChunkCreator) (c : chunk) (p : Z) :
  creator_subject cc = subject tm ->
  paged p c ->
  create_chunk_id cc (with_book tm (metadata c)) =
  (advance cc 1, Ok (final_id tm p (chunk_id_counter cc + 1))).
Proof.
  intros Hs [Hp Hc]. unfold create_chunk_id, dict_item, dict_get_default.
  rewrite with_book_grade, with_book_page, with_book_chapter, Hp, Hc.
  cbn [bind py_str creator_subject chunk_id_counter].
  unfold advance. rewrite Hs. reflexivity.
Qed.

Lemma finalize_ok (chunks : list chunk) (cc : ChunkCreator) :
  creator_subject cc = subject tm ->
  Forall (fun c => exists p, paged p c) chunks ->
  finalize tm cc chunks =
  Ok (advance cc (length chunks),
      imap (finalized tm (chunk_id_counter cc)) chunks).
Proof.
  revert cc. induction chunks as [|c chunks IH]; intros cc Hs Hall.
  - simpl. unfold advance. rewrite Z.add_0_r. destruct cc; reflexivity.
  - apply Forall_cons in Hall as [[p Hp] Hall].
    cbn [finalize]. fold (with_book tm (metadata c)).
    rewrite (create_chunk_id_final cc c p Hs Hp).
    cbn [bind]. rewrite IH by (assumption || exact Hs).
    cbn [bind fst snd imap]. f_equal. f_equal.
    + unfold advance; simpl. f_equal. lia.
    + f_equal.
      * unfold finalized. f_equal. unfold page_of.
        destruct Hp as [-> _]. f_equal. lia.
      * apply imap_ext. intros i x _. unfold finalized, advance; simpl.
        f_equal. f_equal. lia.
Qed.
End Run.

Section Drafts.
Context `{Interp}.
Variable tm : TextbookMetadata.

(** The chunks of a page before the second pass. *)
Definition page_drafts (pf : page_file) : list chunk :=
  if str_eqb (subject tm) (u "математика") then
    extract_math_tasks (page_text pf) (page_num pf)
  else if str_eqb (subject tm) (u "история") then
    extract_history_content (page_text pf) (page_num pf)
  else [].

Definition drafts (pages : list page_file) : list chunk :=
  flat_map page_drafts pages.

Lemma extract_math_tasks_paged (text : str) (n : Z) :
  Forall (paged n) (extract_math_tasks text n).
Proof.
  unfold extract_math_tasks. apply Forall_map, Forall_forall.
  intros [num body] _. split; reflexivity.
Qed.

Lemma extract_history_content_paged (text : str) (n : Z) :
  Forall (paged n) (extract_history_content text n).
Proof.
  unfold extract_history_content. apply Forall_lookup.
  intros i c. rewrite list_lookup_imap.
  destruct (paragraphs text !! i); [|discriminate].
  intros [= <-]. split; reflexivity.
Qed.

Lemma page_drafts_paged (pf : page_file) :
  Forall (paged (page_num pf)) (page_drafts pf).
Proof.
  unfold page_drafts.
  destruct (str_eqb _ _); [apply extract_math_tasks_paged|].
  destruct (str_eqb _ _); [apply extract_history_content_paged|].
  constructor.
Qed.

Lemma drafts_paged (pages : list page_file) :
  Forall (fun c => exists p, paged p c) (drafts pages).
Proof.
  induction pages as [|pf pages IH]; simpl; [constructor|].
  apply Forall_app. split; [|exact IH].
  eapply Forall_impl; [apply page_drafts_paged|].
  intros c Hc. exists (page_num pf). exact Hc.
Qed.

Lemma process_pages_ok (pages : list page_file) (cc : ChunkCreator)
    (acc : list chunk) :
  creator_subject cc = subject tm ->
  process_pages tm cc pages acc =
  Ok (acc ++ imap (finalized tm (chunk_id_counter cc)) (drafts pages)).
Proof.
  revert cc acc. induction pages as [|pf pages IH]; intros cc acc Hs.
  - simpl. rewrite app_nil_r. reflexivity.
  - assert (Hd : bind (finalize tm cc (page_drafts pf))
                (fun done => process_pages tm (fst done) pages
                               (acc ++ snd done)) =
              Ok (acc ++ imap (finalized tm (chunk_id_counter cc))
                              (drafts (pf :: pages)))).
    { rewrite finalize_ok; [|exact Hs|].
      - cbn [bind fst snd]. rewrite IH by exact Hs.
        cbn [drafts flat_map]. rewrite imap_app, <- app_assoc.
        f_equal. f_equal. f_equal. apply imap_ext.
        intros i c _. unfold finalized, advance; simpl. f_equal. f_equal.
        lia.
      - eapply Forall_impl; [apply page_drafts_paged|].
        intros c Hc. exists (page_num pf). exact Hc. }
    cbn [process_pages].
    destruct (str_eqb (subject tm) (u "математика")) eqn:E1.
    + rewrite <- Hd. unfold page_drafts. rewrite E1. reflexivity.
    + destruct (str_eqb (subject tm) (u "история")) eqn:E2.
      * rewrite <- Hd. unfold page_drafts. rewrite E1, E2. reflexivity.
      * rewrite IH by exact Hs. cbn [drafts flat_map].
        replace (page_drafts pf) with (@nil chunk); [reflexivity|].
        unfold page_drafts. rewrite E1, E2. reflexivity.
Qed.

(** A run always returns, and its chunks are the drafts of the pages, in
    order, numbered from one. *)
Lemma structure_textbook_ok (pages : list page_file) :
  exists r,
    structure_textbook pages tm = Ok r /\
    all_chunks r = imap (finalized tm 0) (drafts pages) /\
    dumped r =
      PDict [ (u "metadata", PDict (model_dump tm));
              (u "chunks", PList (map chunk_dict (all_chunks r)));
              (u "total_chunks",
               PInt (Z.of_nat (length (all_chunks r)))) ].
Proof.
  unfold structure_textbook.
  rewrite process_pages_ok by reflexivity. cbn [bind app].
  eexists. split; [reflexivity|]. split; reflexivity.
Qed.
End Drafts.

(** ** Decimal numerals *)

Definition digit_or_minus (c : N) : Prop := 0x2d <= c <= 0x39.

Lemma digits_of_uint_inj (d d' : Decimal.uint) :
  digits_of_uint d = digits_of_uint d' -> d = d'.
Proof.
  revert d'. induction d; destruct d'; simpl; intros E;
    try discriminate E; try reflexivity;
    injection E as E; f_equal; apply IHd; exact E.
Qed.

Lemma digits_of_uint_chars (d : Decimal.uint) :
  Forall (fun c => 0x30 <= c <= 0x39) (digits_of_uint d).
Proof. induction d; simpl; constructor; (lia || assumption). Qed.

Lemma str_of_N_inj (n n' : N) : str_of_N n = str_of_N n' -> n = n'.
Proof.
  intros E%digits_of_uint_inj.
  rewrite <- (DecimalN.Unsigned.of_to n), <- (DecimalN.Unsigned.of_to n').
  f_equal. exact E.
Qed.

Lemma str_of_int_chars (z : Z) : Forall digit_or_minus (str_of_int z).
Proof.
  assert (Hd : forall n, Forall digit_or_minus (str_of_N n)).
  { intros n. eapply Forall_impl; [apply digits_of_uint_chars|].
    unfold digit_or_minus. intros c; simpl; lia. }
  destruct z; simpl; try apply Hd.
  constructor; [unfold digit_or_minus; lia|apply Hd].
Qed.

Lemma str_of_int_inj (z z' : Z) : str_of_int z = str_of_int z' -> z = z'.
Proof.
  assert (Hneg : forall p n, 0x2d :: str_of_N (Npos p) <> str_of_N n).
  { intros p n E. pose proof (digits_of_uint_chars (N.to_uint n)) as Hc.
    unfold str_of_N in E. rewrite <- E in Hc.
    apply Forall_cons in Hc as [Hc _]. lia. }
  destruct z as [|p|p], z' as [|q|q]; simpl; intros E;
    try reflexivity;
    try (apply str_of_N_inj in E; lia);
    try (exfalso; eapply Hneg; exact E);
    try (exfalso; eapply Hneg; symmetry; exact E).
  injection E as E. apply str_of_N_inj in E. lia.
Qed.

(** Two texts cut at the first [sep] are equal piece by piece. *)
Lemma app_sep_inj (sep : N) (a a' b b' : str) :
  sep ∉ a -> sep ∉ a' ->
  a ++ sep :: b = a' ++ sep :: b' -> a = a' /\ b = b'.
Proof.
  revert a'. induction a as [|x a IH]; intros [|x' a'] Ha Ha' E; simpl in E.
  - injection E as <-. split; reflexivity.
  - injection E as <- _. exfalso. apply Ha'. left.
  - injection E as -> _. exfalso. apply Ha. left.
  - injection E as <- E. apply IH in E as [<- <-].
    + split; reflexivity.
    + intros ?. apply Ha. right. assumption.
    + intros ?. apply Ha'. right. assumption.
Qed.

Lemma final_id_inj (tm : TextbookMetadata) (p p' k k' : Z) :
  final_id tm p k = final_id tm p' k' -> p = p' /\ k = k'.
Proof.
  unfold final_id. intros E.
  repeat apply app_inv_head in E.
  change (u "_") with [0x5f] in E. simpl in E.
  apply app_sep_inj in E as [Ep Ek].
  - split; apply str_of_int_inj; assumption.
  - intros Hin. pose proof (str_of_int_chars p) as Hc.
    rewrite Forall_forall in Hc. apply Hc in Hin.
    unfold digit_or_minus in Hin. lia.
  - intros Hin. pose proof (str_of_int_chars p') as Hc.
    rewrite Forall_forall in Hc. apply Hc in Hin.
    unfold digit_or_minus in Hin. lia.
Qed.

(** ** The claims on structure_textbook *)

Lemma lookup_run_chunk `{Interp} (tm : TextbookMetadata)
    (ds : list chunk) (i : nat) (c : chunk) :
  Forall (fun c => exists p, paged p c) ds ->
  imap (finalized tm 0) ds !! i = Some c ->
  exists d p,
    ds !! i = Some d /\ paged p d /\
    chunk_id c = final_id tm p (Z.of_nat i + 1) /\
    metadata c = with_book tm (metadata d) /\
    content c = content d.
Proof.
  intros Hall. rewrite list_lookup_imap.
  destruct (ds !! i) as [d|] eqn:Ed; [|discriminate].
  intros [= <-]. rewrite Forall_lookup in Hall.
  destruct (Hall i d Ed) as [p Hp]. exists d, p.
  split; [reflexivity|]. split; [exact Hp|]. split; [|split; reflexivity].
  unfold finalized, page_of; simpl. destruct Hp as [-> _]. reflexivity.
Qed.

(** C7. Each chunk of a run gets its final identifier in the second pass:
    [create_chunk_id] advances the counter of the creator by one and
    composes subject, grade, chapter (0 when the metadata has none), page
    and the new counter value; in a run, which always returns, the chunk at
    position [i] (from 0) of the collection is the [i]-th draft with the
    book metadata added, and its identifier is composed of the subject and
    grade of the book, chapter 0, its own page and [i + 1]. *)
Theorem final_ids_by_sequential_counter `{Interp}
    (pages : list page_file) (tm : TextbookMetadata) :
  (forall (cc : ChunkCreator) (md : dict) (g p : pyval),
     dict_get (u "grade") md = Some g ->
     dict_get (u "page") md = Some p ->
     create_chunk_id cc md =
     ({| creator_subject := creator_subject cc;
         chunk_id_counter := chunk_id_counter cc + 1 |},
      Ok (creator_subject cc ++ u "_" ++ py_str g ++ u "_" ++
          u "ch" ++ py_str (dict_get_default (u "chapter") (PInt 0) md) ++
          u "_" ++ u "p" ++ py_str p ++ u "_" ++
          str_of_int (chunk_id_counter cc + 1)))) /\
  exists r,
    structure_textbook pages tm = Ok r /\
    length (all_chunks r) = length (drafts tm pages) /\
    forall (i : nat) (c : chunk),
      all_chunks r !! i = Some c ->
      exists d p,
        drafts tm pages !! i = Some d /\
        metadata c = with_book tm (metadata d) /\
        content c = content d /\
        dict_get (u "page") (metadata c) = Some (PInt p) /\
        dict_get (u "chapter") (metadata c) = None /\
        chunk_id c =
          subject tm ++ u "_" ++ str_of_int (grade tm) ++ u "_" ++
          u "ch" ++ str_of_int 0 ++ u "_" ++
          u "p" ++ str_of_int p ++ u "_" ++ str_of_int (Z.of_nat i + 1).
Proof.
  split.
  - intros cc md g p Hg Hp. unfold create_chunk_id, dict_item.
    rewrite Hg, Hp. reflexivity.
  - destruct (structure_textbook_ok tm pages) as (r & Hr & Hc & _).
    exists r. split; [exact Hr|]. rewrite Hc. split.
    + apply length_imap.
    + intros i c Hi.
      apply lookup_run_chunk in Hi as (d & p & Hd & [Hp Hch] & Hid & Hm & Hct);
        [|apply drafts_paged].
      exists d, p. rewrite Hm, with_book_page, with_book_chapter.
      repeat split; assumption.
Qed.

(** C5. In one run over any list of page files, which always returns, the
    final identifiers of the chunks of the collection are pairwise
    distinct. *)
Theorem chunk_ids_pairwise_distinct `{Interp}
    (pages : list page_file) (tm : TextbookMetadata) :
  exists r,
    structure_textbook pages tm = Ok r /\
    NoDup (map chunk_id (all_chunks r)).
Proof.
  destruct (structure_textbook_ok tm pages) as (r & Hr & Hc & _).
  exists r. split; [exact Hr|]. rewrite Hc.
  apply NoDup_alt. intros i j x Hi Hj.
  change (map chunk_id ?l) with (chunk_id <$> l) in Hi, Hj.
  rewrite list_lookup_fmap in Hi, Hj.
  destruct (imap _ _ !! i) as [ci|] eqn:Ei; [|discriminate].
  destruct (imap _ _ !! j) as [cj|] eqn:Ej; [|discriminate].
  simpl in Hi, Hj. injection Hi as Hi. injection Hj as Hj.
  apply lookup_run_chunk in Ei as (_ & pi & _ & _ & Hidi & _);
    [|apply drafts_paged].
  apply lookup_run_chunk in Ej as (_ & pj & _ & _ & Hidj & _);
    [|apply drafts_paged].
  rewrite Hidi in Hi. rewrite Hidj, <- Hi in Hj.
  apply final_id_inj in Hj as [_ Hk]. lia.
Qed.


Definition physics_book : TextbookMetadata :=
  {| title := u "Физика. 7 класс"; author := u "Перышкин А.В.";
     year := 2021; grade := 7; subject := u "физика";
     isbn := None; part := None |}.


(** ** The claims on RAGSystem *)

(** The name under which the collection of a subject and grade is looked
    up. *)
Definition collection_name (subject : str) (grade : Z) : str :=
  Config.CHROMA_COLLECTION_PREFIX ++ u "_" ++ subject ++ u "_" ++
  str_of_int grade.

Definition not_found_message (name : str) : str :=
  u "Коллекция '" ++ name ++ u "' не найдена. Запустите 3_create_embeddings.py".

Section RAGProperties.
Context `{Interp}.
Variable collection : Type.
Variable encode : str -> list float.
Variable collection_query :
  collection -> list float -> Z -> result query_result.
Variable ollama_generate : str -> str -> result dict.

Local Abbreviation search :=
  (search_relevant_chunks collection encode collection_query).
Local Abbreviation ask :=
  (answer_question collection encode collection_query ollama_generate).

(** C3. When the index holds no collection for a subject and grade,
    [search_relevant_chunks] raises a [ValueError] whose message names the
    collection looked up and tells to run 3_create_embeddings.py; no other
    exception is raised and nothing is returned, and [answer_question]
    lets the same exception through. *)
Theorem missing_collection_raises_not_found (self : RAGSystem collection)
    (query subject : str) (grade n_results : Z) :
  client collection self !! collection_name subject grade = None ->
  search self query subject grade n_results =
    Raise (ValueError (not_found_message (collection_name subject grade))) /\
  ask self query subject grade n_results =
    Raise (ValueError (not_found_message (collection_name subject grade))).
Proof.
  intros Hnone.
  assert (Hs : search self query subject grade n_results =
               Raise (ValueError
                        (not_found_message (collection_name subject grade)))).
  { unfold search_relevant_chunks, get_collection.
    fold (collection_name subject grade). rewrite Hnone. reflexivity. }
  split; [exact Hs|].
  unfold answer_question. rewrite Hs. reflexivity.
Qed.

Lemma answer_question_ok (self : RAGSystem collection)
    (query subject : str) (grade n_results : Z) (chunks : list retrieved) :
  search self query subject grade n_results = Ok chunks ->
  exists a,
    ask self query subject grade n_results =
    Ok {| query := query; answer := a; sources := map source_of chunks;
          result_metadata :=
            {| answer_subject := subject; answer_grade := grade;
               model := ollama_model collection self;
               chunks_used := Z.of_nat (length chunks) |} |} /\
    a = match
          bind (ollama_generate (ollama_model collection self)
                  (create_prompt query chunks grade subject))
               (dict_item (u "response"))
        with
        | Ok a => a
        | Raise e => PStr (u "Ошибка при генерации ответа: " ++ exn_str e)
        end.
Proof.
  intros Hs. unfold answer_question. rewrite Hs. cbn [bind].
  eexists. split; reflexivity.
Qed.

(** C2. When retrieval succeeds and the generation runtime raises,
    [answer_question] raises nothing: it returns a result whose answer is
    the placeholder followed by the text of the exception, hence a
    non-empty string, and whose sources are as many as the chunks
    retrieved. *)
Theorem generation_fault_gives_placeholder_answer
    (self : RAGSystem collection) (query subject : str)
    (grade n_results : Z) (chunks : list retrieved) (e : exn) :
  search self query subject grade n_results = Ok chunks ->
  ollama_generate (ollama_model collection self)
    (create_prompt query chunks grade subject) = Raise e ->
  exists res,
    ask self query subject grade n_results = Ok res /\
    answer res = PStr (u "Ошибка при генерации ответа: " ++ exn_str e) /\
    answer res <> PStr [] /\
    length (sources res) = length chunks.
Proof.
  intros Hs Hg.
  destruct (answer_question_ok self query subject grade n_results chunks Hs)
    as (a & Hr & Ha).
  rewrite Hg in Ha. cbn [bind] in Ha. subst a.
  eexists. split; [exact Hr|]. cbn [answer sources].
  split; [reflexivity|]. split; [discriminate|]. apply length_map.
Qed.

(** C8. A call of [answer_question] that returns a result retrieved chunks,
    and the sources of the result mirror them one to one and in order:
    the source at each position carries the title and page of the chunk at
    that position (or the defaults) and the relevance [1 - distance]. *)
Theorem sources_mirror_retrieved_chunks (self : RAGSystem collection)
    (query subject : str) (grade n_results : Z) (res : answer_result) :
  ask self query subject grade n_results = Ok res ->
  exists chunks,
    search self query subject grade n_results = Ok chunks /\
    length (sources res) = length chunks /\
    forall (i : nat) (c : retrieved),
      chunks !! i = Some c ->
      exists s,
        sources res !! i = Some s /\
        relevance s = (1 - distance c)%float /\
        textbook s =
          dict_get_default (u "textbook_title") (PStr (u "Неизвестно"))
            (chunk_metadata c) /\
        page s =
          dict_get_default (u "page") (PStr (u "?")) (chunk_metadata c).
Proof.
  intros Hr.
  destruct (search self query subject grade n_results) as [chunks|e] eqn:Hs.
  - destruct (answer_question_ok self query subject grade n_results chunks Hs)
      as (a & Hr' & _).
    rewrite Hr' in Hr. injection Hr as <-. exists chunks.
    split; [reflexivity|]. cbn [sources]. split; [apply length_map|].
    intros i c Hi. exists (source_of c). split; [|repeat split].
    change (map source_of chunks) with (source_of <$> chunks).
    rewrite list_lookup_fmap, Hi. reflexivity.
  - unfold answer_question in Hr. rewrite Hs in Hr. discriminate Hr.
Qed.
End RAGProperties.

(** A small index for the examples: a collection is the list of what it
    returns, nearest first. *)
Definition history_collection : list retrieved :=
  [ {| id := u "история_6_ch0_p12_1";
       document := u "Ледовое побоище произошло в 1242 г.";
       chunk_metadata :=
         [ (u "page", PInt 12); (u "textbook_title", PStr (u "История. 6 класс")) ];
       distance := 0.25 |};
    {| id := u "история_6_ch0_p40_2";
       document := u "Иван Грозный правил долго.";
       chunk_metadata := [ (u "content_type", PStr (u "text")) ];
       distance := 0.5 |} ].

Definition list_query (c : list retrieved) (v : list float) (n : Z)
    : result query_result :=
  let c := firstn (Z.to_nat n) c in
  Ok {| ids := [map id c]; documents := [map document c];
        metadatas := [map chunk_metadata c]; distances := [map distance c] |}.

Definition history_index : RAGSystem (list retrieved) :=
  {| client := {[ collection_name (u "история") 6 := history_collection ]};
     ollama_model := Config.OLLAMA_MODEL |}.

Definition runtime_down (model prompt : str) : result dict :=
  Raise (Fault (u "connection refused")).

Definition runtime_up (model prompt : str) : result dict :=
  Ok [ (u "response", PStr (u "В 1242 году, см. стр. 12.")) ].

Lemma missing_collection_raises_not_found_witness :
  search_relevant_chunks (list retrieved) (fun _ => []) list_query
    history_index (u "Что такое дробь?") (u "математика") 5 3 =
    Raise (ValueError
             (not_found_message (collection_name (u "математика") 5))) /\
  answer_question (list retrieved) (fun _ => []) list_query runtime_up
    history_index (u "Что такое дробь?") (u "математика") 5 3 =
    Raise (ValueError
             (not_found_message (collection_name (u "математика") 5))).
Proof.
  apply (missing_collection_raises_not_found (H := basic_interp)).
  vm_compute. reflexivity.
Defined.

Lemma generation_fault_gives_placeholder_answer_witness :
  exists res,
    answer_question (list retrieved) (fun _ => []) list_query runtime_down
      history_index (u "Когда было Ледовое побоище?") (u "история") 6 3 =
      Ok res /\
    answer res =
      PStr (u "Ошибка при генерации ответа: " ++
            exn_str (Fault (u "connection refused"))) /\
    answer res <> PStr [] /\
    length (sources res) = length history_collection.
Proof.
  apply (generation_fault_gives_placeholder_answer (H := basic_interp)).
  - vm_compute. reflexivity.
  - reflexivity.
Defined.

Definition history_answer : answer_result :=
  Eval vm_compute in
    match
      answer_question (list retrieved) (fun _ => []) list_query runtime_up
        history_index (u "Когда было Ледовое побоище?") (u "история") 6 3
    with
    | Ok res => res
    | Raise _ =>
        {| query := []; answer := PNone; sources := [];
           result_metadata :=
             {| answer_subject := []; answer_grade := 0; model := [];
                chunks_used := 0 |} |}
    end.

Lemma sources_mirror_retrieved_chunks_witness :
  exists chunks,
    search_relevant_chunks (list retrieved) (fun _ => []) list_query
      history_index (u "Когда было Ледовое побоище?") (u "история") 6 3 =
      Ok chunks /\
    length (sources history_answer) = length chunks /\
    forall (i : nat) (c : retrieved),
      chunks !! i = Some c ->
      exists s,
        sources history_answer !! i = Some s /\
        relevance s = (1 - distance c)%float /\
        textbook s =
          dict_get_default (u "textbook_title") (PStr (u "Неизвестно"))
            (chunk_metadata c) /\
        page s =
          dict_get_default (u "page") (PStr (u "?")) (chunk_metadata c).
Proof.
  apply (sources_mirror_retrieved_chunks (H := basic_interp) _ _ _ runtime_up).
  vm_compute. reflexivity.
Defined.

Example history_answer_sources :
  sources history_answer =
  [ {| textbook := PStr (u "История. 6 класс"); page := PInt 12;
       relevance := 0.75 |};
    {| textbook := PStr (u "Неизвестно"); page := PStr (u "?");
       relevance := 0.5 |} ].
Proof. vm_compute. reflexivity. Qed.

(** ** The chunk file read back *)

(** The values [json] gives back as they were: no tuple, and dicts whose
    keys are distinct (as those of a Python dict are). *)
Fixpoint nativeb (v : pyval) : bool :=
  match v with
  | PNone | PInt _ | PStr _ => true
  | PList l => forallb nativeb l
  | PTuple _ => false
  | PDict d =>
      bool_decide (NoDup (map fst d)) &&
      forallb (fun kv => nativeb (snd kv)) d
  end.

Definition chunk_native (c : chunk) : Prop :=
  nativeb (PDict (metadata c)) = true /\ nativeb (PDict (content c)) = true.

Fixpoint pyval_nested_ind (P : pyval -> Prop)
    (HNone : P PNone) (HInt : forall z, P (PInt z))
    (HStr : forall s, P (PStr s))
    (HList : forall l, Forall P l -> P (PList l))
    (HTuple : forall l, Forall P l -> P (PTuple l))
    (HDict : forall d, Forall (fun kv => P (snd kv)) d -> P (PDict d))
    (v : pyval) : P v :=
  let rec := pyval_nested_ind P HNone HInt HStr HList HTuple HDict in
  match v with
  | PNone => HNone
  | PInt z => HInt z
  | PStr s => HStr s
  | PList l =>
      HList l
        ((fix go (l : list pyval) : Forall P l :=
            match l with
            | [] => Forall_nil_2 P
            | x :: l' => Forall_cons_2 P x l' (rec x) (go l')
            end) l)
  | PTuple l =>
      HTuple l
        ((fix go (l : list pyval) : Forall P l :=
            match l with
            | [] => Forall_nil_2 P
            | x :: l' => Forall_cons_2 P x l' (rec x) (go l')
            end) l)
  | PDict d =>
      HDict d
        ((fix go (d : list (str * pyval)) : Forall (fun kv => P (snd kv)) d :=
            match d with
            | [] => Forall_nil_2 _
            | kv :: d' => Forall_cons_2 _ kv d' (rec (snd kv)) (go d')
            end) d)
  end.

Lemma dict_set_fresh (k : str) (v : pyval) (d : dict) :
  k ∉ keys d -> dict_set k v d = d ++ [(k, v)].
Proof.
  induction d as [|[k' v'] d IH]; simpl; intros Hk; [reflexivity|].
  destruct (str_eqb k' k) eqn:E.
  - apply str_eqb_eq in E; subst. exfalso. apply Hk. left.
  - rewrite IH; [reflexivity|]. intros ?. apply Hk. right. assumption.
Qed.

Lemma dict_update_fresh (acc e : dict) :
  NoDup (keys (acc ++ e)) -> dict_update acc e = acc ++ e.
Proof.
  unfold dict_update. revert acc.
  induction e as [|[k v] e IH]; intros acc Hnd; simpl.
  - rewrite app_nil_r. reflexivity.
  - unfold keys in Hnd. rewrite map_app in Hnd. simpl in Hnd.
    rewrite dict_set_fresh.
    + rewrite IH, <- app_assoc; [reflexivity|].
      unfold keys. rewrite <- app_assoc, map_app. exact Hnd.
    + apply NoDup_app in Hnd as (_ & Hd & _). intros Hin.
      apply (Hd k Hin). left.
Qed.

Lemma json_round_trip (v : pyval) :
  nativeb v = true -> json_load (json_dump v) = v.
Proof.
  induction v as [| | |l IH|l IH|d IH] using pyval_nested_ind;
    cbn [nativeb json_dump json_load]; intros Hn;
    try reflexivity; try discriminate Hn.
  - f_equal. induction IH as [|x l Hx _ IHl]; [reflexivity|].
    cbn [forallb] in Hn. apply andb_true_iff in Hn as [Hnx Hnl].
    cbn [map]. rewrite Hx, IHl by assumption. reflexivity.
  - apply andb_true_iff in Hn as [Hk Hv]. apply bool_decide_eq_true in Hk.
    f_equal. rewrite map_map. cbn [fst snd].
    assert (Hmap : map (fun kv => (fst kv, json_load (json_dump (snd kv)))) d
                   = d).
    { clear Hk. induction IH as [|[k x] l Hx _ IHl]; [reflexivity|].
      cbn [forallb] in Hv. apply andb_true_iff in Hv as [Hnx Hnl].
      cbn [map fst snd] in *. rewrite Hx, IHl by assumption. reflexivity. }
    rewrite Hmap. apply (dict_update_fresh []). exact Hk.
Qed.

Lemma nativeb_dict (d : dict) :
  nativeb (PDict d) = true <->
  NoDup (keys d) /\ Forall (fun kv => nativeb (snd kv) = true) d.
Proof.
  cbn [nativeb]. rewrite andb_true_iff, bool_decide_eq_true, forallb_forall.
  rewrite Forall_forall. unfold keys. split; intros [Hk Hv]; (split; [exact Hk|]).
  - intros x Hx. apply Hv, list_elem_of_In, Hx.
  - intros x Hx. apply Hv, list_elem_of_In, Hx.
Qed.

Lemma Forall_dict_set (P : str * pyval -> Prop) (k : str) (v : pyval)
    (d : dict) :
  (forall k', P (k', v)) -> Forall P d -> Forall P (dict_set k v d).
Proof.
  intros Hv. induction d as [|[k' v'] d IH]; simpl; intros Hd.
  - constructor; [apply Hv|constructor].
  - apply Forall_cons in Hd as [Hx Hd].
    destruct (str_eqb k' k); constructor; auto.
Qed.

Lemma nativeb_dict_update (d e : dict) :
  nativeb (PDict d) = true ->
  Forall (fun kv => nativeb (snd kv) = true) e ->
  nativeb (PDict (dict_update d e)) = true.
Proof.
  rewrite !nativeb_dict. intros [Hk Hv] He.
  split; [apply NoDup_keys_dict_update, Hk|].
  unfold dict_update. revert d Hk Hv.
  induction He as [|[k v] e Hx _ IH]; intros d Hk Hv; simpl; [exact Hv|].
  apply IH; [apply NoDup_keys_dict_set, Hk|].
  apply Forall_dict_set; [intros k'; exact Hx|exact Hv].
Qed.

Lemma nativeb_strs (l : list str) : nativeb (PList (map PStr l)) = true.
Proof. cbn [nativeb]. induction l; simpl; auto. Qed.

Lemma nativeb_model_dump (tm : TextbookMetadata) :
  nativeb (PDict (model_dump tm)) = true.
Proof. destruct tm as [t a y g s [i|] [p|]]; reflexivity. Qed.

Lemma nativeb_chunk_dict (c : chunk) :
  chunk_native c -> nativeb (chunk_dict c) = true.
Proof.
  intros [Hm Hc]. unfold chunk_dict. apply nativeb_dict. split.
  - eapply bool_decide_eq_true_1. vm_compute. reflexivity.
  - repeat constructor; assumption.
Qed.



(** The dict of a collection, as [structure_textbook] gives it to
    [json.dump]. *)
Definition collection_dict (tm : TextbookMetadata) (chunks : list chunk)
    : pyval :=
  PDict [ (u "metadata", PDict (model_dump tm));
          (u "chunks", PList (map chunk_dict chunks));
          (u "total_chunks", PInt (Z.of_nat (length chunks))) ].

Lemma nativeb_collection_dict (tm : TextbookMetadata) (chunks : list chunk) :
  Forall chunk_native chunks -> nativeb (collection_dict tm chunks) = true.
Proof.
  intros Hall. unfold collection_dict. apply nativeb_dict. split.
  - eapply bool_decide_eq_true_1. vm_compute. reflexivity.
  - repeat constructor; cbn [snd].
    + apply nativeb_model_dump.
    + cbn [nativeb]. apply forallb_forall. intros v Hv.
      apply in_map_iff in Hv as (c & <- & Hc). apply nativeb_chunk_dict.
      rewrite Forall_forall in Hall. apply Hall, list_elem_of_In, Hc.
Qed.


Ltac native_dict :=
  apply nativeb_dict; split;
  [ eapply bool_decide_eq_true_1; vm_compute; reflexivity
  | repeat constructor; cbn [snd]; try apply nativeb_strs ].

Lemma extract_math_tasks_native `{Interp} (text : str) (n : Z) :
  Forall chunk_native (extract_math_tasks text n).
Proof.
  unfold extract_math_tasks. apply Forall_map, Forall_forall.
  intros [num body] _. split; cbn [metadata content]; native_dict.
Qed.

Lemma extract_history_content_native `{Interp} (text : str) (n : Z) :
  Forall chunk_native (extract_history_content text n).
Proof.
  unfold extract_history_content. apply Forall_lookup.
  intros i c. rewrite list_lookup_imap.
  destruct (paragraphs text !! i); [|discriminate].
  intros [= <-]. split; cbn [metadata content]; native_dict.
Qed.

Lemma drafts_native `{Interp} (tm : TextbookMetadata)
    (pages : list page_file) :
  Forall chunk_native (drafts tm pages).
Proof.
  induction pages as [|pf pages IH]; cbn [drafts flat_map]; [constructor|].
  apply Forall_app. split; [|exact IH]. unfold page_drafts.
  destruct (str_eqb _ _); [apply extract_math_tasks_native|].
  destruct (str_eqb _ _); [apply extract_history_content_native|].
  constructor.
Qed.

Lemma finalized_native (tm : TextbookMetadata) (start : Z) (i : nat)
    (c : chunk) :
  chunk_native c -> chunk_native (finalized tm start i c).
Proof.
  intros [Hm Hc]. split; cbn [finalized metadata content]; [|exact Hc].
  unfold with_book. apply nativeb_dict_update; [exact Hm|].
  repeat constructor.
Qed.


(** ** Paragraphs *)

(** A paragraph source: every line feed in it is followed by a character
    that is not a line feed, so that it holds no blank line and does not
    end a line. *)
Fixpoint no_blank_line (p : str) : bool :=
  match p with
  | [] => true
  | c :: p' =>
      negb ((c =? 0xa) && match p' with [] => true | c' :: _ => c' =? 0xa end)
      && no_blank_line p'
  end.

Lemma no_blank_here (c : N) (p tail : str) :
  negb ((c =? 0xa) && match p with [] => true | c' :: _ => c' =? 0xa end)
  = true ->
  PyStr.starts_with [0xa; 0xa] (c :: p ++ tail) = false.
Proof.
  intros Hc. cbn [PyStr.starts_with].
  destruct (N.eqb_spec 0xa c) as [<-|]; [|reflexivity].
  destruct p as [|c' p]; [discriminate Hc|].
  cbn [app PyStr.starts_with].
  destruct (N.eqb_spec 0xa c') as [<-|]; [discriminate Hc|reflexivity].
Qed.

Lemma split_go_piece (p rest cur : str) :
  no_blank_line p = true ->
  PyStr.split_go [0xa; 0xa] (p ++ [0xa; 0xa] ++ rest) 0 cur =
  (rev cur ++ p) :: PyStr.split_go [0xa; 0xa] rest 0 [].
Proof.
  revert cur. induction p as [|c p IH]; intros cur Hp.
  - cbn. rewrite app_nil_r. reflexivity.
  - cbn [no_blank_line] in Hp. apply andb_true_iff in Hp as [Hc Hp].
    cbn [app PyStr.split_go].
    rewrite (no_blank_here c p _ Hc), IH by exact Hp. cbn [rev]. rewrite <- app_assoc. reflexivity.
Qed.

Lemma split_go_last (p cur : str) :
  no_blank_line p = true ->
  PyStr.split_go [0xa; 0xa] p 0 cur = [rev cur ++ p].
Proof.
  revert cur. induction p as [|c p IH]; intros cur Hp.
  - cbn. rewrite app_nil_r. reflexivity.
  - cbn [no_blank_line] in Hp. apply andb_true_iff in Hp as [Hc Hp].
    cbn [PyStr.split_go].
    pose proof (no_blank_here c p [] Hc) as Hs. rewrite app_nil_r in Hs.
    rewrite Hs, IH by exact Hp. cbn [rev]. rewrite <- app_assoc. reflexivity.
Qed.

(** Splitting at blank lines gives back the paragraph sources that were
    joined by blank lines. *)
Lemma split_join (ps : list str) :
  ps <> [] ->
  Forall (fun p => no_blank_line p = true) ps ->
  PyStr.split (u "\n\n") (PyStr.join (u "\n\n") ps) = ps.
Proof.
  change (u "\n\n") with [0xa; 0xa]. unfold PyStr.split.
  induction ps as [|p ps IH]; intros Hne Hall; [congruence|].
  apply Forall_cons in Hall as [Hp Hall].
  destruct ps as [|q ps].
  - cbn [PyStr.join]. rewrite split_go_last by exact Hp. reflexivity.
  - change (PyStr.join [0xa; 0xa] (p :: q :: ps)) with
      (p ++ [0xa; 0xa] ++ PyStr.join [0xa; 0xa] (q :: ps)).
    rewrite split_go_piece by exact Hp. cbn [rev app]. f_equal.
    apply IH; [discriminate|exact Hall].
Qed.

Definition chunk_text (c : chunk) : option pyval :=
  dict_get (u "text") (content c).

Lemma extract_history_content_texts `{Interp} (text : str) (n : Z) :
  map chunk_text (extract_history_content text n) =
  map (fun p => Some (PStr p)) (paragraphs text).
Proof.
  unfold extract_history_content.
  change (map chunk_text ?l) with (chunk_text <$> l).
  change (map ?f (paragraphs text)) with (f <$> paragraphs text).
  apply list_eq. intros i.
  rewrite !list_lookup_fmap, list_lookup_imap.
  destruct (paragraphs text !! i); reflexivity.
Qed.

Lemma lstrip_nil_iff (s : str) :
  PyStr.lstrip s = [] <-> forallb isspace s = true.
Proof.
  induction s as [|c s IH]; simpl; [tauto|].
  destruct (isspace c); simpl; [exact IH|]. split; discriminate.
Qed.

Lemma forallb_reverse {A} (f : A -> bool) (l : list A) :
  forallb f (rev l) = forallb f l.
Proof.
  induction l as [|x l IH]; [reflexivity|].
  cbn [rev forallb]. rewrite forallb_app, IH. cbn [forallb].
  rewrite andb_true_r. apply andb_comm.
Qed.

Lemma strip_nil_iff (s : str) :
  PyStr.strip s = [] <-> forallb isspace s = true.
Proof.
  split.
  - unfold PyStr.strip, PyStr.rstrip. intros E.
    apply (f_equal (@rev N)) in E. rewrite rev_involutive in E. simpl in E.
    apply lstrip_nil_iff in E. rewrite forallb_reverse in E.
    destruct (PyStr.lstrip s) as [|c t] eqn:El.
    + apply lstrip_nil_iff, El.
    + exfalso. simpl in E. apply andb_true_iff in E as [Ec _].
      clear -El Ec. induction s as [|x s IH]; simpl in El; [discriminate|].
      destruct (isspace x) eqn:Ex; [exact (IH El)|].
      injection El as -> _. congruence.
  - intros E. unfold PyStr.strip.
    apply lstrip_nil_iff in E. rewrite E. reflexivity.
Qed.

(** A paragraph with a character that is not white space. *)
Definition visible (p : str) : bool := negb (forallb isspace p).

Lemma paragraphs_visible (text : str) :
  paragraphs text =
  map PyStr.strip (List.filter visible (PyStr.split (u "\n\n") text)).
Proof.
  unfold paragraphs. f_equal.
  induction (PyStr.split (u "\n\n") text) as [|p ps IH]; [reflexivity|].
  cbn [List.filter]. rewrite filter_cons, IH. unfold visible.
  destruct (forallb isspace p) eqn:E; cbn [negb].
  - apply strip_nil_iff in E. rewrite decide_False; [reflexivity|].
    intros Hn. exact (Hn E).
  - rewrite decide_True; [reflexivity|].
    intros Hn%strip_nil_iff. congruence.
Qed.

(** C6. The history segmenter gives one chunk per paragraph that is not
    only white space, in the order of the paragraphs: for paragraph
    sources joined by blank lines, and for the pieces of any page text
    between blank lines, the texts of the chunks are the stripped visible
    paragraphs; the example page gives two chunks, the first with the dates
    ["1242 г."] and the second with "Иван Грозный" among its historical
    figures. *)
Theorem history_one_chunk_per_paragraph `{Interp} (page_num : Z) :
  (forall ps : list str,
     Forall (fun p => no_blank_line p = true) ps ->
     map chunk_text
       (extract_history_content (PyStr.join (u "\n\n") ps) page_num) =
     map (fun p => Some (PStr (PyStr.strip p))) (List.filter visible ps)) /\
  (forall text : str,
     map chunk_text (extract_history_content text page_num) =
     map (fun p => Some (PStr (PyStr.strip p)))
       (List.filter visible (PyStr.split (u "\n\n") text))) /\
  exists c1 c2 figures,
    extract_history_content
      (u "В 1242 г. произошло событие.\n\nИван Грозный правил долго.")
      page_num = [c1; c2] /\
    dict_get (u "dates") (metadata c1) = Some (PList [PStr (u "1242 г.")]) /\
    dict_get (u "historical_figures") (metadata c2) =
      Some (PList (map PStr figures)) /\
    In (u "Иван Грозный") figures.
Proof.
  assert (Htexts : forall text : str,
     map chunk_text (extract_history_content text page_num) =
     map (fun p => Some (PStr (PyStr.strip p)))
       (List.filter visible (PyStr.split (u "\n\n") text))).
  { intros text.
    rewrite extract_history_content_texts, paragraphs_visible, map_map.
    reflexivity. }
  split; [|split; [exact Htexts|]].
  - intros [|p ps] Hall; [reflexivity|].
    rewrite Htexts, split_join; [reflexivity|discriminate|exact Hall].
  - exists
      {| chunk_id := u "history_temp_" ++ str_of_int page_num ++ u "_0";
         metadata :=
           [ (u "page", PInt page_num); (u "content_type", PStr (u "text"));
             (u "dates", PList [PStr (u "1242 г.")]);
             (u "historical_figures", PList (map PStr (set_order []))) ];
         content := [ (u "text", PStr (u "В 1242 г. произошло событие.")) ] |},
      {| chunk_id := u "history_temp_" ++ str_of_int page_num ++ u "_1";
         metadata :=
           [ (u "page", PInt page_num); (u "content_type", PStr (u "text"));
             (u "dates", PList []);
             (u "historical_figures",
              PList (map PStr (set_order [u "Иван Грозный"]))) ];
         content := [ (u "text", PStr (u "Иван Грозный правил долго.")) ] |},
      (set_order [u "Иван Грозный"]).
    split; [|split; [reflexivity|split; [reflexivity|]]].
    + vm_compute. reflexivity.
    + apply set_order_In. left. reflexivity.
Qed.

(** ** Numbered items *)

(** *** The quantifiers *)


Lemma rep_greedy_no_start {A} (cls : N -> bool) (hi : nat)
    (prev : option N) (s : str) (k : option N -> str -> option A) :
  match s with c :: _ => cls c = false | [] => True end ->
  rep_greedy cls 1 hi prev s k = None.
Proof.
  intros Hs. destruct hi as [|hi]; [reflexivity|].
  destruct s as [|c s]; [reflexivity|]. simpl. rewrite Hs. reflexivity.
Qed.


(** *** The look-ahead *)

(** [t] starts with decimal digits ([need]: at least one) and a full stop. *)
Fixpoint digits_then_dot (need : bool) (t : str) : bool :=
  match t with
  | c :: t' =>
      if isdecimal c then digits_then_dot false t'
      else negb need && only 0x2e c
  | [] => false
  end.

Definition starts_item (t : str) : bool := digits_then_dot true t.

(** What [(?=\n\d+\.|$)] asks of the text at the position. *)
Definition ahead_holds (s : str) : bool :=
  match s with
  | [] => true
  | c :: t => only 0xa c && (starts_item t || bool_decide (t = []))
  end.

Definition dot_next {A} (x : A) (s : str) : option A :=
  match s with
  | c :: _ => if only 0x2e c then Some x else None
  | [] => None
  end.

Lemma dot_not_decimal (c : N) : only 0x2e c = true -> isdecimal c = false.
Proof. unfold only. intros <-%N.eqb_eq. reflexivity. Qed.

Lemma greedy_digits_dot {A} (k : option N -> str -> option A) (x : A) :
  (forall p s, k p s = dot_next x s) ->
  forall (t : str) (lo hi : nat) (prev : option N),
    (lo <= 1)%nat -> (length t <= hi)%nat ->
    rep_greedy isdecimal lo hi prev t k =
    if digits_then_dot (Nat.eqb lo 1) t then Some x else None.
Proof.
  intros Hk. induction t as [|c t IH]; intros lo hi prev Hlo Hhi.
  - destruct hi, lo as [|[|lo]]; simpl; rewrite ?Hk; reflexivity || lia.
  - cbn [length] in Hhi. destruct hi as [|hi]; [lia|].
    cbn [rep_greedy digits_then_dot].
    destruct (isdecimal c) eqn:Ec.
    + rewrite (IH (Nat.pred lo) hi (Some c)) by lia.
      replace (Nat.eqb (Nat.pred lo) 1) with false
        by (destruct lo as [|[|lo]]; reflexivity || lia).
      destruct (digits_then_dot false t); [reflexivity|].
      cbn [or_else]. destruct lo as [|lo]; [|reflexivity].
      rewrite Hk. cbn [dot_next].
      destruct (only 0x2e c) eqn:Ed; [|reflexivity].
      apply dot_not_decimal in Ed. congruence.
    + cbn [or_else]. destruct lo as [|[|lo]]; [| reflexivity | lia].
      rewrite Hk. reflexivity.
Qed.

Lemma ahead_spec {A} (wordc : N -> bool) (prev : option N) (s : str)
    (cs : caps) (k : option N -> str -> caps -> option A) :
  rmatch wordc
    (Ahead (Alt (sequence [Chr (only 0xa); many1 isdecimal; Chr (only 0x2e)])
              Eos)) prev s cs k =
  if ahead_holds s then k prev s cs else None.
Proof.
  cbn [rmatch sequence many1].
  destruct s as [|c t]; [reflexivity|]. cbn [ahead_holds].
  destruct (only 0xa c) eqn:Ec; cbn [andb].
  - rewrite (greedy_digits_dot _ cs) by
      (try (intros p [|d s]; reflexivity); simpl; lia).
    cbn [Nat.eqb]. fold (starts_item t).
    destruct (starts_item t); [reflexivity|]. cbn [or_else orb at_end].
    apply N.eqb_eq in Ec; subst c.
    destruct t as [|d t]; reflexivity.
  - cbn [or_else at_end]. unfold only in Ec. rewrite N.eqb_sym in Ec.
    destruct t as [|d t]; [rewrite Ec|]; reflexivity.
Qed.

(** *** One item *)

(** A numbered item as it stands on the page: the digits of the number,
    the white space after the full stop, and the body. *)
Record item := {
  number : str;
  gap : str;
  body : str
}.












Lemma firstn_prefix {A} (a b : list A) :
  firstn (length (a ++ b) - length b) (a ++ b) = a.
Proof.
  rewrite length_app, Nat.add_sub. rewrite firstn_app, Nat.sub_diag.
  rewrite firstn_all, firstn_O, app_nil_r. reflexivity.
Qed.




Section Scan.
Variable wordc : N -> bool.

Lemma scan_unfold (r : regex) (prev : option N) (s : str) :
  scan wordc r prev s 0 =
  match match_at wordc r prev s with
  | Some (s', cs) =>
      let n := (length s - length s')%nat in
      (firstn n s, cs) ::
        match s with
        | c :: t => scan wordc r (Some c) t (Nat.pred n)
        | [] => []
        end
  | None =>
      match s with
      | c :: t => scan wordc r (Some c) t 0
      | [] => []
      end
  end.
Proof. destruct s; reflexivity. Qed.


Lemma match_at_no_digit (prev : option N) (s : str) :
  match s with c :: _ => isdecimal c = false | [] => True end ->
  match_at wordc task_pattern prev s = None.
Proof.
  intros Hs. unfold match_at, task_pattern. cbn [sequence].
  match goal with |- context [Seq (Chr ?c) ?r] =>
    remember (Seq (Chr c) r) as R1 eqn:ER1 end.
  cbn [rmatch many1]. apply rep_greedy_no_start. exact Hs.
Qed.


End Scan.

(** *** The claims on extract_math_tasks *)







Definition maths_book : TextbookMetadata :=
  {| title := u "Математика. 5 класс. Рабочая тетрадь. Часть 1";
     author := u "Ткачёва М.В."; year := 2023; grade := 5;
     subject := u "математика"; isbn := None; part := Some 1%Z |}.

(** C4 does not hold of the code: a page that ends with a number, a full
    stop and white space gives a chunk with an empty text, and the run
    stores it. *)
Lemma task_without_body_has_empty_text :
  exists r,
    structure_textbook (H := basic_interp)
      [ {| page_num := 7; page_text := u "1. " |} ] maths_book = Ok r /\
    map chunk_id (all_chunks r) = [ u "математика_5_ch0_p7_1" ] /\
    map chunk_text (all_chunks r) = [ Some (PStr []) ].
Proof.
  let t := eval vm_compute in
    (structure_textbook (H := basic_interp)
       [ {| page_num := 7; page_text := u "1. " |} ] maths_book) in
  match t with Ok ?r => exists r end.
  vm_compute. repeat split; reflexivity.
Qed.

(** The history segmenter does drop the empty paragraphs: the text of each
    of its chunks is not empty. *)
Lemma history_text_never_empty `{Interp} (text : str) (page_num : Z) :
  Forall (fun c => exists t, chunk_text c = Some (PStr t) /\ t <> [])
    (extract_history_content text page_num).
Proof.
  apply Forall_lookup. intros i c Hc.
  assert (Ht : (chunk_text <$> extract_history_content text page_num) !! i
               = Some (chunk_text c)).
  { rewrite list_lookup_fmap, Hc. reflexivity. }
  change (chunk_text <$> ?l) with (map chunk_text l) in Ht.
  rewrite extract_history_content_texts in Ht.
  change (map ?f ?l) with (f <$> l) in Ht.
  rewrite list_lookup_fmap in Ht.
  destruct (paragraphs text !! i) as [p|] eqn:Ep; [|discriminate Ht].
  injection Ht as Ht. exists p. split; [symmetry; exact Ht|].
  unfold paragraphs in Ep.
  change (map ?f ?l) with (f <$> l) in Ep.
  rewrite list_lookup_fmap in Ep.
  destruct (filter _ _ !! i) as [q|] eqn:Eq; [|discriminate Ep].
  injection Ep as <-.
  apply list_elem_of_lookup_2, list_elem_of_filter in Eq as [Hq _].
  exact Hq.
Qed.

(** A tuple is written as an array and read back as a list: values outside
    [nativeb] do not come back as they were. *)
Example tuple_read_back_as_list :
  json_load (json_dump (PTuple [PStr (u "1"); PStr (u "x")])) =
  PList [PStr (u "1"); PStr (u "x")].
Proof. reflexivity. Qed.

(** * Further properties of the run *)

Lemma drafts_from_page `{Interp} (tm : TextbookMetadata)
    (pages : list page_file) (d : chunk) :
  d ∈ drafts tm pages ->
  exists pf, pf ∈ pages /\ d ∈ page_drafts tm pf /\ paged (page_num pf) d.
Proof.
  unfold drafts. rewrite list_elem_of_In, in_flat_map.
  intros (pf & Hpf & Hd). exists pf.
  apply list_elem_of_In in Hpf, Hd. split; [exact Hpf|]. split; [exact Hd|].
  pose proof (page_drafts_paged tm pf) as Hall.
  rewrite Forall_forall in Hall. apply Hall, Hd.
Qed.

(** X1. Every chunk of the collection of a run carries the title, grade,
    subject and author of the book, and the page number of one of the page
    files, from which it was extracted. *)
Theorem run_chunks_carry_book_and_page `{Interp}
    (pages : list page_file) (tm : TextbookMetadata) :
  exists r,
    structure_textbook pages tm = Ok r /\
    Forall
      (fun c =>
         dict_get (u "textbook_title") (metadata c) = Some (PStr (title tm)) /\
         dict_get (u "grade") (metadata c) = Some (PInt (grade tm)) /\
         dict_get (u "subject") (metadata c) = Some (PStr (subject tm)) /\
         dict_get (u "author") (metadata c) = Some (PStr (author tm)) /\
         exists pf d,
           pf ∈ pages /\ d ∈ page_drafts tm pf /\
           content c = content d /\
           dict_get (u "page") (metadata c) = Some (PInt (page_num pf)))
      (all_chunks r).
Proof.
  destruct (structure_textbook_ok tm pages) as (r & Hr & Hc & _).
  exists r. split; [exact Hr|]. rewrite Hc. apply Forall_lookup.
  intros i c Hi.
  apply lookup_run_chunk in Hi as (d & p & Hd & _ & _ & Hm & Hct);
    [|apply drafts_paged].
  apply list_elem_of_lookup_2, drafts_from_page in Hd
    as (pf & Hpf & Hdp & [Hp _]).
  rewrite Hm. unfold with_book. rewrite !dict_get_update.
  repeat (split; [reflexivity|]).
  exists pf, d. repeat (split; [assumption|]). exact Hp.
Qed.

(** X2. The collection holds the chunks page by page, in the order of the
    page files and, within a page, in the order the segmenter found them;
    the second pass leaves their content as it was, and [total_chunks] is
    the number of chunks all pages gave. *)
Theorem run_keeps_page_order `{Interp}
    (pages : list page_file) (tm : TextbookMetadata) :
  exists r,
    structure_textbook pages tm = Ok r /\
    map content (all_chunks r) =
      flat_map (fun pf => map content (page_drafts tm pf)) pages /\
    dict_get (u "total_chunks")
      (match dumped r with PDict d => d | _ => [] end) =
      Some (PInt (Z.of_nat
                    (list_sum
                       (map (fun pf => length (page_drafts tm pf)) pages)))).
Proof.
  destruct (structure_textbook_ok tm pages) as (r & Hr & Hc & Hdoc).
  exists r. split; [exact Hr|].
  assert (Hcontent : map content (all_chunks r) =
                     flat_map (fun pf => map content (page_drafts tm pf))
                       pages).
  { rewrite Hc. change (map content ?l) with (content <$> l).
    transitivity (content <$> drafts tm pages).
    - apply list_eq. intros i.
      rewrite !list_lookup_fmap, list_lookup_imap.
      destruct (drafts tm pages !! i); reflexivity.
    - clear. unfold drafts. induction pages as [|pf pages IH]; [reflexivity|].
      cbn [flat_map]. rewrite fmap_app, IH. reflexivity. }
  split; [exact Hcontent|]. rewrite Hdoc.
  change (dict_get (u "total_chunks") _) with
    (Some (PInt (Z.of_nat (length (all_chunks r))))).
  do 3 f_equal. rewrite <- (length_map content), Hcontent.
  clear. induction pages as [|pf pages IH]; [reflexivity|].
  cbn [flat_map map list_sum]. rewrite length_app, length_map, IH.
  reflexivity.
Qed.

Lemma scan_no_digit (wordc : N -> bool) (s : str) :
  forallb (fun c => negb (isdecimal c)) s = true ->
  forall prev, scan wordc task_pattern prev s 0 = [].
Proof.
  induction s as [|c s IH]; intros Hs prev.
  - rewrite scan_unfold, match_at_no_digit by exact I. reflexivity.
  - cbn [forallb] in Hs. apply andb_true_iff in Hs as [Hc Hs].
    apply negb_true_iff in Hc.
    rewrite scan_unfold, match_at_no_digit by exact Hc. apply IH, Hs.
Qed.

(** X3. A page without a decimal digit holds no numbered item: the
    mathematics segmenter returns no chunk for it, and raises nothing. *)
Theorem page_without_digits_has_no_tasks `{Interp}
    (page_text : str) (page_num : Z) :
  forallb (fun c => negb (isdecimal c)) page_text = true ->
  extract_math_tasks page_text page_num = [].
Proof.
  intros Hs. unfold extract_math_tasks, findall2, finditer.
  rewrite scan_no_digit by exact Hs. reflexivity.
Qed.

Lemma page_without_digits_has_no_tasks_witness :
  extract_math_tasks (u "Глава первая.\nНатуральные числа") 3 = [].
Proof.
  apply (page_without_digits_has_no_tasks (H := basic_interp)).
  vm_compute. reflexivity.
Defined.

(** * Further properties of retrieval and answering *)

Lemma traverse_ok {A B} (f : A -> result B) (g : A -> B) (l : list A) :
  Forall (fun a => f a = Ok (g a)) l -> traverse f l = Ok (map g l).
Proof.
  induction 1 as [|a l Ha _ IH]; [reflexivity|].
  cbn [traverse map]. rewrite Ha, IH. reflexivity.
Qed.

Lemma traverse_raise {A B} (f : A -> result B) (e : exn) (l : list A) :
  Forall (fun a => f a = Raise e \/ exists b, f a = Ok b) l ->
  Exists (fun a => f a = Raise e) l ->
  traverse f l = Raise e.
Proof.
  induction 1 as [|a l Ha _ IH]; intros Hex; [inversion Hex|].
  cbn [traverse]. destruct Ha as [Ha|[b Hb]].
  - rewrite Ha. reflexivity.
  - rewrite Hb. cbn [bind].
    apply Exists_cons in Hex as [Hex|Hex]; [congruence|].
    rewrite (IH Hex). reflexivity.
Qed.

Lemma list_item_lookup {A} (l : list A) (i : nat) (x : A) :
  l !! i = Some x -> list_item l i = Ok x.
Proof. unfold list_item. intros ->. reflexivity. Qed.

Definition index_error : exn := IndexError (u "list index out of range").

Section Retrieval.
Context `{Interp}.
Variable collection : Type.
Variable encode : str -> list float.
Variable collection_query :
  collection -> list float -> Z -> result query_result.
Variable ollama_generate : str -> str -> result dict.

Local Abbreviation search :=
  (search_relevant_chunks collection encode collection_query).
Local Abbreviation ask :=
  (answer_question collection encode collection_query ollama_generate).

(** What the loop of [search_relevant_chunks] builds at index [i]. *)
Definition picked (res : query_result) (i : nat) : result retrieved :=
  let! ids0 := list_item (ids res) 0 in
  let! id := list_item ids0 i in
  let! docs0 := list_item (documents res) 0 in
  let! doc := list_item docs0 i in
  let! metas0 := list_item (metadatas res) 0 in
  let! meta := list_item metas0 i in
  let! dists0 := list_item (distances res) 0 in
  let! dist := list_item dists0 i in
  Ok {| id := id; document := doc; chunk_metadata := meta; distance := dist |}.

Lemma search_found (self : RAGSystem collection) (query subject : str)
    (grade n_results : Z) (c : collection) (res : query_result)
    (idl : list str) :
  client collection self !! collection_name subject grade = Some c ->
  collection_query c (encode query) n_results = Ok res ->
  ids res !! 0%nat = Some idl ->
  search self query subject grade n_results =
  traverse (picked res) (seq 0 (length idl)).
Proof.
  intros Hc Hq Hi. unfold search_relevant_chunks, get_collection.
  fold (collection_name subject grade). rewrite Hc, Hq. cbn [bind].
  unfold picked. rewrite (list_item_lookup _ _ _ Hi). reflexivity.
Qed.

(** X4. When the collection exists and the index answers with as many
    documents, metadatas and distances as ids (or more), the chunks
    returned are the answers of the index position by position, in its
    order: as many chunks as ids, the i-th made of the i-th id, document,
    metadata and distance. *)
Theorem search_returns_index_answers_in_order
    (self : RAGSystem collection) (query subject : str)
    (grade n_results : Z) (c : collection) (res : query_result)
    (idl ds : list str) (ms : list dict) (xs : list float) :
  client collection self !! collection_name subject grade = Some c ->
  collection_query c (encode query) n_results = Ok res ->
  ids res !! 0%nat = Some idl ->
  documents res !! 0%nat = Some ds ->
  metadatas res !! 0%nat = Some ms ->
  distances res !! 0%nat = Some xs ->
  (length idl <= length ds)%nat ->
  (length idl <= length ms)%nat ->
  (length idl <= length xs)%nat ->
  exists chunks,
    search self query subject grade n_results = Ok chunks /\
    map id chunks = idl /\
    map document chunks = take (length idl) ds /\
    map chunk_metadata chunks = take (length idl) ms /\
    map distance chunks = take (length idl) xs.
Proof.
  intros Hc Hq Hi Hd Hm Hx Hld Hlm Hlx.
  rewrite (search_found self query subject grade n_results c res idl)
    by assumption.
  pose (g := fun i =>
    {| id := default [] (idl !! i); document := default [] (ds !! i);
       chunk_metadata := default [] (ms !! i);
       distance := default 0%float (xs !! i) |}).
  exists (map g (seq 0 (length idl))). split.
  - apply traverse_ok, Forall_forall. intros i Hin%elem_of_seq.
    unfold picked.
    rewrite (list_item_lookup _ _ _ Hi), (list_item_lookup _ _ _ Hd),
      (list_item_lookup _ _ _ Hm), (list_item_lookup _ _ _ Hx).
    cbn [bind].
    destruct (lookup_lt_is_Some_2 idl i) as [a Ha]; [lia|].
    destruct (lookup_lt_is_Some_2 ds i) as [b Hb]; [lia|].
    destruct (lookup_lt_is_Some_2 ms i) as [m Hm']; [lia|].
    destruct (lookup_lt_is_Some_2 xs i) as [x Hx']; [lia|].
    rewrite (list_item_lookup _ _ _ Ha), (list_item_lookup _ _ _ Hb),
      (list_item_lookup _ _ _ Hm'), (list_item_lookup _ _ _ Hx').
    cbn [bind]. unfold g. f_equal. f_equal.
    + exact (eq_sym (f_equal (default []) Ha)).
    + exact (eq_sym (f_equal (default []) Hb)).
    + exact (eq_sym (f_equal (default []) Hm')).
    + exact (eq_sym (f_equal (default 0%float) Hx')).
  - assert (Hcol : forall (A : Type) (d : A) (l : list A),
              (length idl <= length l)%nat ->
              map (fun i => default d (l !! i)) (seq 0 (length idl)) =
              take (length idl) l).
    { intros A d l Hl. apply list_eq. intros i.
      change (map ?f ?k) with (f <$> k).
      rewrite list_lookup_fmap.
      destruct (decide (i < length idl)%nat) as [Hlt|Hge].
      - rewrite lookup_seq_lt by exact Hlt. cbn.
        rewrite lookup_take_lt by exact Hlt.
        destruct (lookup_lt_is_Some_2 l i) as [a Ha]; [lia|].
        rewrite Ha. reflexivity.
      - rewrite lookup_seq_ge by lia. cbn.
        symmetry. apply lookup_take_ge. lia. }
    rewrite !map_map. repeat split.
    + rewrite <- (firstn_all idl) at 2. exact (Hcol _ [] idl (le_n _)).
    + exact (Hcol _ [] ds Hld).
    + exact (Hcol _ [] ms Hlm).
    + exact (Hcol _ 0%float xs Hlx).
Qed.
End Retrieval.

Section Answering.
Context `{Interp}.
Variable collection : Type.
Variable encode : str -> list float.
Variable collection_query :
  collection -> list float -> Z -> result query_result.
Variable ollama_generate : str -> str -> result dict.

Local Abbreviation search :=
  (search_relevant_chunks collection encode collection_query).
Local Abbreviation ask :=
  (answer_question collection encode collection_query ollama_generate).

Lemma list_item_cases {A} (l : list A) (i : nat) :
  list_item l i = Raise index_error \/ exists x, list_item l i = Ok x.
Proof.
  unfold list_item. destruct (l !! i) as [x|].
  - right. exists x. reflexivity.
  - left. reflexivity.
Qed.

Lemma picked_raises_index_error (res : query_result) (i : nat) :
  picked res i = Raise index_error \/ exists b, picked res i = Ok b.
Proof.
  unfold picked.
  destruct (list_item_cases (ids res) 0) as [->|[l1 ->]];
    [left; reflexivity|cbn [bind]].
  destruct (list_item_cases l1 i) as [->|[x1 ->]];
    [left; reflexivity|cbn [bind]].
  destruct (list_item_cases (documents res) 0) as [->|[l2 ->]];
    [left; reflexivity|cbn [bind]].
  destruct (list_item_cases l2 i) as [->|[x2 ->]];
    [left; reflexivity|cbn [bind]].
  destruct (list_item_cases (metadatas res) 0) as [->|[l3 ->]];
    [left; reflexivity|cbn [bind]].
  destruct (list_item_cases l3 i) as [->|[x3 ->]];
    [left; reflexivity|cbn [bind]].
  destruct (list_item_cases (distances res) 0) as [->|[l4 ->]];
    [left; reflexivity|cbn [bind]].
  destruct (list_item_cases l4 i) as [->|[x4 ->]];
    [left; reflexivity|cbn [bind]].
  right. eexists. reflexivity.
Qed.

(** X5. When the index answers with fewer documents, metadatas or
    distances than ids, [search_relevant_chunks] returns no partial list:
    it raises [IndexError]. *)
Theorem ragged_index_answer_raises
    (self : RAGSystem collection) (query subject : str)
    (grade n_results : Z) (c : collection) (res : query_result)
    (idl ds : list str) (ms : list dict) (xs : list float) :
  client collection self !! collection_name subject grade = Some c ->
  collection_query c (encode query) n_results = Ok res ->
  ids res !! 0%nat = Some idl ->
  documents res !! 0%nat = Some ds ->
  metadatas res !! 0%nat = Some ms ->
  distances res !! 0%nat = Some xs ->
  (length ds < length idl)%nat \/ (length ms < length idl)%nat \/
  (length xs < length idl)%nat ->
  search self query subject grade n_results = Raise index_error.
Proof.
  intros Hc Hq Hi Hd Hm Hx Hshort.
  rewrite (search_found _ _ _ self query subject grade n_results c res idl)
    by assumption.
  apply traverse_raise.
  - apply Forall_forall. intros i _. apply picked_raises_index_error.
  - assert (Hat : exists i, (i < length idl)%nat /\
                    (ds !! i = None \/ ms !! i = None \/ xs !! i = None)).
    { destruct Hshort as [Hs|[Hs|Hs]].
      - exists (length ds). split; [exact Hs|]. left.
        apply lookup_ge_None. lia.
      - exists (length ms). split; [exact Hs|]. right. left.
        apply lookup_ge_None. lia.
      - exists (length xs). split; [exact Hs|]. right. right.
        apply lookup_ge_None. lia. }
    destruct Hat as (i & Hlt & Hnone).
    apply Exists_exists. exists i. split; [apply elem_of_seq; lia|].
    destruct (picked_raises_index_error res i) as [Hr|[b Hb]]; [exact Hr|].
    exfalso. unfold picked in Hb.
    rewrite (list_item_lookup _ _ _ Hi), (list_item_lookup _ _ _ Hd),
      (list_item_lookup _ _ _ Hm), (list_item_lookup _ _ _ Hx) in Hb.
    cbn [bind] in Hb. unfold list_item in Hb.
    destruct (idl !! i); [|discriminate Hb]. cbn [bind] in Hb.
    destruct (ds !! i) eqn:Ed; [|discriminate Hb]. cbn [bind] in Hb.
    destruct (ms !! i) eqn:Em; [|discriminate Hb]. cbn [bind] in Hb.
    destruct (xs !! i) eqn:Ex; [|discriminate Hb].
    destruct Hnone as [?|[?|?]]; discriminate.
Qed.

(** X6. When retrieval succeeds and the runtime returns a response with
    the key 'response', [answer_question] returns the query, that value
    as the answer, one source per chunk, and metadata with the subject,
    the grade, the model asked and the number of chunks used. *)
Theorem generated_answer_is_returned
    (self : RAGSystem collection) (query subject : str)
    (grade n_results : Z) (chunks : list retrieved) (response : dict)
    (a : pyval) :
  search self query subject grade n_results = Ok chunks ->
  ollama_generate (ollama_model collection self)
    (create_prompt query chunks grade subject) = Ok response ->
  dict_get (u "response") response = Some a ->
  ask self query subject grade n_results =
  Ok {| query := query; answer := a; sources := map source_of chunks;
        result_metadata :=
          {| answer_subject := subject; answer_grade := grade;
             model := ollama_model collection self;
             chunks_used := Z.of_nat (length (map source_of chunks)) |} |}.
Proof.
  intros Hs Hg Ha.
  destruct (answer_question_ok _ _ _ ollama_generate self query subject grade
              n_results chunks Hs) as (a' & Hr & Ha').
  rewrite Hg in Ha'. cbn [bind] in Ha'. unfold dict_item in Ha'.
  rewrite Ha in Ha'. subst a'. rewrite Hr, length_map. reflexivity.
Qed.

(** X7. A response of the runtime without the key 'response' is absorbed
    like a fault of the runtime: the answer is the placeholder followed by
    the text of the [KeyError], and the call returns. *)
Theorem response_without_text_is_absorbed
    (self : RAGSystem collection) (query subject : str)
    (grade n_results : Z) (chunks : list retrieved) (response : dict) :
  search self query subject grade n_results = Ok chunks ->
  ollama_generate (ollama_model collection self)
    (create_prompt query chunks grade subject) = Ok response ->
  dict_get (u "response") response = None ->
  exists res,
    ask self query subject grade n_results = Ok res /\
    answer res =
      PStr (u "Ошибка при генерации ответа: " ++
            exn_str (KeyError (u "response"))) /\
    sources res = map source_of chunks.
Proof.
  intros Hs Hg Ha.
  destruct (answer_question_ok _ _ _ ollama_generate self query subject grade
              n_results chunks Hs) as (a' & Hr & Ha').
  rewrite Hg in Ha'. cbn [bind] in Ha'. unfold dict_item in Ha'.
  rewrite Ha in Ha'. subst a'. eexists. split; [exact Hr|].
  split; reflexivity.
Qed.
End Answering.

Lemma join_holds_each (sep : str) (l : list str) (i : nat) (x : str) :
  l !! i = Some x -> exists pre post, PyStr.join sep l = pre ++ x ++ post.
Proof.
  revert i. induction l as [|y l IH]; intros i Hi; [discriminate|].
  destruct i as [|i].
  - injection Hi as ->. destruct l as [|z l].
    + exists [], []. cbn. rewrite app_nil_r. reflexivity.
    + exists [], (sep ++ PyStr.join sep (z :: l)). reflexivity.
  - destruct l as [|z l]; [discriminate|].
    destruct (IH i Hi) as (pre & post & E).
    exists (y ++ sep ++ pre), post.
    change (PyStr.join sep (y :: z :: l)) with
      (y ++ sep ++ PyStr.join sep (z :: l)).
    rewrite E, <- !app_assoc. reflexivity.
Qed.

(** [x] occurs in [s]. *)
Definition occurs_in (x s : str) : Prop :=
  exists pre post, s = pre ++ x ++ post.

Lemma occurs_in_here (x post : str) : occurs_in x (x ++ post).
Proof. exists [], post. reflexivity. Qed.

Lemma occurs_in_here3 (a b c post : str) :
  occurs_in (a ++ b ++ c) (a ++ b ++ c ++ post).
Proof. exists [], post. rewrite <- !app_assoc. reflexivity. Qed.

Lemma occurs_in_later (x a s : str) : occurs_in x s -> occurs_in x (a ++ s).
Proof.
  intros (pre & post & ->). exists (a ++ pre), post.
  rewrite <- app_assoc. reflexivity.
Qed.

Lemma occurs_in_before (x s b : str) : occurs_in x s -> occurs_in x (s ++ b).
Proof.
  intros (pre & post & ->). exists pre, (post ++ b).
  rewrite <- !app_assoc. reflexivity.
Qed.

(** X8. The prompt holds the block of every retrieved chunk, numbered
    from 1 in the order received, with the whole document of the chunk,
    nothing cut; and it holds the query after its heading. *)
Theorem prompt_holds_every_document `{Interp} (query : str)
    (chunks : list retrieved) (grade : Z) (subject : str)
    (i : nat) (c : retrieved) :
  chunks !! i = Some c ->
  (exists pre post,
     create_prompt query chunks grade subject =
     pre ++
     (u "[Источник " ++ str_of_int (Z.of_nat i + 1) ++ u "]\n" ++
      u "Учебник: " ++
      py_str (dict_get_default (u "textbook_title")
                (PStr (u "Неизвестно")) (chunk_metadata c)) ++ u "\n" ++
      u "Страница: " ++
      py_str (dict_get_default (u "page") (PStr (u "?"))
                (chunk_metadata c)) ++ u "\n" ++
      u "Содержание:\n" ++ document c ++ u "\n") ++
     post) /\
  (exists pre post,
     create_prompt query chunks grade subject =
     pre ++ (u "ВОПРОС УЧЕНИКА:\n" ++ query ++ u "\n\n") ++ post).
Proof.
  intros Hi. split.
  - assert (Hp : imap (fun i => context_part (S i)) chunks !! i =
                 Some (context_part (S i) c)).
    { rewrite list_lookup_imap, Hi. reflexivity. }
    apply (join_holds_each (u "\n")) in Hp.
    change (occurs_in (context_part (S i) c)
              (PyStr.join (u "\n")
                 (imap (fun i => context_part (S i)) chunks))) in Hp.
    replace (Z.of_nat i + 1)%Z with (Z.of_nat (S i)) by lia.
    change (occurs_in (context_part (S i) c)
              (create_prompt query chunks grade subject)).
    unfold create_prompt. cbn zeta.
    do 8 apply occurs_in_later. apply occurs_in_before, Hp.
  - change (occurs_in (u "ВОПРОС УЧЕНИКА:\n" ++ query ++ u "\n\n")
              (create_prompt query chunks grade subject)).
    unfold create_prompt. cbn zeta.
    do 10 apply occurs_in_later.
    apply occurs_in_here3.
Qed.

(** Examples on the small index. *)
Definition history_query_result : query_result :=
  {| ids := [map id history_collection];
     documents := [map document history_collection];
     metadatas := [map chunk_metadata history_collection];
     distances := [map distance history_collection] |}.

Lemma search_returns_index_answers_in_order_witness :
  exists chunks,
    search_relevant_chunks (list retrieved) (fun _ => []) list_query
      history_index (u "Когда было Ледовое побоище?") (u "история") 6 3 =
      Ok chunks /\
    map id chunks = map id history_collection /\
    map document chunks =
      take (length (map id history_collection))
        (map document history_collection) /\
    map chunk_metadata chunks =
      take (length (map id history_collection))
        (map chunk_metadata history_collection) /\
    map distance chunks =
      take (length (map id history_collection))
        (map distance history_collection).
Proof.
  apply (search_returns_index_answers_in_order
           (list retrieved) (fun _ => []) list_query history_index
           (u "Когда было Ледовое побоище?") (u "история") 6 3
           history_collection history_query_result);
    try (vm_compute; reflexivity); vm_compute; lia.
Defined.

(** An index that answers with one document too few. *)
Definition short_query (c : list retrieved) (v : list float) (n : Z)
    : result query_result :=
  Ok {| ids := [map id c]; documents := [tail (map document c)];
        metadatas := [map chunk_metadata c];
        distances := [map distance c] |}.

Lemma ragged_index_answer_raises_witness :
  search_relevant_chunks (list retrieved) (fun _ => []) short_query
    history_index (u "Когда было Ледовое побоище?") (u "история") 6 3 =
  Raise index_error.
Proof.
  apply (ragged_index_answer_raises
           (list retrieved) (fun _ => []) short_query history_index
           (u "Когда было Ледовое побоище?") (u "история") 6 3
           history_collection
           {| ids := [map id history_collection];
              documents := [tail (map document history_collection)];
              metadatas := [map chunk_metadata history_collection];
              distances := [map distance history_collection] |}
           (map id history_collection)
           (tail (map document history_collection))
           (map chunk_metadata history_collection)
           (map distance history_collection));
    try (vm_compute; reflexivity).
  left. vm_compute. lia.
Defined.

Lemma generated_answer_is_returned_witness :
  answer_question (list retrieved) (fun _ => []) list_query runtime_up
    history_index (u "Когда было Ледовое побоище?") (u "история") 6 3 =
  Ok {| query := u "Когда было Ледовое побоище?";
        answer := PStr (u "В 1242 году, см. стр. 12.");
        sources := map source_of history_collection;
        result_metadata :=
          {| answer_subject := u "история"; answer_grade := 6;
             model := Config.OLLAMA_MODEL;
             chunks_used :=
               Z.of_nat (length (map source_of history_collection)) |} |}.
Proof.
  apply (generated_answer_is_returned (H := basic_interp)
           (list retrieved) (fun _ => []) list_query runtime_up history_index
           (u "Когда было Ледовое побоище?") (u "история") 6 3
           history_collection
           [ (u "response", PStr (u "В 1242 году, см. стр. 12.")) ]);
    vm_compute; reflexivity.
Defined.

Definition runtime_mute (model prompt : str) : result dict :=
  Ok [ (u "done", PInt 1) ].

Lemma response_without_text_is_absorbed_witness :
  exists res,
    answer_question (list retrieved) (fun _ => []) list_query runtime_mute
      history_index (u "Когда было Ледовое побоище?") (u "история") 6 3 =
      Ok res /\
    answer res =
      PStr (u "Ошибка при генерации ответа: " ++
            exn_str (KeyError (u "response"))) /\
    sources res = map source_of history_collection.
Proof.
  apply (response_without_text_is_absorbed (H := basic_interp)
           (list retrieved) (fun _ => []) list_query runtime_mute
           history_index (u "Когда было Ледовое побоище?") (u "история") 6 3
           history_collection [ (u "done", PInt 1) ]);
    vm_compute; reflexivity.
Defined.

Definition grozny_chunk : retrieved :=
  {| id := u "история_6_ch0_p40_2";
     document := u "Иван Грозный правил долго.";
     chunk_metadata := [ (u "content_type", PStr (u "text")) ];
     distance := 0.5 |}.

Lemma prompt_holds_every_document_witness :
  (exists pre post,
     create_prompt (u "Кто правил долго?") history_collection 6
       (u "история") =
     pre ++
     (u "[Источник " ++ str_of_int (Z.of_nat 1 + 1) ++ u "]\n" ++
      u "Учебник: " ++
      py_str (dict_get_default (u "textbook_title")
                (PStr (u "Неизвестно")) (chunk_metadata grozny_chunk)) ++
      u "\n" ++
      u "Страница: " ++
      py_str (dict_get_default (u "page") (PStr (u "?"))
                (chunk_metadata grozny_chunk)) ++ u "\n" ++
      u "Содержание:\n" ++ document grozny_chunk ++ u "\n") ++
     post) /\
  (exists pre post,
     create_prompt (u "Кто правил долго?") history_collection 6
       (u "история") =
     pre ++ (u "ВОПРОС УЧЕНИКА:\n" ++ u "Кто правил долго?" ++ u "\n\n") ++
     post).
Proof.
  apply (prompt_holds_every_document (H := basic_interp)
           (u "Кто правил долго?") history_collection 6 (u "история")
           1%nat grozny_chunk).
  reflexivity.
Defined.

Example prompt_block_of_chunk_without_title :
  context_part (H := basic_interp) 2 grozny_chunk =
  u "[Источник 2]\nУчебник: Неизвестно\nСтраница: ?\nСодержание:\nИван Грозный правил долго.\n".
Proof. vm_compute. reflexivity. Qed.

(** * The OCR directory

    The part of [structure_textbook] that the page records above stand
    for: the files [page_*.json] of the directory, sorted, the number read
    from each name and the ['text'] read from each content; and how
    [process_pdf_pages] names the files.  (The limit of the interpreter on
    the length of a numeral is not modelled.) *)

(** [format(n, '03d')]: the sign, then zeros up to a width of three. *)
Definition format_03d (n : Z) : str :=
  let sign := match n with Zneg _ => [0x2d] | _ => [] end in
  let digits := str_of_N (Z.abs_N n) in
  sign ++ repeat 0x30 (3 - length sign - length digits) ++ digits.

(** [f"page_{page_num:03d}.json"] *)
Definition page_file_name (page_num : Z) : str :=
  u "page_" ++ format_03d page_num ++ u ".json".

(** [s.rfind('.')] as the number of characters before the last full stop. *)
Fixpoint rfind_dot (s : str) : option nat :=
  match s with
  | [] => None
  | c :: s' =>
      match rfind_dot s' with
      | Some i => Some (S i)
      | None => if c =? 0x2e then Some 0%nat else None
      end
  end.

(** [Path.stem]: the name without its last suffix. *)
Definition stem (name : str) : str :=
  match rfind_dot name with
  | Some i =>
      if (0 <? i)%nat && (i <? length name - 1)%nat then take i name
      else name
  | None => name
  end.

Definition ends_with (p s : str) : bool :=
  PyStr.starts_with (rev p) (rev s).

(** The names [glob("page_*.json")] keeps. *)
Definition glob_page (name : str) : bool :=
  PyStr.starts_with (u "page_") name && ends_with (u ".json") name &&
  (10 <=? length name)%nat.

(** The order of [str], by code points. *)
Fixpoint str_ltb (a b : str) : bool :=
  match a, b with
  | _, [] => false
  | [], _ :: _ => true
  | x :: a', y :: b' =>
      if x <? y then true else if y <? x then false else str_ltb a' b'
  end.

Record ocr_file := {
  file_name : str;
  file_content : json
}.

(** [sorted]: stable, by the names of the paths of one directory. *)
Fixpoint insert_file (f : ocr_file) (l : list ocr_file) : list ocr_file :=
  match l with
  | [] => [f]
  | g :: l' =>
      if str_ltb (file_name g) (file_name f) then g :: insert_file f l'
      else f :: l
  end.

Definition sorted_files (l : list ocr_file) : list ocr_file :=
  fold_right insert_file [] l.

(** The white space [int] skips around a numeral: the ASCII blanks, and
    the other spaces of Unicode. *)
Definition int_space (c : N) : bool :=
  if c <? 0x80 then between 0x9 0xd c || only 0x20 c else isspace c.

Fixpoint int_lstrip (s : str) : str :=
  match s with
  | c :: s' => if int_space c then int_lstrip s' else s
  | [] => []
  end.

(** The digits of a numeral, with single underscores between digits. *)
Fixpoint int_digits (s : str) (acc : N) (after_digit : bool) : option N :=
  match s with
  | [] => if after_digit then Some acc else None
  | c :: s' =>
      if isdecimal c then int_digits s' (acc * 10 + todecimal c) true
      else if (c =? 0x5f) && after_digit &&
              match s' with d :: _ => isdecimal d | [] => false end
      then int_digits s' acc false
      else None
  end.

(** [int(s)] for a [str]. *)
Definition py_int `{Interp} (s : str) : result Z :=
  let t := rev (int_lstrip (rev (int_lstrip s))) in
  let '(negative, digits) :=
    match t with
    | c :: t' =>
        if c =? 0x2d then (true, t') else if c =? 0x2b then (false, t')
        else (false, t)
    | [] => (false, t)
    end in
  match int_digits digits 0 false with
  | Some n => Ok (if negative then - Z.of_N n else Z.of_N n)%Z
  | None =>
      Raise (ValueError (u "invalid literal for int() with base 10: " ++
                         py_repr (PStr s)))
  end.

Definition type_name (v : pyval) : str :=
  match v with
  | PNone => u "NoneType"
  | PInt _ => u "int"
  | PStr _ => u "str"
  | PList _ => u "list"
  | PTuple _ => u "tuple"
  | PDict _ => u "dict"
  end.

(** [v[k]] for a key that is a [str]. *)
Definition py_getitem (v : pyval) (k : str) : result pyval :=
  match v with
  | PDict d => dict_item k d
  | PStr _ =>
      Raise (TypeError (u "string indices must be integers, not 'str'"))
  | PList _ | PTuple _ =>
      Raise (TypeError (type_name v ++
                        u " indices must be integers or slices, not str"))
  | PNone | PInt _ =>
      Raise (TypeError (u "'" ++ type_name v ++
                        u "' object is not subscriptable"))
  end.

Section Directory.
Context `{Interp}.

(** The body of the loop of [structure_textbook] up to the dispatch:
    the content is loaded, then the number is read from the name, then the
    text is taken. *)
Definition load_page (page_file : ocr_file) : result (Z * pyval) :=
  let page_data := json_load (file_content page_file) in
  let! part :=
    list_item (PyStr.split (u "_") (stem (file_name page_file))) 1 in
  let! page_num := py_int part in
  let! page_text := py_getitem page_data (u "text") in
  Ok (page_num, page_text).

(** The text as [re.findall] and [str.split] need it. *)
Definition text_for_findall (page_text : pyval) : result str :=
  match page_text with
  | PStr s => Ok s
  | _ =>
      Raise (TypeError (u "expected string or bytes-like object, got '" ++
                        type_name page_text ++ u "'"))
  end.

Definition text_for_split (page_text : pyval) : result str :=
  match page_text with
  | PStr s => Ok s
  | _ =>
      Raise (Fault (u "'" ++ type_name page_text ++
                    u "' object has no attribute 'split'"))
  end.

Fixpoint process_page_files (textbook_metadata : TextbookMetadata)
    (chunk_creator : ChunkCreator) (page_files : list ocr_file)
    (all_chunks : list chunk) : result (list chunk) :=
  match page_files with
  | [] => Ok all_chunks
  | page_file :: rest =>
      let! loaded := load_page page_file in
      let '(page_num, page_text) := loaded in
      if str_eqb (subject textbook_metadata) (u "математика") then
        let! page_text := text_for_findall page_text in
        let chunks := extract_math_tasks page_text page_num in
        let! done := finalize textbook_metadata chunk_creator chunks in
        process_page_files textbook_metadata (fst done) rest
          (all_chunks ++ snd done)
      else if str_eqb (subject textbook_metadata) (u "история") then
        let! page_text := text_for_split page_text in
        let chunks := extract_history_content page_text page_num in
        let! done := finalize textbook_metadata chunk_creator chunks in
        process_page_files textbook_metadata (fst done) rest
          (all_chunks ++ snd done)
      else
        process_page_files textbook_metadata chunk_creator rest all_chunks
  end.

(** [structure_textbook] on the directory. *)
Definition structure_textbook_dir (ocr_dir : list ocr_file)
    (textbook_metadata : TextbookMetadata) : result run :=
  let chunk_creator := new_creator (subject textbook_metadata) in
  let page_files :=
    sorted_files (List.filter (fun f => glob_page (file_name f)) ocr_dir) in
  let! all_chunks :=
    process_page_files textbook_metadata chunk_creator page_files [] in
  Ok {| output_file :=
          subject textbook_metadata ++ u "_" ++
          str_of_int (grade textbook_metadata) ++ u "_chunks.json";
        dumped :=
          PDict [ (u "metadata", PDict (model_dump textbook_metadata));
                  (u "chunks", PList (map chunk_dict all_chunks));
                  (u "total_chunks",
                   PInt (Z.of_nat (length all_chunks))) ];
        all_chunks := all_chunks |}.
End Directory.


(** ** Page file names *)

Fixpoint uint_value (d : Decimal.uint) (acc : N) : N :=
  match d with
  | Decimal.Nil => acc
  | Decimal.D0 d => uint_value d (acc * 10 + 0)
  | Decimal.D1 d => uint_value d (acc * 10 + 1)
  | Decimal.D2 d => uint_value d (acc * 10 + 2)
  | Decimal.D3 d => uint_value d (acc * 10 + 3)
  | Decimal.D4 d => uint_value d (acc * 10 + 4)
  | Decimal.D5 d => uint_value d (acc * 10 + 5)
  | Decimal.D6 d => uint_value d (acc * 10 + 6)
  | Decimal.D7 d => uint_value d (acc * 10 + 7)
  | Decimal.D8 d => uint_value d (acc * 10 + 8)
  | Decimal.D9 d => uint_value d (acc * 10 + 9)
  end.

Lemma uint_value_pos (d : Decimal.uint) (p : positive) :
  uint_value d (Npos p) = Npos (Pos.of_uint_acc d p).
Proof.
  revert p. induction d; intros p; cbn [uint_value Pos.of_uint_acc];
    try reflexivity; rewrite <- IHd; f_equal; lia.
Qed.

Lemma uint_value_of_uint (d : Decimal.uint) : uint_value d 0 = N.of_uint d.
Proof.
  unfold N.of_uint. induction d; cbn [uint_value Pos.of_uint];
    try reflexivity; try exact IHd;
    cbn [N.mul N.add]; apply uint_value_pos.
Qed.

Lemma int_digits_uint (d : Decimal.uint) (acc : N) (b : bool) :
  b = true \/ d <> Decimal.Nil ->
  int_digits (digits_of_uint d) acc b = Some (uint_value d acc).
Proof.
  revert acc b. induction d; intros acc b Hb;
    cbn [digits_of_uint int_digits uint_value].
  - destruct Hb as [->|Hb]; [reflexivity|congruence].
  - change (isdecimal 0x30) with true; change (todecimal 0x30) with 0;
      cbv iota; apply IHd; left; reflexivity.
  - change (isdecimal 0x31) with true; change (todecimal 0x31) with 1;
      cbv iota; apply IHd; left; reflexivity.
  - change (isdecimal 0x32) with true; change (todecimal 0x32) with 2;
      cbv iota; apply IHd; left; reflexivity.
  - change (isdecimal 0x33) with true; change (todecimal 0x33) with 3;
      cbv iota; apply IHd; left; reflexivity.
  - change (isdecimal 0x34) with true; change (todecimal 0x34) with 4;
      cbv iota; apply IHd; left; reflexivity.
  - change (isdecimal 0x35) with true; change (todecimal 0x35) with 5;
      cbv iota; apply IHd; left; reflexivity.
  - change (isdecimal 0x36) with true; change (todecimal 0x36) with 6;
      cbv iota; apply IHd; left; reflexivity.
  - change (isdecimal 0x37) with true; change (todecimal 0x37) with 7;
      cbv iota; apply IHd; left; reflexivity.
  - change (isdecimal 0x38) with true; change (todecimal 0x38) with 8;
      cbv iota; apply IHd; left; reflexivity.
  - change (isdecimal 0x39) with true; change (todecimal 0x39) with 9;
      cbv iota; apply IHd; left; reflexivity.
Qed.

Lemma to_uint_not_nil (n : N) : N.to_uint n <> Decimal.Nil.
Proof.
  intros E. pose proof (DecimalN.Unsigned.to_of (N.to_uint n)) as Hn.
  rewrite DecimalN.Unsigned.of_to in Hn. rewrite E in Hn at 2.
  cbn in Hn. rewrite E in Hn. discriminate Hn.
Qed.

Lemma int_digits_zeros (k : nat) (s : str) (b : bool) :
  int_digits (repeat 0x30 k ++ s) 0 b =
  int_digits s 0 (b || negb (Nat.eqb k 0)).
Proof.
  revert b. induction k as [|k IH]; intros b.
  - cbn. rewrite orb_false_r. reflexivity.
  - cbn [repeat app int_digits].
    change (isdecimal 0x30) with true. change (todecimal 0x30) with 0.
    cbv iota. change (0 * 10 + 0) with 0. rewrite IH.
    cbn. rewrite orb_true_r. reflexivity.
Qed.

Lemma int_digits_padded (k : nat) (m : N) :
  int_digits (repeat 0x30 k ++ str_of_N m) 0 false = Some m.
Proof.
  rewrite int_digits_zeros. unfold str_of_N.
  rewrite int_digits_uint by (right; apply to_uint_not_nil).
  rewrite uint_value_of_uint, DecimalN.Unsigned.of_to. reflexivity.
Qed.

Lemma digit_or_minus_not_int_space (c : N) :
  digit_or_minus c -> int_space c = false.
Proof.
  unfold digit_or_minus, int_space, between, only. intros Hc.
  assert ((c <? 0x80) = true) as -> by (apply N.ltb_lt; lia).
  apply orb_false_iff. split.
  - apply andb_false_iff. right. apply N.leb_gt. lia.
  - apply N.eqb_neq. lia.
Qed.

Lemma int_lstrip_id (s : str) :
  Forall (fun c => int_space c = false) s -> int_lstrip s = s.
Proof. destruct 1 as [|c s Hc _]; [reflexivity|]. simpl. rewrite Hc. reflexivity.
Qed.

Lemma int_strip_id (s : str) :
  Forall (fun c => int_space c = false) s ->
  rev (int_lstrip (rev (int_lstrip s))) = s.
Proof.
  intros Hs. rewrite (int_lstrip_id s Hs), int_lstrip_id.
  - apply rev_involutive.
  - apply Forall_forall. intros c Hc. rewrite Forall_forall in Hs.
    apply Hs. apply list_elem_of_In. apply in_rev.
    apply list_elem_of_In, Hc.
Qed.

Lemma format_03d_chars (n : Z) : Forall digit_or_minus (format_03d n).
Proof.
  unfold format_03d. repeat apply Forall_app_2.
  - destruct n; repeat constructor; unfold digit_or_minus; lia.
  - apply Forall_forall. intros c Hc%list_elem_of_In%repeat_spec. subst c.
    unfold digit_or_minus. lia.
  - eapply Forall_impl; [apply digits_of_uint_chars|].
    unfold digit_or_minus. intros c; simpl; lia.
Qed.

Lemma str_of_N_cons (m : N) :
  exists c s, str_of_N m = c :: s /\ 0x30 <= c <= 0x39.
Proof.
  unfold str_of_N. pose proof (to_uint_not_nil m) as Hn.
  pose proof (digits_of_uint_chars (N.to_uint m)) as Hc.
  destruct (N.to_uint m); try congruence; cbn [digits_of_uint] in *;
    apply Forall_cons in Hc as [Hc _]; eauto.
Qed.

(** The number a page file was named with is the number read back from
    its name. *)
Lemma py_int_format_03d `{Interp} (n : Z) : py_int (format_03d n) = Ok n.
Proof.
  unfold py_int. rewrite int_strip_id.
  2:{ eapply Forall_impl; [apply format_03d_chars|].
      apply digit_or_minus_not_int_space. }
  unfold format_03d. destruct n as [|p|p]; cbn [app length Z.abs_N].
  - change (str_of_N (Z.abs_N 0)) with [0x30]. reflexivity.
  - destruct (3 - 0 - length (str_of_N (N.pos p)))%nat as [|k] eqn:Ek.
    + cbn [repeat app].
      destruct (str_of_N_cons (N.pos p)) as (c & s & E & Hc).
      pose proof (int_digits_padded 0 (N.pos p)) as Hd.
      cbn [repeat app] in Hd. rewrite E in *.
      replace (c =? 0x2d) with false by (symmetry; apply N.eqb_neq; lia).
      replace (c =? 0x2b) with false by (symmetry; apply N.eqb_neq; lia).
      rewrite Hd. reflexivity.
    + pose proof (int_digits_padded (S k) (N.pos p)) as Hd.
      cbn [repeat app] in *.
      change (0x30 =? 0x2d) with false. change (0x30 =? 0x2b) with false.
      cbv iota. rewrite Hd. reflexivity.
  - change (0x2d =? 0x2d) with true. cbv iota.
    rewrite int_digits_padded. reflexivity.
Qed.

Lemma rfind_dot_none (s : str) : 0x2e ∉ s -> rfind_dot s = None.
Proof.
  induction s as [|c s IH]; intros Hs; [reflexivity|].
  cbn [rfind_dot]. rewrite IH by (intros ?; apply Hs; right; assumption).
  destruct (N.eqb_spec c 0x2e) as [->|]; [|reflexivity].
  exfalso. apply Hs. left.
Qed.

Lemma rfind_dot_last (a b : str) :
  0x2e ∉ b -> rfind_dot (a ++ 0x2e :: b) = Some (length a).
Proof.
  intros Hb. induction a as [|c a IH].
  - cbn [app rfind_dot length]. rewrite (rfind_dot_none b Hb). reflexivity.
  - cbn [app rfind_dot length]. rewrite IH. reflexivity.
Qed.

Lemma digit_or_minus_notin (c : N) (s : str) :
  Forall digit_or_minus s -> ~ digit_or_minus c -> c ∉ s.
Proof.
  intros Hs Hc Hin. rewrite Forall_forall in Hs. exact (Hc (Hs c Hin)).
Qed.

Lemma stem_page_file_name (n : Z) :
  stem (page_file_name n) = u "page_" ++ format_03d n.
Proof.
  unfold stem, page_file_name.
  change (u ".json") with (0x2e :: u "json").
  rewrite app_assoc, rfind_dot_last
    by (intros Hin%list_elem_of_In; vm_compute in Hin; intuition discriminate).
  rewrite !length_app.
  change (length (u "page_")) with 5%nat.
  change (length (0x2e :: u "json")) with 5%nat.
  replace ((0 <? 5 + length (format_03d n))%nat) with true
    by (symmetry; apply Nat.ltb_lt; lia).
  replace ((5 + length (format_03d n)
            <? 5 + length (format_03d n) + 5 - 1)%nat) with true
    by (symmetry; apply Nat.ltb_lt; lia).
  cbn [andb]. apply take_app_length'. rewrite length_app. reflexivity.
Qed.

Lemma split_go_no_sep (c : N) (s cur : str) :
  c ∉ s -> PyStr.split_go [c] s 0 cur = [rev cur ++ s].
Proof.
  revert cur. induction s as [|x s IH]; intros cur Hs.
  - cbn. rewrite app_nil_r. reflexivity.
  - cbn [PyStr.split_go PyStr.starts_with].
    destruct (N.eqb_spec c x) as [->|Hne]; [exfalso; apply Hs; left|].
    cbn [andb]. rewrite IH by (intros ?; apply Hs; right; assumption).
    cbn [rev]. rewrite <- app_assoc. reflexivity.
Qed.

Lemma split_stem (n : Z) :
  PyStr.split (u "_") (u "page_" ++ format_03d n) =
  [u "page"; format_03d n].
Proof.
  unfold PyStr.split.
  change (u "_") with [0x5f].
  change (u "page_") with [0x70; 0x61; 0x67; 0x65; 0x5f].
  change (u "page") with [0x70; 0x61; 0x67; 0x65].
  cbn [app PyStr.split_go PyStr.starts_with length Nat.pred].
  change (0x5f =? 0x70) with false. change (0x5f =? 0x61) with false.
  change (0x5f =? 0x67) with false. change (0x5f =? 0x65) with false.
  change (0x5f =? 0x5f) with true. cbn [andb rev app].
  rewrite split_go_no_sep; [reflexivity|].
  apply digit_or_minus_notin; [apply format_03d_chars|].
  unfold digit_or_minus. lia.
Qed.

Lemma starts_with_app (p s : str) : PyStr.starts_with p (p ++ s) = true.
Proof.
  induction p as [|c p IH]; [reflexivity|].
  cbn [app PyStr.starts_with]. rewrite N.eqb_refl, IH. reflexivity.
Qed.

Lemma glob_page_file_name (n : Z) : glob_page (page_file_name n) = true.
Proof.
  unfold glob_page, page_file_name, ends_with.
  rewrite starts_with_app, !rev_app_distr, <- app_assoc, starts_with_app.
  cbn [andb]. apply Nat.leb_le. rewrite !length_app.
  change (length (u "page_")) with 5%nat.
  change (length (u ".json")) with 5%nat. lia.
Qed.

(** X9. A page file named by [process_pdf_pages] for page [n] is kept by
    the glob of [structure_textbook], and loading it gives back the page
    number [n] and the text written under 'text'. *)
Theorem page_file_is_read_back `{Interp} (n : Z) (text : str)
    (ocr_results dimensions : json) :
  glob_page (page_file_name n) = true /\
  load_page
    {| file_name := page_file_name n;
       file_content :=
         JObject [ (u "text", JString text); (u "ocr_results", ocr_results);
                   (u "dimensions", dimensions) ] |} =
  Ok (n, PStr text).
Proof.
  split; [apply glob_page_file_name|].
  unfold load_page. cbn [file_name file_content].
  rewrite stem_page_file_name, split_stem.
  change (list_item [u "page"; format_03d n] 1) with (Ok (format_03d n)).
  cbn [bind]. rewrite py_int_format_03d. cbn [bind].
  reflexivity.
Qed.

(** A page file as the run uses it. *)
Definition read_page `{Interp} (tm : TextbookMetadata) (f : ocr_file)
    : result page_file :=
  let! loaded := load_page f in
  let '(n, v) := loaded in
  if str_eqb (subject tm) (u "математика") then
    let! s := text_for_findall v in Ok {| page_num := n; page_text := s |}
  else if str_eqb (subject tm) (u "история") then
    let! s := text_for_split v in Ok {| page_num := n; page_text := s |}
  else Ok {| page_num := n; page_text := [] |}.

Lemma process_page_files_reads_first `{Interp} (tm : TextbookMetadata)
    (files : list ocr_file) :
  forall (cc : ChunkCreator) (acc : list chunk),
    creator_subject cc = subject tm ->
    process_page_files tm cc files acc =
    bind (traverse (read_page tm) files)
      (fun pages => process_pages tm cc pages acc).
Proof.
  induction files as [|f files IH]; intros cc acc Hs; [reflexivity|].
  cbn [process_page_files traverse]. unfold read_page at 1.
  destruct (load_page f) as [[n v]|e]; [|reflexivity]. cbn [bind].
  assert (Hstep : forall (s : str) (chunks : list chunk),
            Forall (paged n) chunks ->
            bind (finalize tm cc chunks)
              (fun done => process_page_files tm (fst done) files
                             (acc ++ snd done)) =
            bind (traverse (read_page tm) files)
              (fun pages =>
                 bind (finalize tm cc chunks)
                   (fun done => process_pages tm (fst done) pages
                                  (acc ++ snd done)))).
  { intros s chunks Hp.
    rewrite finalize_ok;
      [|exact Hs
       |eapply Forall_impl; [exact Hp|]; intros c Hc; exists n; exact Hc].
    cbn [bind fst snd]. rewrite IH by exact Hs.
    destruct (traverse (read_page tm) files); reflexivity. }
  destruct (str_eqb (subject tm) (u "математика")) eqn:E1.
  - destruct (text_for_findall v) as [s|e]; [|reflexivity]. cbn [bind].
    rewrite (Hstep s) by apply extract_math_tasks_paged.
    destruct (traverse (read_page tm) files) as [pages|e]; [|reflexivity].
    cbn [bind process_pages page_num page_text]. rewrite E1. reflexivity.
  - destruct (str_eqb (subject tm) (u "история")) eqn:E2.
    + destruct (text_for_split v) as [s|e]; [|reflexivity]. cbn [bind].
      rewrite (Hstep s) by apply extract_history_content_paged.
      destruct (traverse (read_page tm) files) as [pages|e]; [|reflexivity].
      cbn [bind process_pages page_num page_text]. rewrite E1, E2.
      reflexivity.
    + cbn [bind]. rewrite IH by exact Hs.
      destruct (traverse (read_page tm) files) as [pages|e]; [|reflexivity].
      cbn [bind process_pages]. rewrite E1, E2. reflexivity.
Qed.

(** X10. A run over the OCR directory is the run over the pages read from
    the files that match [page_*.json], taken in the sorted order of their
    names: it raises the error of the first such file that cannot be read,
    also when this file comes after pages that gave chunks, and otherwise
    returns what [structure_textbook] returns on the pages. *)
Theorem run_over_directory_reads_then_segments `{Interp}
    (ocr_dir : list ocr_file) (tm : TextbookMetadata) :
  structure_textbook_dir ocr_dir tm =
  bind
    (traverse (read_page tm)
       (sorted_files (List.filter (fun f => glob_page (file_name f)) ocr_dir)))
    (fun pages => structure_textbook pages tm).
Proof.
  unfold structure_textbook_dir, structure_textbook.
  rewrite process_page_files_reads_first by reflexivity.
  destruct (traverse _ _) as [pages|e]; reflexivity.
Qed.

Lemma traverse_app_raise {A B} (f : A -> result B) (good : list A)
    (bs : list B) (a : A) (rest : list A) (e : exn) :
  traverse f good = Ok bs -> f a = Raise e ->
  traverse f (good ++ a :: rest) = Raise e.
Proof.
  revert bs. induction good as [|g good IH]; intros bs Hg Ha.
  - cbn [app traverse]. rewrite Ha. reflexivity.
  - cbn [app traverse] in *. destruct (f g); [|discriminate Hg].
    cbn [bind] in *. destruct (traverse f good) as [bs'|]; [|discriminate Hg].
    rewrite (IH bs') by (reflexivity || exact Ha). reflexivity.
Qed.

(** X11. The pages are loaded before the subject is looked at: when a
    page file cannot be loaded (its name holds no number, or its content
    no 'text') and the files before it can be read, the run raises the
    error of that file, whatever the subject of the book, and writes
    nothing. *)
Theorem unloadable_page_aborts_run `{Interp}
    (ocr_dir : list ocr_file) (tm : TextbookMetadata)
    (good : list ocr_file) (pages : list page_file) (f : ocr_file)
    (rest : list ocr_file) (e : exn) :
  sorted_files (List.filter (fun f => glob_page (file_name f)) ocr_dir) =
    good ++ f :: rest ->
  traverse (read_page tm) good = Ok pages ->
  load_page f = Raise e ->
  structure_textbook_dir ocr_dir tm = Raise e.
Proof.
  intros Hdir Hgood Hf. unfold structure_textbook_dir.
  rewrite process_page_files_reads_first by reflexivity.
  rewrite Hdir, (traverse_app_raise _ good pages f rest e Hgood);
    [reflexivity|].
  unfold read_page. rewrite Hf. reflexivity.
Qed.

Lemma unloadable_page_aborts_run_witness :
  structure_textbook_dir (H := basic_interp)
    [ {| file_name := u "page_000.json";
         file_content := JObject [ (u "ocr_results", JArray []) ] |} ]
    physics_book =
  Raise (KeyError (u "text")).
Proof.
  apply (unloadable_page_aborts_run (H := basic_interp) _ physics_book
           [] [] {| file_name := u "page_000.json";
                    file_content := JObject [ (u "ocr_results", JArray []) ] |}
           []);
    vm_compute; reflexivity.
Defined.

(** ** The order of the page files *)

Definition page_file_of (p : Z * json) : ocr_file :=
  {| file_name := page_file_name (fst p); file_content := snd p |}.

Definition page_below_1000 (p : Z * json) : Prop :=
  (0 <= fst p < 1000)%Z.

Lemma str_ltb_irrefl (a : str) : str_ltb a a = false.
Proof.
  induction a as [|x a IH]; [reflexivity|].
  cbn [str_ltb]. rewrite N.ltb_irrefl. exact IH.
Qed.

Lemma str_ltb_trans (a : str) :
  forall b c : str,
    str_ltb a b = true -> str_ltb b c = true -> str_ltb a c = true.
Proof.
  induction a as [|x a IH]; intros [|y b] [|z c] Hab Hbc;
    try discriminate; try reflexivity.
  cbn [str_ltb] in *.
  destruct (N.ltb_spec x y), (N.ltb_spec y x), (N.ltb_spec y z),
    (N.ltb_spec z y), (N.ltb_spec x z), (N.ltb_spec z x);
    try discriminate; try reflexivity; try lia.
  eapply IH; eassumption.
Qed.

Lemma page_names_step (n : Z) :
  (0 <= n < 999)%Z ->
  str_ltb (page_file_name n) (page_file_name (n + 1)) = true.
Proof.
  intros Hn.
  assert (Hall :
    forallb (fun a =>
      str_ltb (page_file_name (Z.of_nat a)) (page_file_name (Z.of_nat a + 1)))
      (seq 0 999) = true) by (vm_compute; reflexivity).
  rewrite forallb_forall in Hall.
  assert (Ha : In (Z.to_nat n) (seq 0 999)) by (apply in_seq; lia).
  specialize (Hall _ Ha). rewrite !Z2Nat.id in Hall by lia. exact Hall.
Qed.

Lemma page_names_increase (d : nat) (n : Z) :
  (0 <= n)%Z -> (n + Z.of_nat d + 1 < 1000)%Z ->
  str_ltb (page_file_name n) (page_file_name (n + Z.of_nat d + 1)) = true.
Proof.
  intros Hn. induction d as [|d IH]; intros Hm.
  - rewrite Z.add_0_r. apply page_names_step. lia.
  - eapply str_ltb_trans; [apply IH; lia|].
    replace (n + Z.of_nat (S d) + 1)%Z with ((n + Z.of_nat d + 1) + 1)%Z
      by lia.
    apply page_names_step. lia.
Qed.

Lemma page_names_ordered (n m : Z) :
  (0 <= n < 1000)%Z -> (0 <= m < 1000)%Z ->
  str_ltb (page_file_name n) (page_file_name m) = (n <? m)%Z.
Proof.
  intros Hn Hm.
  assert (Hlt : forall a b : Z, (0 <= a)%Z -> (a < b < 1000)%Z ->
            str_ltb (page_file_name a) (page_file_name b) = true).
  { intros a b Ha Hab.
    replace b with (a + Z.of_nat (Z.to_nat (b - a - 1)) + 1)%Z by lia.
    apply page_names_increase; lia. }
  destruct (Z.ltb_spec n m) as [H|H]; [apply Hlt; lia|].
  destruct (Z.eq_dec n m) as [->|Hne]; [apply str_ltb_irrefl|].
  destruct (str_ltb (page_file_name n) (page_file_name m)) eqn:E;
    [|reflexivity].
  assert (Hback : str_ltb (page_file_name m) (page_file_name n) = true)
    by (apply Hlt; lia).
  rewrite <- (str_ltb_irrefl (page_file_name n)).
  symmetry. eapply str_ltb_trans; eassumption.
Qed.

Lemma insert_file_by_page (l : list (Z * json)) (p : Z * json) :
  Forall page_below_1000 l -> page_below_1000 p ->
  ~ In (fst p) (map fst l) ->
  StronglySorted Z.lt (map fst l) ->
  exists l', Permutation l' (p :: l) /\
    StronglySorted Z.lt (map fst l') /\
    insert_file (page_file_of p) (map page_file_of l) = map page_file_of l'.
Proof.
  intros Hl Hp. induction l as [|g l IH]; intros Hnew Hs.
  - exists [p]. split; [reflexivity|split; [|reflexivity]].
    cbn [map]. apply SSorted_cons; constructor.
  - apply Forall_cons in Hl as [Hg Hl].
    cbn [map] in Hs. apply StronglySorted_inv in Hs as [Hs Hlt].
    cbn [map insert_file].
    change (file_name (page_file_of g)) with (page_file_name (fst g)).
    change (file_name (page_file_of p)) with (page_file_name (fst p)).
    rewrite page_names_ordered by assumption.
    destruct (Z.ltb_spec (fst g) (fst p)) as [Hlt'|Hge].
    + destruct IH as (l' & Hperm & Hs' & Hins);
        [exact Hl|intros Hin; apply Hnew; right; exact Hin|exact Hs|].
      exists (g :: l'). split; [|split].
      * rewrite Hperm. apply perm_swap.
      * cbn [map]. apply SSorted_cons; [exact Hs'|].
        assert (Hall : Forall (Z.lt (fst g)) (map fst (p :: l)))
          by (cbn [map]; apply List.Forall_cons; assumption).
        rewrite <- Hperm in Hall. exact Hall.
      * cbn [map]. rewrite Hins. reflexivity.
    + exists (p :: g :: l). split; [reflexivity|split; [|reflexivity]].
      assert (Hpg : (fst p < fst g)%Z).
      { assert (fst p <> fst g) by (intros E; apply Hnew; left; auto).
        lia. }
      cbn [map]. apply SSorted_cons.
      * apply SSorted_cons; assumption.
      * apply List.Forall_cons; [exact Hpg|].
        eapply Forall_impl; [exact Hlt|]. cbn. intros; lia.
Qed.

Lemma filter_page_files (l : list (Z * json)) :
  List.filter (fun f => glob_page (file_name f)) (map page_file_of l) =
  map page_file_of l.
Proof.
  induction l as [|p l IH]; [reflexivity|].
  cbn [map List.filter].
  change (file_name (page_file_of p)) with (page_file_name (fst p)).
  rewrite glob_page_file_name, IH. reflexivity.
Qed.

(** X12. For a book of fewer than a thousand pages the run visits the
    files written by [process_pdf_pages] in the order of the page numbers,
    in whatever order the directory lists them. *)
Theorem page_files_visited_in_page_order (l : list (Z * json)) :
  Forall page_below_1000 l -> NoDup (map fst l) ->
  exists l', Permutation l' l /\
    StronglySorted Z.lt (map fst l') /\
    sorted_files
      (List.filter (fun f => glob_page (file_name f)) (map page_file_of l)) =
    map page_file_of l'.
Proof.
  rewrite filter_page_files.
  induction l as [|p l IH]; intros Hl Hnd.
  - exists []. split; [reflexivity|split; [constructor|reflexivity]].
  - apply Forall_cons in Hl as [Hp Hl].
    cbn [map] in Hnd. apply NoDup_cons in Hnd as [Hnew Hnd].
    destruct IH as (l1 & Hperm & Hs & Hsort); [exact Hl|exact Hnd|].
    destruct (insert_file_by_page l1 p) as (l2 & Hperm2 & Hs2 & Hins).
    + rewrite Hperm. exact Hl.
    + exact Hp.
    + intros Hin%list_elem_of_In. apply Hnew.
      rewrite <- Hperm. exact Hin.
    + exact Hs.
    + exists l2. split; [|split].
      * rewrite Hperm2, Hperm. reflexivity.
      * exact Hs2.
      * unfold sorted_files in *. cbn [map fold_right].
        rewrite Hsort. exact Hins.
Qed.

Lemma page_files_visited_in_page_order_witness :
  exists l', Permutation l' [ (2%Z, JObject []); (0%Z, JObject []);
                              (1%Z, JObject []) ] /\
    StronglySorted Z.lt (map fst l') /\
    sorted_files
      (List.filter (fun f => glob_page (file_name f))
         (map page_file_of [ (2%Z, JObject []); (0%Z, JObject []);
                             (1%Z, JObject []) ])) =
    map page_file_of l'.
Proof.
  apply (page_files_visited_in_page_order
           [ (2%Z, JObject []); (0%Z, JObject []); (1%Z, JObject []) ]).
  - repeat apply List.Forall_cons; try apply List.Forall_nil;
      unfold page_below_1000; cbn [fst]; lia.
  - eapply bool_decide_eq_true_1. vm_compute. reflexivity.
Defined.

(** The bound is needed: the file of page 1000 comes before the file of
    page 101. *)
Example page_1000_before_page_101 :
  map file_name
    (sorted_files [ page_file_of (101%Z, JObject []);
                    page_file_of (1000%Z, JObject []) ]) =
  [ u "page_1000.json"; u "page_101.json" ].
Proof. vm_compute. reflexivity. Qed.

(** * Further properties of the formulas *)

Lemma rep_greedy_suffix {A} (cls : N -> bool) (s : str) :
  forall (lo hi : nat) (prev : option N) (k : option N -> str -> option A)
         (a : A),
    rep_greedy cls lo hi prev s k = Some a ->
    exists m p s', s = m ++ s' /\ k p s' = Some a.
Proof.
  induction s as [|c s IH]; intros lo hi prev k a Hm.
  - destruct hi; cbn [rep_greedy or_else] in Hm;
      (destruct lo; [|discriminate Hm]); exists [], prev, []; auto.
  - destruct hi as [|hi].
    + cbn [rep_greedy or_else] in Hm. destruct lo; [|discriminate Hm].
      exists [], prev, (c :: s). auto.
    + cbn [rep_greedy] in Hm. destruct (cls c).
      * destruct (rep_greedy cls (Nat.pred lo) hi (Some c) s k) as [b|] eqn:E.
        -- cbn [or_else] in Hm. injection Hm as ->.
           apply IH in E as (m & p & s' & -> & Hk).
           exists (c :: m), p, s'. auto.
        -- cbn [or_else] in Hm. destruct lo; [|discriminate Hm].
           exists [], prev, (c :: s). auto.
      * cbn [or_else] in Hm. destruct lo; [|discriminate Hm].
        exists [], prev, (c :: s). auto.
Qed.

Lemma match_at_formula `{Interp} (wordc : N -> bool) (prev : option N)
    (s s' : str) (cs : caps) :
  match_at wordc formula_pattern prev s = Some (s', cs) ->
  exists m, s = m ++ s' /\ In 0x3d m.
Proof.
  unfold match_at, formula_pattern. cbn [sequence rmatch many1 many0].
  intros Hm.
  apply rep_greedy_suffix in Hm as (m1 & p1 & s1 & -> & Hm).
  apply rep_greedy_suffix in Hm as (m2 & p2 & s2 & -> & Hm).
  destruct s2 as [|c s3]; [discriminate Hm|].
  unfold only in Hm at 1. destruct (N.eqb_spec 0x3d c) as [<-|]; [|discriminate Hm].
  apply rep_greedy_suffix in Hm as (m3 & p3 & s4 & -> & Hm).
  apply rep_greedy_suffix in Hm as (m4 & p4 & s5 & -> & Hm).
  injection Hm as <- <-.
  exists (m1 ++ m2 ++ 0x3d :: m3 ++ m4). split.
  - rewrite <- !app_assoc. cbn [app]. rewrite <- !app_assoc. reflexivity.
  - apply in_or_app. right. apply in_or_app. right. left. reflexivity.
Qed.

Lemma scan_matches (wordc : N -> bool) (r : regex) (P : str -> Prop) :
  (forall prev s s' cs,
      match_at wordc r prev s = Some (s', cs) ->
      exists m, s = m ++ s' /\ P m) ->
  forall (s : str) (prev : option N) (skip : nat) (x : str * caps),
    In x (scan wordc r prev s skip) -> P (fst x).
Proof.
  intros Hr. induction s as [|c s IH]; intros prev skip x Hx.
  - destruct skip; [|destruct Hx]. rewrite scan_unfold in Hx.
    destruct (match_at wordc r prev []) as [[s' cs]|] eqn:E; [|destruct Hx].
    apply Hr in E as (m & Es & Hm).
    destruct Hx as [<-|[]]. cbn [fst]. cbn zeta.
    rewrite Es, firstn_prefix. exact Hm.
  - destruct skip as [|skip]; [|exact (IH _ _ _ Hx)].
    rewrite scan_unfold in Hx.
    destruct (match_at wordc r prev (c :: s)) as [[s' cs]|] eqn:E;
      [|exact (IH _ _ _ Hx)].
    destruct Hx as [<-|Hx]; [|exact (IH _ _ _ Hx)].
    apply Hr in E as (m & Es & Hm). cbn [fst]. cbn zeta.
    rewrite Es, firstn_prefix. exact Hm.
Qed.

Lemma lstrip_keeps (c : N) (s : str) :
  isspace c = false -> In c s -> In c (PyStr.lstrip s).
Proof.
  intros Hc. induction s as [|d s IH]; intros Hin; [destruct Hin|].
  cbn [PyStr.lstrip]. destruct (isspace d) eqn:E; [|exact Hin].
  destruct Hin as [->|Hin]; [congruence|exact (IH Hin)].
Qed.

Lemma strip_keeps (c : N) (s : str) :
  isspace c = false -> In c s -> In c (PyStr.strip s).
Proof.
  intros Hc Hin. unfold PyStr.strip, PyStr.rstrip.
  apply in_rev. rewrite rev_involutive. apply lstrip_keeps; [exact Hc|].
  apply in_rev. rewrite rev_involutive. apply lstrip_keeps; assumption.
Qed.

(** X13. Every formula [_extract_formulas] returns holds an equals sign,
    also after the white space around it is stripped. *)
Theorem formulas_hold_equals_sign `{Interp} (text formula : str) :
  In formula (_extract_formulas text) -> In 0x3d formula.
Proof.
  unfold _extract_formulas, findall, finditer. rewrite map_map.
  intros (x & <- & Hx)%in_map_iff.
  apply strip_keeps; [reflexivity|].
  exact (scan_matches isword formula_pattern (In 0x3d)
           (match_at_formula isword) _ _ _ _ Hx).
Qed.

Lemma formulas_hold_equals_sign_witness :
  In (u "S = a * b") (_extract_formulas (H := basic_interp) (u "S = a * b\n")) /\
  In 0x3d (u "S = a * b").
Proof.
  assert (Hin : In (u "S = a * b")
                  (_extract_formulas (H := basic_interp) (u "S = a * b\n")))
    by (vm_compute; left; reflexivity).
  split; [exact Hin|].
  exact (formulas_hold_equals_sign (H := basic_interp) _ _ Hin).
Defined.

(** * The embedding manager

    [3_create_embeddings.py] in full, on the values [json.load] returns:
    the chunks are the dicts of the file, whatever their shape, and every
    subscript, membership test, slice and join raises what the interpreter
    raises.  The embedding model and the vector index are collaborators:
    the model turns the texts into vectors or raises, a collection is made
    for a name or refused, and an addition changes a collection and may
    raise.  The index is the map from names to collections. *)

(** [k in s] for two [str]. *)
Fixpoint str_contains (k s : str) : bool :=
  PyStr.starts_with k s ||
  match s with
  | _ :: s' => str_contains k s'
  | [] => false
  end.

(** [k in v] for a [str] [k]. *)
Definition py_in (k : str) (v : pyval) : result bool :=
  match v with
  | PDict d =>
      Ok match dict_get k d with Some _ => true | None => false end
  | PStr s => Ok (str_contains k s)
  | PList l | PTuple l =>
      Ok (existsb
            (fun x => match x with PStr s => str_eqb s k | _ => false end) l)
  | PNone | PInt _ =>
      Raise (TypeError (u "argument of type '" ++ type_name v ++
                        u "' is not iterable"))
  end.

(** The truth value of [v]. *)
Definition py_truth (v : pyval) : bool :=
  match v with
  | PNone => false
  | PInt z => negb (z =? 0)%Z
  | PStr s => negb (bool_decide (s = []))
  | PList l | PTuple l => negb (bool_decide (l = []))
  | PDict d => negb (bool_decide (d = []))
  end.

(** [v[:n]] *)
Definition py_slice_to (n : nat) (v : pyval) : result pyval :=
  match v with
  | PStr s => Ok (PStr (take n s))
  | PList l => Ok (PList (take n l))
  | PTuple l => Ok (PTuple (take n l))
  | PDict _ => Raise (TypeError (u "unhashable type: 'slice'"))
  | PNone | PInt _ =>
      Raise (TypeError (u "'" ++ type_name v ++
                        u "' object is not subscriptable"))
  end.

(** [for x in v] *)
Definition py_iter (v : pyval) : result (list pyval) :=
  match v with
  | PList l | PTuple l => Ok l
  | PDict d => Ok (map (fun kv => PStr (fst kv)) d)
  | PStr s => Ok (map (fun c => PStr [c]) s)
  | PNone | PInt _ =>
      Raise (TypeError (u "'" ++ type_name v ++ u "' object is not iterable"))
  end.

(** [sep.join(v)] *)
Definition py_join (sep : str) (v : pyval) : result str :=
  match py_iter v with
  | Raise _ => Raise (TypeError (u "can only join an iterable"))
  | Ok items =>
      let! strs :=
        traverse (fun x => x)
          (imap
             (fun i x =>
                match x with
                | PStr s => Ok s
                | _ =>
                    Raise (TypeError
                             (u "sequence item " ++ str_of_int (Z.of_nat i) ++
                              u ": expected str instance, " ++ type_name x ++
                              u " found"))
                end) items) in
      Ok (PyStr.join sep strs)
  end.

Section Manager.
Context `{Interp}.

(** [if key in holder: text_parts.append(f"{label}{holder[key]}")] *)
Definition present_part (label key : str) (holder : pyval)
    (text_parts : list str) : result (list str) :=
  let! present := py_in key holder in
  if present then
    let! v := py_getitem holder key in
    Ok (text_parts ++ [label ++ py_str v])
  else Ok text_parts.

(** [if key in holder and holder[key]:
       text_parts.append(f"{label}{', '.join(holder[key][:n])}")] *)
Definition joined_part (label key : str) (n : nat) (holder : pyval)
    (text_parts : list str) : result (list str) :=
  let! present := py_in key holder in
  let! filled :=
    if present then let! v := py_getitem holder key in Ok (py_truth v)
    else Ok false in
  if filled then
    let! v := py_getitem holder key in
    let! v := py_slice_to n v in
    let! joined := py_join (u ", ") v in
    Ok (text_parts ++ [label ++ joined])
  else Ok text_parts.

Definition create_text_for_embedding (chunk : pyval) : result str :=
  let! metadata := py_getitem chunk (u "metadata") in
  let! content := py_getitem chunk (u "content") in
  let! subject := py_getitem metadata (u "subject") in
  let! grade := py_getitem metadata (u "grade") in
  let! page := py_getitem metadata (u "page") in
  let text_parts :=
    [ u "Предмет: " ++ py_str subject;
      u "Класс: " ++ py_str grade;
      u "Страница: " ++ py_str page ] in
  let! text_parts := present_part (u "Тема: ") (u "topic") metadata text_parts in
  let! text_parts :=
    present_part (u "Глава: ") (u "chapter") metadata text_parts in
  let! text := py_getitem content (u "text") in
  let! text := py_slice_to 500 text in
  let text_parts := text_parts ++ [u "Содержание: " ++ py_str text] in
  let! text_parts :=
    joined_part (u "Формулы: ") (u "formulas") 3 content text_parts in
  let! text_parts :=
    joined_part (u "Даты: ") (u "dates") 5 metadata text_parts in
  let! text_parts :=
    joined_part (u "Исторические личности: ") (u "historical_figures") 3
      metadata text_parts in
  Ok (PyStr.join (u "\n") text_parts).

(** What one call of [collection.add] is given. *)
Record batch := {
  batch_ids : list pyval;
  batch_embeddings : list (list float);
  batch_documents : list str;
  batch_metadatas : list pyval
}.

Variable collection : Type.
(** [self.model.encode(texts, ...).tolist()] *)
Variable model_encode : list str -> result (list (list float)).
(** [client.create_collection(name=..., metadata=...)] *)
Variable new_collection : str -> dict -> result collection.
(** [collection.add(ids=..., embeddings=..., documents=..., metadatas=...)]:
    the collection afterwards, and whether the call raised. *)
Variable collection_add : collection -> batch -> collection * result unit.

Definition create_embeddings_for_chunks (chunks : pyval)
    : result (list (list float)) :=
  let! chunks := py_iter chunks in
  let! texts := traverse create_text_for_embedding chunks in
  model_encode texts.

(** [range(0, stop, step)] for a positive [step]. *)
Definition range_step (stop step : nat) : list nat :=
  map (fun k => (k * step)%nat)
    (seq 0 (if (0 <? stop)%nat then S ((stop - 1) / step) else 0%nat)).

(** [l[i:i + n]] *)
Definition slice {A} (i n : nat) (l : list A) : list A := take n (drop i l).

Definition batch_size : nat := 100.

(** The batches of the loop, one for each start of the range. *)
Definition batches (ids : list pyval) (embeddings : list (list float))
    (documents : list str) (metadatas : list pyval) : list batch :=
  map
    (fun i =>
       {| batch_ids := slice i batch_size ids;
          batch_embeddings := slice i batch_size embeddings;
          batch_documents := slice i batch_size documents;
          batch_metadatas := slice i batch_size metadatas |})
    (range_step (length ids) batch_size).

(** The loop of the additions: it stops at the first one that raises. *)
Fixpoint add_batches (client : gmap str collection) (name : str)
    (c : collection) (todo : list batch)
    : gmap str collection * result unit :=
  match todo with
  | [] => (client, Ok tt)
  | b :: todo' =>
      let (c', r) := collection_add c b in
      let client := <[name := c']> client in
      match r with
      | Ok _ => add_batches client name c' todo'
      | Raise e => (client, Raise e)
      end
  end.

Definition store_in_chromadb (client : gmap str collection) (chunks : pyval)
    (embeddings : list (list float)) (collection_name : str)
    : gmap str collection * result unit :=
  let got :=
    match get_collection collection client collection_name with
    | Ok c => Ok (client, c)
    | Raise _ =>
        let! c :=
          new_collection collection_name
            [ (u "description",
               PStr (u "Textbook collection: " ++ collection_name)) ] in
        Ok (<[collection_name := c]> client, c)
    end in
  match got with
  | Raise e => (client, Raise e)
  | Ok (client, c) =>
      let prepared :=
        let! chunks := py_iter chunks in
        let! ids :=
          traverse (fun chunk => py_getitem chunk (u "chunk_id")) chunks in
        let! documents := traverse create_text_for_embedding chunks in
        let! metadatas :=
          traverse (fun chunk => py_getitem chunk (u "metadata")) chunks in
        Ok (batches ids embeddings documents metadatas) in
      match prepared with
      | Raise e => (client, Raise e)
      | Ok todo => add_batches client collection_name c todo
      end
  end.

(** [process_chunks_file] with the index it changes. *)
Definition process_chunks_file_store (client : gmap str collection)
    (file : json) : gmap str collection * result unit :=
  let data := json_load file in
  let named :=
    let! chunks := py_getitem data (u "chunks") in
    let! metadata := py_getitem data (u "metadata") in
    let! subject := py_getitem metadata (u "subject") in
    let! grade := py_getitem metadata (u "grade") in
    let collection_name :=
      Config.CHROMA_COLLECTION_PREFIX ++ u "_" ++ py_str subject ++ u "_" ++
      py_str grade in
    let! embeddings := create_embeddings_for_chunks chunks in
    Ok (chunks, embeddings, collection_name) in
  match named with
  | Raise e => (client, Raise e)
  | Ok (chunks, embeddings, collection_name) =>
      store_in_chromadb client chunks embeddings collection_name
  end.
End Manager.

(** * Properties of the embedding manager *)

(** ** The batches *)

Lemma concat_slices {A} (step k : nat) :
  forall l : list A,
    (length l <= k * step)%nat ->
    concat (map (fun i => slice i step l)
              (map (fun j => (j * step)%nat) (seq 0 k))) = l.
Proof.
  induction k as [|k IH]; intros l Hl.
  - destruct l; [reflexivity|cbn [length] in Hl; lia].
  - cbn [seq map concat]. rewrite <- seq_shift, !map_map.
    transitivity (take step l ++ drop step l); [|apply take_drop].
    f_equal; try reflexivity.
    etransitivity; [|apply (IH (drop step l)); rewrite length_drop; lia].
    rewrite map_map. f_equal. apply map_ext. intros j.
    unfold slice. rewrite drop_drop. reflexivity.
Qed.

Lemma range_step_reaches (n : nat) :
  range_step n batch_size =
  map (fun j => (j * batch_size)%nat)
    (seq 0 (if (0 <? n)%nat then S ((n - 1) / batch_size) else 0%nat)) /\
  (n <= (if (0 <? n)%nat then S ((n - 1) / batch_size) else 0%nat)
        * batch_size)%nat.
Proof.
  split; [reflexivity|]. unfold batch_size.
  destruct (Nat.ltb_spec 0 n) as [Hn|Hn]; [|lia].
  pose proof (Nat.div_mod_eq (n - 1) 100) as Hd.
  pose proof (Nat.mod_upper_bound (n - 1) 100 ltac:(lia)). lia.
Qed.

Lemma slices_cover {A} (n : nat) (l : list A) :
  (length l <= n)%nat ->
  concat (map (fun i => slice i batch_size l) (range_step n batch_size)) = l.
Proof.
  intros Hl. destruct (range_step_reaches n) as [-> Hn].
  apply concat_slices. lia.
Qed.

Lemma range_step_below (n i : nat) :
  In i (range_step n batch_size) -> (i < n)%nat.
Proof.
  unfold range_step, batch_size. intros (j & <- & Hj)%in_map_iff.
  apply in_seq in Hj. destruct (Nat.ltb_spec 0 n) as [Hn|Hn]; [|lia].
  pose proof (Nat.div_mod_eq (n - 1) 100) as Hd.
  assert (j <= (n - 1) / 100)%nat by lia. nia.
Qed.

(** X14. The loading loop cuts the identifiers, vectors, documents and
    metadata at the same places: the batches, one after the other, give
    back each of the four lists, and every call of [collection.add]
    receives between one and a hundred identifiers. *)
Theorem batches_split_the_lists (ids : list pyval)
    (embeddings : list (list float)) (documents : list str)
    (metadatas : list pyval) :
  length embeddings = length ids ->
  length documents = length ids ->
  length metadatas = length ids ->
  concat (map batch_ids (batches ids embeddings documents metadatas)) = ids /\
  concat (map batch_embeddings (batches ids embeddings documents metadatas)) =
    embeddings /\
  concat (map batch_documents (batches ids embeddings documents metadatas)) =
    documents /\
  concat (map batch_metadatas (batches ids embeddings documents metadatas)) =
    metadatas /\
  Forall (fun b => (0 < length (batch_ids b) <= 100)%nat)
    (batches ids embeddings documents metadatas).
Proof.
  intros He Hd Hm. unfold batches. rewrite !map_map. cbn [batch_ids
    batch_embeddings batch_documents batch_metadatas].
  repeat split; try (apply slices_cover; lia).
  apply Forall_map, Forall_forall. intros i Hi%list_elem_of_In.
  apply range_step_below in Hi. cbn [batch_ids]. unfold slice, batch_size.
  rewrite length_take, length_drop. lia.
Qed.

Lemma batches_split_the_lists_witness :
  let ids := map (fun k => PInt (Z.of_nat k)) (seq 0 250) in
  let embeddings := map (fun _ => [0.5%float]) (seq 0 250) in
  let documents := map (fun _ => u "текст") (seq 0 250) in
  let metadatas := map (fun _ => PDict []) (seq 0 250) in
  map (fun b => length (batch_ids b))
    (batches ids embeddings documents metadatas) = [100; 100; 50]%nat /\
  concat (map batch_ids (batches ids embeddings documents metadatas)) = ids /\
  concat (map batch_embeddings (batches ids embeddings documents metadatas)) =
    embeddings /\
  concat (map batch_documents (batches ids embeddings documents metadatas)) =
    documents /\
  concat (map batch_metadatas (batches ids embeddings documents metadatas)) =
    metadatas /\
  Forall (fun b => (0 < length (batch_ids b) <= 100)%nat)
    (batches ids embeddings documents metadatas).
Proof.
  intros ids embeddings documents metadatas.
  split; [vm_compute; reflexivity|].
  apply (batches_split_the_lists ids embeddings documents metadatas);
    vm_compute; reflexivity.
Defined.

(** ** The index *)

Section Index.
Context `{Interp}.
Variable collection : Type.
Variable model_encode : list str -> result (list (list float)).
Variable new_collection : str -> dict -> result collection.
Variable collection_add : collection -> batch -> collection * result unit.

Local Abbreviation store :=
  (store_in_chromadb collection new_collection collection_add).

Lemma add_batches_frame (name other : str) (todo : list batch) :
  other <> name ->
  forall (client : gmap str collection) (c : collection),
    fst (add_batches collection collection_add client name c todo) !! other =
    client !! other.
Proof.
  intros Hne. induction todo as [|b todo IH]; intros client c; [reflexivity|].
  cbn [add_batches]. destruct (collection_add c b) as [c' [[]|e]].
  - rewrite IH. apply lookup_insert_ne. congruence.
  - cbn [fst]. apply lookup_insert_ne. congruence.
Qed.

Lemma add_batches_present (name : str) (todo : list batch) :
  forall (client : gmap str collection) (c : collection),
    is_Some (client !! name) ->
    is_Some
      (fst (add_batches collection collection_add client name c todo)
         !! name).
Proof.
  induction todo as [|b todo IH]; intros client c Hc; [exact Hc|].
  cbn [add_batches]. destruct (collection_add c b) as [c' [[]|e]].
  - apply IH. rewrite lookup_insert_eq. eauto.
  - cbn [fst]. rewrite lookup_insert_eq. eauto.
Qed.

Lemma store_frame (client : gmap str collection) (chunks : pyval)
    (embeddings : list (list float)) (collection_name other : str) :
  other <> collection_name ->
  fst (store client chunks embeddings collection_name) !! other =
  client !! other.
Proof.
  intros Hne. unfold store_in_chromadb, get_collection.
  destruct (client !! collection_name) as [c|] eqn:Ec.
  - destruct (bind (py_iter chunks) _) as [todo|e]; [|reflexivity].
    apply add_batches_frame, Hne.
  - cbn [bind]. destruct (new_collection _ _) as [c|e]; [|reflexivity].
    cbn [bind]. destruct (bind (py_iter chunks) _) as [todo|e].
    + rewrite add_batches_frame by exact Hne. apply lookup_insert_ne.
      congruence.
    + cbn [fst]. apply lookup_insert_ne. congruence.
Qed.

Lemma store_keeps (client : gmap str collection) (chunks : pyval)
    (embeddings : list (list float)) (collection_name : str) :
  is_Some (client !! collection_name) ->
  is_Some (fst (store client chunks embeddings collection_name)
             !! collection_name).
Proof.
  unfold store_in_chromadb, get_collection.
  destruct (client !! collection_name) as [c|] eqn:Ec;
    [intros _|intros [c Hc]; discriminate Hc].
  destruct (bind (py_iter chunks) _) as [todo|e].
  - apply add_batches_present. rewrite Ec. eauto.
  - cbn [fst]. rewrite Ec. eauto.
Qed.

(** X15. Storing the chunks of one collection leaves every collection of
    another name as it was, whether the store succeeds or raises: neither
    the creation of the collection nor any addition reaches it; and a
    collection that was there under the name given is still there. *)
Theorem store_touches_only_its_collection (client : gmap str collection)
    (chunks : pyval) (embeddings : list (list float))
    (collection_name other : str) :
  other <> collection_name ->
  fst (store client chunks embeddings collection_name) !! other =
    client !! other /\
  (is_Some (client !! collection_name) ->
   is_Some (fst (store client chunks embeddings collection_name)
              !! collection_name)).
Proof.
  intros Hne. split.
  - apply store_frame, Hne.
  - apply store_keeps.
Qed.
End Index.

Lemma store_touches_only_its_collection_witness :
  fst (store_in_chromadb (H := basic_interp) nat
         (fun _ _ => Ok 0%nat) (fun c _ => (S c, Ok tt))
         {[ u "textbook_история_6" := 5%nat ]} (PList []) []
         (u "textbook_математика_5"))
    !! u "textbook_история_6" =
  ({[ u "textbook_история_6" := 5%nat ]} : gmap str nat)
    !! u "textbook_история_6" /\
  (is_Some (({[ u "textbook_история_6" := 5%nat ]} : gmap str nat)
              !! u "textbook_математика_5") ->
   is_Some
     (fst (store_in_chromadb (H := basic_interp) nat
             (fun _ _ => Ok 0%nat) (fun c _ => (S c, Ok tt))
             {[ u "textbook_история_6" := 5%nat ]} (PList []) []
             (u "textbook_математика_5"))
        !! u "textbook_математика_5")).
Proof.
  apply (store_touches_only_its_collection (H := basic_interp) nat
           (fun _ _ => Ok 0%nat) (fun c _ => (S c, Ok tt))
           {[ u "textbook_история_6" := 5%nat ]} (PList []) []
           (u "textbook_математика_5") (u "textbook_история_6")).
  intros E. vm_compute in E. discriminate E.
Defined.

(** ** The text of a chunk *)

(** The lines every chunk gets, and a line for a list of strings. *)
Definition embedding_text (subject : str) (grade page : Z) (text : str)
    (more : list str) : str :=
  PyStr.join (u "\n")
    ([ u "Предмет: " ++ subject;
       u "Класс: " ++ str_of_int grade;
       u "Страница: " ++ str_of_int page;
       u "Содержание: " ++ take 500 text ] ++ more).

Definition listed (label : str) (n : nat) (l : list str) : list str :=
  match l with
  | [] => []
  | _ => [label ++ PyStr.join (u ", ") (take n l)]
  end.

Lemma join_items (l : list str) :
  forall k : nat,
    traverse (fun x => x)
      (imap
         (fun i x =>
            match x with
            | PStr s => Ok s
            | _ =>
                Raise (TypeError
                         (u "sequence item " ++
                          str_of_int (Z.of_nat (k + i)) ++
                          u ": expected str instance, " ++ type_name x ++
                          u " found"))
            end) (map PStr l)) = Ok l.
Proof.
  induction l as [|s l IH]; intros k; [reflexivity|].
  cbn [map imap traverse bind].
  rewrite (imap_ext _ (fun i x =>
             match x with
             | PStr s => Ok s
             | _ =>
                 Raise (TypeError
                          (u "sequence item " ++
                           str_of_int (Z.of_nat (S k + i)) ++
                           u ": expected str instance, " ++ type_name x ++
                           u " found"))
             end)).
  - rewrite IH. reflexivity.
  - intros i x _. cbn [compose]. rewrite Nat.add_succ_r. reflexivity.
Qed.

Lemma py_join_strs (sep : str) (l : list str) :
  py_join sep (PList (map PStr l)) = Ok (PyStr.join sep l).
Proof.
  unfold py_join. cbn [py_iter].
  pose proof (join_items l 0) as E. cbn [Nat.add] in E. rewrite E.
  reflexivity.
Qed.

Section Text.
Context `{Interp}.

Lemma joined_part_absent (label key : str) (n : nat) (d : dict)
    (text_parts : list str) :
  dict_get key d = None ->
  joined_part label key n (PDict d) text_parts = Ok text_parts.
Proof. intros Hk. unfold joined_part. cbn [py_in]. rewrite Hk. reflexivity. Qed.

Lemma joined_part_strs (label key : str) (n : nat) (d : dict)
    (l : list str) (text_parts : list str) :
  dict_get key d = Some (PList (map PStr l)) ->
  joined_part label key n (PDict d) text_parts =
  Ok (text_parts ++ listed label n l).
Proof.
  intros Hk. unfold joined_part, py_getitem, dict_item. cbn [py_in].
  rewrite Hk. cbn [bind py_truth]. destruct l as [|s l].
  - cbn [map listed]. rewrite app_nil_r. reflexivity.
  - cbn [map negb]. rewrite bool_decide_eq_false_2 by discriminate.
    cbn [negb bind py_slice_to].
    change (PStr s :: map PStr l) with (map PStr (s :: l)).
    rewrite firstn_map, py_join_strs. reflexivity.
Qed.

Lemma present_part_absent (label key : str) (d : dict)
    (text_parts : list str) :
  dict_get key d = None ->
  present_part label key (PDict d) text_parts = Ok text_parts.
Proof. intros Hk. unfold present_part. cbn [py_in]. rewrite Hk. reflexivity. Qed.

Lemma with_book_subject (tm : TextbookMetadata) (md : dict) :
  dict_get (u "subject") (with_book tm md) = Some (PStr (subject tm)).
Proof. unfold with_book. rewrite dict_get_update. reflexivity. Qed.

Lemma with_book_topic (tm : TextbookMetadata) (md : dict) :
  dict_get (u "topic") (with_book tm md) = dict_get (u "topic") md.
Proof. unfold with_book. rewrite dict_get_update. reflexivity. Qed.

Lemma with_book_dates (tm : TextbookMetadata) (md : dict) :
  dict_get (u "dates") (with_book tm md) = dict_get (u "dates") md.
Proof. unfold with_book. rewrite dict_get_update. reflexivity. Qed.

Lemma with_book_figures (tm : TextbookMetadata) (md : dict) :
  dict_get (u "historical_figures") (with_book tm md) =
  dict_get (u "historical_figures") md.
Proof. unfold with_book. rewrite dict_get_update. reflexivity. Qed.

(** The text of a chunk of a run, from what its draft holds. *)
Lemma create_text_finalized (tm : TextbookMetadata) (start : Z) (i : nat)
    (d : chunk) (page : Z) (text : str) (formulas dates figures : list str) :
  dict_get (u "page") (metadata d) = Some (PInt page) ->
  dict_get (u "topic") (metadata d) = None ->
  dict_get (u "chapter") (metadata d) = None ->
  dict_get (u "text") (content d) = Some (PStr text) ->
  (dict_get (u "formulas") (content d) = Some (PList (map PStr formulas)) \/
   dict_get (u "formulas") (content d) = None /\ formulas = []) ->
  (dict_get (u "dates") (metadata d) = Some (PList (map PStr dates)) \/
   dict_get (u "dates") (metadata d) = None /\ dates = []) ->
  (dict_get (u "historical_figures") (metadata d) =
     Some (PList (map PStr figures)) \/
   dict_get (u "historical_figures") (metadata d) = None /\ figures = []) ->
  create_text_for_embedding (chunk_dict (finalized tm start i d)) =
  Ok (embedding_text (subject tm) (grade tm) page text
        (listed (u "Формулы: ") 3 formulas ++
         listed (u "Даты: ") 5 dates ++
         listed (u "Исторические личности: ") 3 figures)).
Proof.
  intros Hpage Htopic Hchapter Htext Hf Hd Hg.
  unfold create_text_for_embedding, chunk_dict.
  change (py_getitem (PDict _) (u "metadata")) with
    (@Ok pyval (PDict (metadata (finalized tm start i d)))).
  cbn [bind].
  change (py_getitem (PDict _) (u "content")) with
    (@Ok pyval (PDict (content (finalized tm start i d)))).
  cbn [bind finalized metadata content]. unfold py_getitem, dict_item.
  rewrite with_book_subject, with_book_grade, with_book_page, Hpage.
  cbn [bind py_str].
  rewrite present_part_absent by (rewrite with_book_topic; exact Htopic).
  cbn [bind].
  rewrite present_part_absent by (rewrite with_book_chapter; exact Hchapter).
  cbn [bind]. rewrite Htext. cbn [bind py_slice_to py_str].
  assert (Hpart : forall label key n holder l parts,
            dict_get key holder = Some (PList (map PStr l)) \/
            dict_get key holder = None /\ l = [] ->
            joined_part label key n (PDict holder) parts =
            Ok (parts ++ listed label n l)).
  { intros label key n holder l parts [Hs|[Hn ->]].
    - apply joined_part_strs, Hs.
    - rewrite joined_part_absent by exact Hn. cbn [listed].
      rewrite app_nil_r. reflexivity. }
  rewrite (Hpart _ _ _ _ formulas) by exact Hf. cbn [bind].
  rewrite (Hpart _ _ _ _ dates)
    by (rewrite with_book_dates; exact Hd). cbn [bind].
  rewrite (Hpart _ _ _ _ figures)
    by (rewrite with_book_figures; exact Hg). cbn [bind].
  unfold embedding_text. rewrite <- !app_assoc. reflexivity.
Qed.
End Text.

Section RunText.
Context `{Interp}.
Variable tm : TextbookMetadata.

Lemma task_draft_text (start : Z) (i : nat) (page : Z) (task : str * str) :
  create_text_for_embedding
    (chunk_dict
       (finalized tm start i
          {| chunk_id :=
               u "math_temp_" ++ str_of_int page ++ u "_" ++ fst task;
             metadata :=
               [ (u "page", PInt page);
                 (u "task_number", PInt (int_of_digits (fst task)));
                 (u "content_type", PStr (u "task")) ];
             content :=
               [ (u "text", PStr (PyStr.strip (snd task)));
                 (u "formulas",
                  PList (map PStr (_extract_formulas (snd task)))) ] |})) =
  Ok (embedding_text (subject tm) (grade tm) page (PyStr.strip (snd task))
        (listed (u "Формулы: ") 3 (_extract_formulas (snd task)))).
Proof.
  rewrite (create_text_finalized tm start i _ page (PyStr.strip (snd task))
             (_extract_formulas (snd task)) [] []);
    try reflexivity; try (left; reflexivity); try (right; split; reflexivity).
  cbn [listed]. rewrite !app_nil_r. reflexivity.
Qed.

Lemma paragraph_draft_text (start : Z) (i : nat) (page : Z) (idx : nat)
    (para : str) :
  create_text_for_embedding
    (chunk_dict
       (finalized tm start i
          {| chunk_id :=
               u "history_temp_" ++ str_of_int page ++ u "_" ++
               str_of_int (Z.of_nat idx);
             metadata :=
               [ (u "page", PInt page);
                 (u "content_type", PStr (u "text"));
                 (u "dates",
                  PList (map PStr (findall isword date_pattern para)));
                 (u "historical_figures",
                  PList (map PStr
                           (set_order (findall isword name_pattern para)))) ];
             content := [ (u "text", PStr para) ] |})) =
  Ok (embedding_text (subject tm) (grade tm) page para
        (listed (u "Даты: ") 5 (findall isword date_pattern para) ++
         listed (u "Исторические личности: ") 3
           (set_order (findall isword name_pattern para)))).
Proof.
  rewrite (create_text_finalized tm start i _ page para []
             (findall isword date_pattern para)
             (set_order (findall isword name_pattern para)));
    try reflexivity; try (left; reflexivity); try (right; split; reflexivity).
Qed.

Lemma math_drafts (pf : page_file) (d : chunk) :
  d ∈ extract_math_tasks (page_text pf) (page_num pf) ->
  exists task,
    In task (findall2 isword task_pattern (page_text pf)) /\
    forall start i,
      create_text_for_embedding (chunk_dict (finalized tm start i d)) =
      Ok (embedding_text (subject tm) (grade tm) (page_num pf)
            (PyStr.strip (snd task))
            (listed (u "Формулы: ") 3 (_extract_formulas (snd task)))).
Proof.
  unfold extract_math_tasks.
  intros (task & <- & Htask)%list_elem_of_In%in_map_iff.
  exists task. split; [exact Htask|]. intros start i.
  destruct task as [num body]. exact (task_draft_text start i _ (num, body)).
Qed.

Lemma history_drafts (pf : page_file) (d : chunk) :
  d ∈ extract_history_content (page_text pf) (page_num pf) ->
  exists para,
    In para (paragraphs (page_text pf)) /\
    forall start i,
      create_text_for_embedding (chunk_dict (finalized tm start i d)) =
      Ok (embedding_text (subject tm) (grade tm) (page_num pf) para
            (listed (u "Даты: ") 5 (findall isword date_pattern para) ++
             listed (u "Исторические личности: ") 3
               (set_order (findall isword name_pattern para)))).
Proof.
  unfold extract_history_content.
  intros (idx & Hd)%list_elem_of_lookup_1.
  rewrite list_lookup_imap in Hd.
  destruct (paragraphs (page_text pf) !! idx) as [para|] eqn:Ep;
    [|discriminate Hd].
  injection Hd as <-. exists para. split.
  - apply list_elem_of_In. eapply list_elem_of_lookup_2, Ep.
  - intros start i. apply paragraph_draft_text.
Qed.

Lemma run_chunk_from_draft (pages : list page_file) (c : chunk) :
  c ∈ imap (finalized tm 0) (drafts tm pages) ->
  exists i d pf,
    c = finalized tm 0 i d /\ pf ∈ pages /\ d ∈ page_drafts tm pf.
Proof.
  intros (i & Hc)%list_elem_of_lookup_1. rewrite list_lookup_imap in Hc.
  destruct (drafts tm pages !! i) as [d|] eqn:Ed; [|discriminate Hc].
  injection Hc as <-.
  destruct (drafts_from_page tm pages d) as (pf & Hpf & Hd & _).
  { eapply list_elem_of_lookup_2, Ed. }
  exists i, d, pf. auto.
Qed.

End RunText.

(** X16. In the collection of a mathematics book, the text embedded for a
    chunk is made of the subject, the grade, the page, the first 500
    characters of the stripped text of its task and, when the task has
    formulas, its first three formulas; it never has a line for a topic or
    a chapter, and making it raises nothing. *)
Theorem task_chunks_text_for_embedding `{Interp}
    (pages : list page_file) (tm : TextbookMetadata) :
  subject tm = u "математика" ->
  exists r,
    structure_textbook pages tm = Ok r /\
    Forall
      (fun c =>
         exists pf task,
           pf ∈ pages /\
           In task (findall2 isword task_pattern (page_text pf)) /\
           create_text_for_embedding (chunk_dict c) =
           Ok (embedding_text (subject tm) (grade tm) (page_num pf)
                 (PyStr.strip (snd task))
                 (listed (u "Формулы: ") 3 (_extract_formulas (snd task)))))
      (all_chunks r).
Proof.
  intros Hs. destruct (structure_textbook_ok tm pages) as (r & Hr & Hc & _).
  exists r. split; [exact Hr|]. rewrite Hc. apply Forall_forall.
  intros c (i & d & pf & -> & Hpf & Hd)%run_chunk_from_draft.
  unfold page_drafts in Hd. rewrite Hs in Hd.
  change (str_eqb (u "математика") (u "математика")) with true in Hd.
  apply (math_drafts tm) in Hd as (task & Htask & Ht).
  exists pf, task. auto.
Qed.

Lemma task_chunks_text_for_embedding_witness :
  exists r,
    structure_textbook (H := basic_interp)
      [ {| page_num := 7;
           page_text := u "1. Найдите x, если x + 2 = 5.\n2. Сравните." |} ]
      maths_book = Ok r /\
    Forall
      (fun c =>
         exists pf task,
           pf ∈ [ {| page_num := 7;
                     page_text :=
                       u "1. Найдите x, если x + 2 = 5.\n2. Сравните." |} ] /\
           In task (findall2 isword task_pattern (page_text pf)) /\
           create_text_for_embedding (chunk_dict c) =
           Ok (embedding_text (subject maths_book) (grade maths_book)
                 (page_num pf) (PyStr.strip (snd task))
                 (listed (u "Формулы: ") 3 (_extract_formulas (snd task)))))
      (all_chunks r).
Proof.
  apply (task_chunks_text_for_embedding (H := basic_interp)). reflexivity.
Defined.

Example text_of_a_task_chunk :
  exists r,
    structure_textbook (H := basic_interp)
      [ {| page_num := 7;
           page_text := u "1. Найдите x, если x + 2 = 5.\n2. Сравните." |} ]
      maths_book = Ok r /\
    traverse (create_text_for_embedding (H := basic_interp))
      (map chunk_dict (all_chunks r)) =
    Ok [ u "Предмет: математика\nКласс: 5\nСтраница: 7\nСодержание: Найдите x, если x + 2 = 5.\nФормулы: если x + 2 = 5";
         u "Предмет: математика\nКласс: 5\nСтраница: 7\nСодержание: Сравните." ].
Proof. eexists. split; vm_compute; reflexivity. Qed.

(** X17. In the collection of a history book, the text embedded for a
    chunk is made of the subject, the grade, the page, the first 500
    characters of its paragraph, then its first five dates when it has
    dates, then its first three names when it has names; making it raises
    nothing. *)
Theorem paragraph_chunks_text_for_embedding `{Interp}
    (pages : list page_file) (tm : TextbookMetadata) :
  subject tm = u "история" ->
  exists r,
    structure_textbook pages tm = Ok r /\
    Forall
      (fun c =>
         exists pf para,
           pf ∈ pages /\
           In para (paragraphs (page_text pf)) /\
           create_text_for_embedding (chunk_dict c) =
           Ok (embedding_text (subject tm) (grade tm) (page_num pf) para
                 (listed (u "Даты: ") 5 (findall isword date_pattern para) ++
                  listed (u "Исторические личности: ") 3
                    (set_order (findall isword name_pattern para)))))
      (all_chunks r).
Proof.
  intros Hs. destruct (structure_textbook_ok tm pages) as (r & Hr & Hc & _).
  exists r. split; [exact Hr|]. rewrite Hc. apply Forall_forall.
  intros c (i & d & pf & -> & Hpf & Hd)%run_chunk_from_draft.
  unfold page_drafts in Hd. rewrite Hs in Hd.
  change (str_eqb (u "история") (u "математика")) with false in Hd.
  change (str_eqb (u "история") (u "история")) with true in Hd.
  apply (history_drafts tm) in Hd as (para & Hpara & Ht).
  exists pf, para. auto.
Qed.

Definition history_book : TextbookMetadata :=
  {| title := u "История России. 6 класс"; author := u "Арсентьев Н.М.";
     year := 2022; grade := 6; subject := u "история";
     isbn := None; part := None |}.

Lemma paragraph_chunks_text_for_embedding_witness :
  exists r,
    structure_textbook (H := basic_interp)
      [ {| page_num := 40;
           page_text := u "Иван Грозный венчался на царство в 1547 г." |} ]
      history_book = Ok r /\
    Forall
      (fun c =>
         exists pf para,
           pf ∈ [ {| page_num := 40;
                     page_text :=
                       u "Иван Грозный венчался на царство в 1547 г." |} ] /\
           In para (paragraphs (page_text pf)) /\
           create_text_for_embedding (chunk_dict c) =
           Ok (embedding_text (subject history_book) (grade history_book)
                 (page_num pf) para
                 (listed (u "Даты: ") 5 (findall isword date_pattern para) ++
                  listed (u "Исторические личности: ") 3
                    (set_order (findall isword name_pattern para)))))
      (all_chunks r).
Proof.
  apply (paragraph_chunks_text_for_embedding (H := basic_interp)).
  reflexivity.
Defined.

Example text_of_a_paragraph_chunk :
  exists r,
    structure_textbook (H := basic_interp)
      [ {| page_num := 40;
           page_text := u "Иван Грозный венчался на царство в 1547 г." |} ]
      history_book = Ok r /\
    traverse (create_text_for_embedding (H := basic_interp))
      (map chunk_dict (all_chunks r)) =
    Ok [ u "Предмет: история\nКласс: 6\nСтраница: 40\nСодержание: Иван Грозный венчался на царство в 1547 г.\nДаты: 1547 г.\nИсторические личности: Иван Грозный" ].
Proof. eexists. split; vm_compute; reflexivity. Qed.

(** ** From the chunk file to the index *)

Lemma run_chunks_native `{Interp} (tm : TextbookMetadata)
    (pages : list page_file) :
  Forall chunk_native (imap (finalized tm 0) (drafts tm pages)).
Proof.
  apply Forall_lookup. intros i c. rewrite list_lookup_imap.
  destruct (drafts tm pages !! i) as [d|] eqn:Ed; [|discriminate].
  intros [= <-]. apply finalized_native.
  pose proof (drafts_native tm pages) as Hn.
  rewrite Forall_lookup in Hn. exact (Hn i d Ed).
Qed.


Section Pipeline.
Context `{Interp}.
Variable collection : Type.
Variable model_encode : list str -> result (list (list float)).
Variable new_collection : str -> dict -> result collection.
Variable collection_add : collection -> batch -> collection * result unit.

Local Abbreviation store :=
  (store_in_chromadb collection new_collection collection_add).
Local Abbreviation process :=
  (process_chunks_file_store collection model_encode new_collection
     collection_add).


End Pipeline.


Section Malformed.
Context `{Interp}.
Variable collection : Type.
Variable model_encode : list str -> result (list (list float)).
Variable new_collection : str -> dict -> result collection.
Variable collection_add : collection -> batch -> collection * result unit.

(** X19. The texts of all chunks are made before anything is stored: when
    the text of one chunk of the file cannot be made (a key is missing, or
    a value has the wrong type), processing the file raises that error, no
    collection is created and no chunk is added, also not the chunks before
    the malformed one. *)
Theorem malformed_chunk_stores_nothing (client : gmap str collection)
    (file : json) (metadata subject grade : pyval)
    (good : list pyval) (texts : list str) (bad : pyval)
    (rest : list pyval) (e : exn) :
  py_getitem (json_load file) (u "chunks") =
    Ok (PList (good ++ bad :: rest)) ->
  py_getitem (json_load file) (u "metadata") = Ok metadata ->
  py_getitem metadata (u "subject") = Ok subject ->
  py_getitem metadata (u "grade") = Ok grade ->
  traverse create_text_for_embedding good = Ok texts ->
  create_text_for_embedding bad = Raise e ->
  process_chunks_file_store collection model_encode new_collection
    collection_add client file = (client, Raise e).
Proof.
  intros Hchunks Hmeta Hsubject Hgrade Hgood Hbad.
  unfold process_chunks_file_store.
  rewrite Hchunks. cbn [bind]. rewrite Hmeta. cbn [bind].
  rewrite Hsubject. cbn [bind]. rewrite Hgrade. cbn [bind].
  unfold create_embeddings_for_chunks. cbn [py_iter bind].
  rewrite (traverse_app_raise _ good texts bad rest e Hgood Hbad).
  reflexivity.
Qed.
End Malformed.

Lemma malformed_chunk_stores_nothing_witness :
  process_chunks_file_store (H := basic_interp) nat
    (fun texts => Ok (map (fun _ => []) texts))
    (fun _ _ => Ok 0%nat)
    (fun c b => ((c + length (batch_ids b))%nat, Ok tt))
    ∅
    (JObject
       [ (u "metadata",
          JObject [ (u "subject", JString (u "история"));
                    (u "grade", JNumber 6) ]);
         (u "chunks",
          JArray
            [ JObject
                [ (u "chunk_id", JString (u "история_6_ch0_p1_1"));
                  (u "metadata",
                   JObject [ (u "subject", JString (u "история"));
                             (u "grade", JNumber 6) ]);
                  (u "content",
                   JObject [ (u "text", JString (u "Текст.")) ]) ] ]) ]) =
  (∅, Raise (KeyError (u "page"))).
Proof.
  apply (malformed_chunk_stores_nothing (H := basic_interp) nat
           (fun texts => Ok (map (fun _ => []) texts))
           (fun _ _ => Ok 0%nat)
           (fun c b => ((c + length (batch_ids b))%nat, Ok tt))
           ∅ _
           (PDict [ (u "subject", PStr (u "история")); (u "grade", PInt 6) ])
           (PStr (u "история")) (PInt 6) [] []
           (PDict
              [ (u "chunk_id", PStr (u "история_6_ch0_p1_1"));
                (u "metadata",
                 PDict [ (u "subject", PStr (u "история"));
                         (u "grade", PInt 6) ]);
                (u "content", PDict [ (u "text", PStr (u "Текст.")) ]) ])
           []);
    vm_compute; reflexivity.
Defined.

(** * The text of an OCR page *)

(** [extract_text_only] of [OCRHandler]. *)
Definition extract_text_only (results : list pyval) : result str :=
  let! texts := traverse (fun item => py_getitem item (u "text")) results in
  py_join (u "\n") (PList texts).

Lemma no_blank_line_app (line rest : str) :
  Forall (fun c => c <> 0xa) line ->
  no_blank_line rest = true ->
  no_blank_line (line ++ rest) = true.
Proof.
  induction 1 as [|c line Hc _ IH]; intros Hrest; [exact Hrest|].
  cbn [app no_blank_line]. rewrite (IH Hrest).
  apply N.eqb_neq in Hc. rewrite Hc. reflexivity.
Qed.

(** A line of text: not empty, and without a line feed. *)
Definition line_of_text (line : str) : bool :=
  match line with
  | [] => false
  | _ => forallb (fun c => negb (c =? 0xa)) line
  end.

Lemma line_of_text_spec (line : str) :
  line_of_text line = true ->
  line <> [] /\ Forall (fun c => c <> 0xa) line.
Proof.
  destruct line as [|c line]; [discriminate|]. unfold line_of_text.
  intros Hall. split; [discriminate|].
  apply Forall_forall. intros x Hx%list_elem_of_In.
  rewrite forallb_forall in Hall. specialize (Hall x Hx).
  apply negb_true_iff, N.eqb_neq in Hall. exact Hall.
Qed.

Lemma join_lines_no_blank (lines : list str) :
  Forall (fun line => line_of_text line = true) lines ->
  no_blank_line (PyStr.join (u "\n") lines) = true /\
  match lines with
  | [] => True
  | _ => exists c t, PyStr.join (u "\n") lines = c :: t /\ c <> 0xa
  end.
Proof.
  change (u "\n") with [0xa].
  induction 1 as [|line lines [Hne Hline]%line_of_text_spec _ [IH Hhead]];
    [split; auto|].
  assert (Hstart : forall tail, exists c t, line ++ tail = c :: t /\ c <> 0xa).
  { intros tail. destruct line as [|c line]; [congruence|].
    exists c, (line ++ tail). split; [reflexivity|].
    apply Forall_cons in Hline as [Hc _]. exact Hc. }
  destruct lines as [|next lines].
  - cbn [PyStr.join]. split.
    + rewrite <- (app_nil_r line). apply no_blank_line_app; auto.
    + rewrite <- (app_nil_r line). apply Hstart.
  - change (PyStr.join [0xa] (line :: next :: lines)) with
      (line ++ [0xa] ++ PyStr.join [0xa] (next :: lines)).
    split; [|apply Hstart].
    apply no_blank_line_app; [exact Hline|].
    destruct Hhead as (c & t & E & Hc). rewrite E in IH |- *.
    change (no_blank_line ([0xa] ++ c :: t)) with
      (negb ((0xa =? 0xa) && (c =? 0xa)) && no_blank_line (c :: t)).
    rewrite IH. apply N.eqb_neq in Hc. rewrite Hc. reflexivity.
Qed.

(** X20. A page read by OCR is one paragraph for the history segmenter:
    [extract_text_only] joins the lines with single line feeds, so when no
    line is empty or holds a line feed, the page text has no blank line
    and gives at most one chunk, the whole page stripped. *)
Theorem ocr_page_is_one_paragraph `{Interp} (results : list pyval)
    (lines : list str) (page_num : Z) :
  Forall2 (fun item line => py_getitem item (u "text") = Ok (PStr line))
    results lines ->
  Forall (fun line => line_of_text line = true) lines ->
  exists text,
    extract_text_only results = Ok text /\
    text = PyStr.join (u "\n") lines /\
    map chunk_text (extract_history_content text page_num) =
    if visible text then [Some (PStr (PyStr.strip text))] else [].
Proof.
  intros Hitems Hlines. exists (PyStr.join (u "\n") lines).
  split; [|split; [reflexivity|]].
  - unfold extract_text_only.
    assert (Ht : traverse (fun item => py_getitem item (u "text")) results =
                 Ok (map PStr lines)).
    { induction Hitems as [|item line results lines Hi _ IH];
        [reflexivity|].
      apply Forall_cons in Hlines as [_ Hlines].
      cbn [traverse map]. rewrite Hi, (IH Hlines). reflexivity. }
    rewrite Ht. cbn [bind]. apply py_join_strs.
  - rewrite extract_history_content_texts, paragraphs_visible, map_map.
    change (u "\n\n") with [0xa; 0xa]. unfold PyStr.split.
    destruct (join_lines_no_blank lines Hlines) as [Hnb _].
    rewrite (split_go_last _ [] Hnb). cbn [rev app List.filter].
    destruct (visible _); reflexivity.
Qed.

Lemma ocr_page_is_one_paragraph_witness :
  exists text,
    extract_text_only
      [ PDict [ (u "bbox", PList []); (u "text", PStr (u "Глава 1"));
                (u "confidence", PInt 1) ];
        PDict [ (u "bbox", PList []);
                (u "text", PStr (u "Иван Грозный правил долго."));
                (u "confidence", PInt 1) ] ] = Ok text /\
    text = PyStr.join (u "\n") [ u "Глава 1"; u "Иван Грозный правил долго." ] /\
    map chunk_text (extract_history_content (H := basic_interp) text 40) =
    if visible text then [Some (PStr (PyStr.strip text))] else [].
Proof.
  apply (ocr_page_is_one_paragraph (H := basic_interp)).
  - constructor; [vm_compute; reflexivity|].
    constructor; [vm_compute; reflexivity|]. constructor.
  - apply List.Forall_cons; [vm_compute; reflexivity|].
    apply List.Forall_cons; [vm_compute; reflexivity|]. apply List.Forall_nil.
Defined.

(** * Further properties of the tasks *)

Lemma rep_greedy_span {A} (cls : N -> bool) (s : str) :
  forall (lo hi : nat) (prev : option N) (k : option N -> str -> option A)
         (a : A),
    rep_greedy cls lo hi prev s k = Some a ->
    exists m p s',
      s = m ++ s' /\ forallb cls m = true /\ (lo <= length m)%nat /\
      k p s' = Some a.
Proof.
  induction s as [|c s IH]; intros lo hi prev k a Hm.
  - destruct hi; cbn [rep_greedy or_else] in Hm;
      (destruct lo; [|discriminate Hm]); exists [], prev, [];
      repeat split; auto.
  - assert (Hstop : match lo with
                    | O => k prev (c :: s)
                    | S _ => None
                    end = Some a ->
                    exists m p s',
                      c :: s = m ++ s' /\ forallb cls m = true /\
                      (lo <= length m)%nat /\ k p s' = Some a).
    { destruct lo; [|discriminate]. intros Hk.
      exists [], prev, (c :: s). repeat split; auto. }
    destruct hi as [|hi]; [exact (Hstop Hm)|].
    cbn [rep_greedy] in Hm. destruct (cls c) eqn:Ec; [|exact (Hstop Hm)].
    destruct (rep_greedy cls (Nat.pred lo) hi (Some c) s k) as [b|] eqn:E;
      [|exact (Hstop Hm)].
    cbn [or_else] in Hm. injection Hm as ->.
    apply IH in E as (m & p & s' & -> & Hall & Hlo & Hk).
    exists (c :: m), p, s'. repeat split; auto.
    + cbn [forallb]. rewrite Ec, Hall. reflexivity.
    + cbn [length]. lia.
Qed.

Lemma rep_lazy_suffix {A} (cls : N -> bool) (s : str) :
  forall (lo hi : nat) (prev : option N) (k : option N -> str -> option A)
         (a : A),
    rep_lazy cls lo hi prev s k = Some a ->
    exists m p s', s = m ++ s' /\ k p s' = Some a.
Proof.
  induction s as [|c s IH]; intros lo hi prev k a Hm.
  - assert (Hk : k prev [] = Some a).
    { destruct hi, lo; cbn [rep_lazy] in Hm; try discriminate Hm;
        destruct (k prev []); cbn [or_else] in Hm;
        try discriminate Hm; exact Hm. }
    exists [], prev, []. auto.
  - assert (Hmore : match hi with
                    | S hi' =>
                        if cls c
                        then rep_lazy cls (Nat.pred lo) hi' (Some c) s k
                        else None
                    | O => None
                    end = Some a ->
                    exists m p s', c :: s = m ++ s' /\ k p s' = Some a).
    { destruct hi as [|hi]; [discriminate|].
      destruct (cls c); [|discriminate]. intros E.
      apply IH in E as (m & p & s' & -> & Hk).
      exists (c :: m), p, s'. auto. }
    destruct lo as [|lo].
    + destruct (k prev (c :: s)) as [b|] eqn:E.
      * exists [], prev, (c :: s). split; [reflexivity|].
        destruct hi; cbn [rep_lazy] in Hm; rewrite E in Hm;
          cbn [or_else] in Hm; congruence.
      * apply Hmore.
        destruct hi; cbn [rep_lazy] in Hm; rewrite E in Hm;
          cbn [or_else] in Hm; exact Hm.
    + apply Hmore. destruct hi; cbn [rep_lazy or_else] in Hm; exact Hm.
Qed.

(** Every match of the task pattern is a number, a full stop, white space
    and a body, before the end of the text or the start of an item. *)
Lemma match_at_task (wordc : N -> bool) (prev : option N) (s s' : str)
    (cs : caps) :
  match_at wordc task_pattern prev s = Some (s', cs) ->
  exists num gap body,
    s = num ++ [0x2e] ++ gap ++ body ++ s' /\
    num <> [] /\ forallb isdecimal num = true /\
    gap <> [] /\ forallb isspace gap = true /\
    ahead_holds s' = true /\
    cs = [(2%nat, body); (1%nat, num)].
Proof.
  unfold match_at, task_pattern. cbn [sequence].
  match goal with |- context [Ahead ?r] => remember (Ahead r) as A eqn:EA end.
  cbn [rmatch many1]. intros Hm.
  apply rep_greedy_span in Hm as (num & p1 & s1 & -> & Hnum & Hlen & Hm).
  rewrite firstn_prefix in Hm.
  destruct s1 as [|c s2]; [discriminate Hm|].
  unfold only in Hm at 1. destruct (N.eqb_spec 0x2e c) as [<-|];
    [|discriminate Hm].
  apply rep_greedy_span in Hm as (gap & p2 & s3 & -> & Hgap & Hglen & Hm).
  apply rep_lazy_suffix in Hm as (body & p3 & s4 & -> & Hm).
  rewrite firstn_prefix in Hm. subst A. rewrite ahead_spec in Hm.
  destruct (ahead_holds s4) eqn:Ea; [|discriminate Hm].
  injection Hm as <- <-.
  exists num, gap, body.
  split; [rewrite <- ?app_assoc; reflexivity|].
  split; [intros ->; cbn [length] in Hlen; lia|].
  split; [exact Hnum|].
  split; [intros ->; cbn [length] in Hglen; lia|].
  split; [exact Hgap|]. split; [exact Ea|reflexivity].
Qed.

Lemma scan_matches_caps (wordc : N -> bool) (r : regex)
    (P : str * caps -> Prop) :
  (forall prev s s' cs,
      match_at wordc r prev s = Some (s', cs) ->
      P (firstn (length s - length s') s, cs)) ->
  forall (s : str) (prev : option N) (skip : nat) (x : str * caps),
    In x (scan wordc r prev s skip) -> P x.
Proof.
  intros Hr. induction s as [|c s IH]; intros prev skip x Hx.
  - destruct skip; [|destruct Hx]. rewrite scan_unfold in Hx.
    destruct (match_at wordc r prev []) as [[s' cs]|] eqn:E; [|destruct Hx].
    apply Hr in E. destruct Hx as [<-|[]]. exact E.
  - destruct skip as [|skip]; [|exact (IH _ _ _ Hx)].
    rewrite scan_unfold in Hx.
    destruct (match_at wordc r prev (c :: s)) as [[s' cs]|] eqn:E;
      [|exact (IH _ _ _ Hx)].
    destruct Hx as [<-|Hx]; [|exact (IH _ _ _ Hx)].
    apply Hr in E. exact E.
Qed.

(** The numbers of the tasks of a page. *)
Lemma task_numbers_decimal (wordc : N -> bool) (text : str)
    (task : str * str) :
  In task (findall2 wordc task_pattern text) ->
  fst task <> [] /\ forallb isdecimal (fst task) = true.
Proof.
  unfold findall2, finditer. intros (x & <- & Hx)%in_map_iff. cbn [fst].
  apply (scan_matches_caps wordc task_pattern
           (fun x => get_cap 1 (snd x) <> [] /\
                     forallb isdecimal (get_cap 1 (snd x)) = true))
    in Hx; [exact Hx|].
  intros prev s s' cs (num & gap & body & _ & Hne & Hnum & _ & _ & _ & ->)
    %match_at_task.
  cbn [snd]. change (get_cap 1 [(2%nat, body); (1%nat, num)]) with num.
  auto.
Qed.

Lemma decimal_is_plain (c : N) :
  isdecimal c = true ->
  int_space c = false /\ (c =? 0x2d) = false /\ (c =? 0x2b) = false.
Proof.
  assert (Hall :
    forallb (fun z =>
      forallb (fun k =>
        negb (int_space (z + k)) && negb (z + k =? 0x2d) &&
        negb (z + k =? 0x2b))
        [0; 1; 2; 3; 4; 5; 6; 7; 8; 9]) decimal_zeros = true)
    by (vm_compute; reflexivity).
  unfold isdecimal. intros (z & Hz & Hc)%existsb_exists.
  rewrite forallb_forall in Hall. specialize (Hall z Hz).
  rewrite forallb_forall in Hall.
  apply andb_true_iff in Hc as [Hlo Hhi].
  apply N.leb_le in Hlo. apply N.leb_le in Hhi.
  assert (Hk : In (c - z) [0; 1; 2; 3; 4; 5; 6; 7; 8; 9]).
  { assert (c - z <= 9) as Hle by lia. revert Hle.
    generalize (c - z). intros k Hk. cbn [In].
    destruct k as [|[[[|[]|]|[[]|[]|]|]|[[|[]|]|[[]|[]|]|]|]];
      try lia; auto 12. }
  specialize (Hall _ Hk). replace (z + (c - z)) with c in Hall by lia.
  repeat (apply andb_true_iff in Hall as [Hall ?]).
  repeat split; apply negb_true_iff; assumption.
Qed.

Lemma int_digits_decimal (s : str) :
  forall (acc : N) (after_digit : bool),
    forallb isdecimal s = true ->
    after_digit = true \/ s <> [] ->
    int_digits s acc after_digit =
    Some (fold_left (fun acc c => acc * 10 + todecimal c) s acc).
Proof.
  induction s as [|c s IH]; intros acc b Hs Hb.
  - destruct Hb as [->|Hb]; [reflexivity|congruence].
  - cbn [forallb] in Hs. apply andb_true_iff in Hs as [Hc Hs].
    cbn [int_digits fold_left]. rewrite Hc. apply IH; auto.
Qed.

Lemma py_int_decimal `{Interp} (s : str) :
  s <> [] -> forallb isdecimal s = true ->
  py_int s = Ok (int_of_digits s).
Proof.
  intros Hne Hs. unfold py_int. rewrite int_strip_id.
  - destruct s as [|c s]; [congruence|].
    pose proof Hs as Hc. cbn [forallb] in Hc.
    apply andb_true_iff in Hc as [Hc _].
    destruct (decimal_is_plain c Hc) as (_ & -> & ->).
    rewrite int_digits_decimal by (auto; right; discriminate).
    reflexivity.
  - apply Forall_forall. intros c Hc%list_elem_of_In.
    rewrite forallb_forall in Hs. apply decimal_is_plain, Hs, Hc.
Qed.

(** X21. The number of every task the pattern finds is a non-empty run of
    decimal digits, so [int(task_num)] raises nothing on it and gives the
    value of the digits. *)
Theorem task_numbers_are_read `{Interp} (page_text : str)
    (task : str * str) :
  In task (findall2 isword task_pattern page_text) ->
  fst task <> [] /\
  forallb isdecimal (fst task) = true /\
  py_int (fst task) = Ok (int_of_digits (fst task)).
Proof.
  intros [Hne Hd]%task_numbers_decimal.
  repeat split; [exact Hne|exact Hd|]. apply py_int_decimal; assumption.
Qed.

Lemma task_numbers_are_read_witness :
  In (u "12", u "Найдите сумму.")
    (findall2 (isword (H := basic_interp)) task_pattern
       (u "12. Найдите сумму.")) /\
  fst (u "12", u "Найдите сумму.") <> [] /\
  forallb isdecimal (fst (u "12", u "Найдите сумму.")) = true /\
  py_int (H := basic_interp) (fst (u "12", u "Найдите сумму.")) =
  Ok (int_of_digits (fst (u "12", u "Найдите сумму."))).
Proof.
  assert (Hin : In (u "12", u "Найдите сумму.")
                  (findall2 (isword (H := basic_interp)) task_pattern
                     (u "12. Найдите сумму.")))
    by (vm_compute; left; reflexivity).
  split; [exact Hin|].
  exact (task_numbers_are_read (H := basic_interp) _ _ Hin).
Defined.

(** * Books that share a subject and a grade *)

Lemma name_inj (s s' : str) (g g' : Z) :
  s ++ u "_" ++ str_of_int g = s' ++ u "_" ++ str_of_int g' ->
  s = s' /\ g = g'.
Proof.
  change (u "_") with [0x5f]. intros E.
  apply (f_equal (@rev N)) in E. rewrite !rev_app_distr in E.
  cbn [rev app] in E. rewrite <- !app_assoc in E. cbn [app] in E.
  assert (Hno : forall z, 0x5f ∉ rev (str_of_int z)).
  { intros z Hin%list_elem_of_In%in_rev%list_elem_of_In.
    pose proof (str_of_int_chars z) as Hc. rewrite Forall_forall in Hc.
    apply Hc in Hin. unfold digit_or_minus in Hin. lia. }
  apply app_sep_inj in E as [Eg Es]; [|apply Hno..].
  split.
  - apply (f_equal (@rev N)) in Es. rewrite !rev_involutive in Es. exact Es.
  - apply str_of_int_inj. apply (f_equal (@rev N)) in Eg.
    rewrite !rev_involutive in Eg. exact Eg.
Qed.


(** X23. The identifiers are unique within a run but not across runs: in
    the collections of two books of the same subject and grade, the chunks
    at the same position that come from pages of the same number have the
    same identifier. *)
Theorem identifiers_repeat_across_books `{Interp}
    (pages pages' : list page_file) (tm tm' : TextbookMetadata) :
  subject tm = subject tm' -> grade tm = grade tm' ->
  exists r r',
    structure_textbook pages tm = Ok r /\
    structure_textbook pages' tm' = Ok r' /\
    forall (i : nat) (c c' : chunk),
      all_chunks r !! i = Some c -> all_chunks r' !! i = Some c' ->
      dict_get (u "page") (metadata c) = dict_get (u "page") (metadata c') ->
      chunk_id c = chunk_id c'.
Proof.
  intros Hs Hg.
  destruct (structure_textbook_ok tm pages) as (r & Hr & Hc & _).
  destruct (structure_textbook_ok tm' pages') as (r' & Hr' & Hc' & _).
  exists r, r'. split; [exact Hr|]. split; [exact Hr'|].
  intros i c c' Hi Hi' Hpage. rewrite Hc in Hi. rewrite Hc' in Hi'.
  apply lookup_run_chunk in Hi as (d & p & _ & [Hp _] & -> & Hm & _);
    [|apply drafts_paged].
  apply lookup_run_chunk in Hi' as (d' & p' & _ & [Hp' _] & -> & Hm' & _);
    [|apply drafts_paged].
  rewrite Hm, Hm', !with_book_page, Hp, Hp' in Hpage.
  injection Hpage as ->. unfold final_id. rewrite Hs, Hg. reflexivity.
Qed.

Definition maths_book_part_2 : TextbookMetadata :=
  {| title := u "Математика. 5 класс. Рабочая тетрадь. Часть 2";
     author := u "Ткачёва М.В."; year := 2023; grade := 5;
     subject := u "математика"; isbn := None; part := Some 2%Z |}.

Lemma identifiers_repeat_across_books_witness :
  exists r r',
    structure_textbook (H := basic_interp)
      [ {| page_num := 3; page_text := u "1. Найдите сумму 2+2." |} ]
      maths_book = Ok r /\
    structure_textbook (H := basic_interp)
      [ {| page_num := 3; page_text := u "1. Сравните числа." |} ]
      maths_book_part_2 = Ok r' /\
    forall (i : nat) (c c' : chunk),
      all_chunks r !! i = Some c -> all_chunks r' !! i = Some c' ->
      dict_get (u "page") (metadata c) = dict_get (u "page") (metadata c') ->
      chunk_id c = chunk_id c'.
Proof.
  apply (identifiers_repeat_across_books (H := basic_interp)
           [ {| page_num := 3; page_text := u "1. Найдите сумму 2+2." |} ]
           [ {| page_num := 3; page_text := u "1. Сравните числа." |} ]
           maths_book maths_book_part_2); reflexivity.
Defined.

Example two_parts_one_identifier :
  exists r r',
    structure_textbook (H := basic_interp)
      [ {| page_num := 3; page_text := u "1. Найдите сумму 2+2." |} ]
      maths_book = Ok r /\
    structure_textbook (H := basic_interp)
      [ {| page_num := 3; page_text := u "1. Сравните числа." |} ]
      maths_book_part_2 = Ok r' /\
    map chunk_id (all_chunks r) = [ u "математика_5_ch0_p3_1" ] /\
    map chunk_id (all_chunks r') = [ u "математика_5_ch0_p3_1" ] /\
    output_file r = output_file r'.
Proof.
  eexists. eexists.
  split; [vm_compute; reflexivity|]. split; [vm_compute; reflexivity|].
  split; [vm_compute; reflexivity|]. split; vm_compute; reflexivity.
Qed.

Section OtherBooks.
Context `{Interp}.
Variable collection : Type.
Variable model_encode : list str -> result (list (list float)).
Variable new_collection : str -> dict -> result collection.
Variable collection_add : collection -> batch -> collection * result unit.
Variable encode : str -> list float.
Variable collection_query :
  collection -> list float -> Z -> result query_result.

Local Abbreviation process :=
  (process_chunks_file_store collection model_encode new_collection
     collection_add).
Local Abbreviation search :=
  (search_relevant_chunks collection encode collection_query).

Lemma process_run_document (index : gmap str collection)
    (tm : TextbookMetadata) (chunks : list chunk) :
  Forall chunk_native chunks ->
  process index (json_dump (collection_dict tm chunks)) =
  match create_embeddings_for_chunks model_encode
          (PList (map chunk_dict chunks)) with
  | Ok embeddings =>
      store_in_chromadb collection new_collection collection_add index
        (PList (map chunk_dict chunks)) embeddings
        (Config.CHROMA_COLLECTION_PREFIX ++ u "_" ++ subject tm ++ u "_" ++
         str_of_int (grade tm))
  | Raise e => (index, Raise e)
  end.
Proof.
  intros Hn. unfold process_chunks_file_store.
  rewrite json_round_trip by (apply nativeb_collection_dict, Hn).
  unfold collection_dict.
  change (py_getitem (PDict _) (u "chunks")) with
    (@Ok pyval (PList (map chunk_dict chunks))).
  cbn [bind].
  change (py_getitem (PDict _) (u "metadata")) with
    (@Ok pyval (PDict (model_dump tm))).
  cbn [bind].
  change (py_getitem (PDict (model_dump tm)) (u "subject")) with
    (@Ok pyval (PStr (subject tm))).
  cbn [bind].
  change (py_getitem (PDict (model_dump tm)) (u "grade")) with
    (@Ok pyval (PInt (grade tm))).
  cbn [bind py_str].
  destruct (create_embeddings_for_chunks _ _); reflexivity.
Qed.

(** X24. Indexing the chunk file of a book makes no other book
    searchable: for a subject or a grade that differs from the book's,
    when the index had no collection for them before, it has none after,
    and [search_relevant_chunks] raises that the collection is not found. *)
Theorem indexing_reaches_only_its_book (index : gmap str collection)
    (pages : list page_file) (tm : TextbookMetadata)
    (model_name query subject' : str) (grade' n_results : Z) :
  subject' <> subject tm \/ grade' <> grade tm ->
  index !! (Config.CHROMA_COLLECTION_PREFIX ++ u "_" ++ subject' ++ u "_" ++
             str_of_int grade') = None ->
  exists r,
    structure_textbook pages tm = Ok r /\
    search
      {| client := fst (process index (json_dump (dumped r)));
         ollama_model := model_name |}
      query subject' grade' n_results =
    Raise (ValueError
             (u "Коллекция '" ++
              (Config.CHROMA_COLLECTION_PREFIX ++ u "_" ++ subject' ++
               u "_" ++ str_of_int grade') ++
              u "' не найдена. Запустите 3_create_embeddings.py")).
Proof.
  intros Hother Hnone.
  destruct (structure_textbook_ok tm pages) as (r & Hr & Hc & Hdoc).
  exists r. split; [exact Hr|].
  assert (Hsame :
    fst (process index (json_dump (dumped r))) !!
      (Config.CHROMA_COLLECTION_PREFIX ++ u "_" ++ subject' ++ u "_" ++
       str_of_int grade') = None).
  { rewrite Hdoc.
    change (PDict _) with (collection_dict tm (all_chunks r)).
    rewrite process_run_document by (rewrite Hc; apply run_chunks_native).
    destruct (create_embeddings_for_chunks _ _) as [embeddings|e];
      [|exact Hnone].
    rewrite store_frame; [exact Hnone|].
    intros E. apply app_inv_head, app_inv_head, name_inj in E as [Es Eg].
    destruct Hother; congruence. }
  unfold search_relevant_chunks, get_collection. cbn [client].
  match goal with
  | |- context [match ?x with Some _ => _ | None => _ end] =>
      replace x with (@None collection) by (symmetry; exact Hsame)
  end.
  reflexivity.
Qed.
End OtherBooks.

Lemma indexing_reaches_only_its_book_witness :
  exists r,
    structure_textbook (H := basic_interp)
      [ {| page_num := 3; page_text := u "1. Найдите сумму 2+2." |} ]
      maths_book = Ok r /\
    search_relevant_chunks nat (fun _ => []) (fun _ _ _ => Raise index_error)
      {| client :=
           fst (process_chunks_file_store (H := basic_interp) nat
                  (fun texts => Ok (map (fun _ => []) texts))
                  (fun _ _ => Ok 0%nat)
                  (fun c b => ((c + length (batch_ids b))%nat, Ok tt))
                  ∅ (json_dump (dumped r)));
         ollama_model := Config.OLLAMA_MODEL |}
      (u "Что такое дробь?") (u "математика") 6 3 =
    Raise (ValueError
             (u "Коллекция '" ++
              (Config.CHROMA_COLLECTION_PREFIX ++ u "_" ++ u "математика" ++
               u "_" ++ str_of_int 6) ++
              u "' не найдена. Запустите 3_create_embeddings.py")).
Proof.
  apply (indexing_reaches_only_its_book (H := basic_interp) nat
           (fun texts => Ok (map (fun _ => []) texts))
           (fun _ _ => Ok 0%nat)
           (fun c b => ((c + length (batch_ids b))%nat, Ok tt))
           (fun _ => []) (fun _ _ _ => Raise index_error) ∅
           [ {| page_num := 3; page_text := u "1. Найдите сумму 2+2." |} ]
           maths_book Config.OLLAMA_MODEL (u "Что такое дробь?")
           (u "математика") 6 3).
  - right. discriminate.
  - apply lookup_empty.
Defined.

(** * What the patterns find is in the text *)

Lemma rmatch_suffix (wordc : N -> bool) (r : regex) :
  forall {A} (prev : option N) (s : str) (cs : caps)
         (k : option N -> str -> caps -> option A) (a : A),
    rmatch wordc r prev s cs k = Some a ->
    exists m p s' cs', s = m ++ s' /\ k p s' cs' = Some a.
Proof.
  induction r as [cls|greedy lo hi cls|r1 IH1 r2 IH2|r1 IH1 r2 IH2|i r IH
                 |r IH| |]; intros A prev s cs k a Hm; cbn [rmatch] in Hm.
  - destruct s as [|c s]; [discriminate Hm|].
    destruct (cls c); [|discriminate Hm].
    exists [c], (Some c), s, cs. auto.
  - destruct greedy.
    + apply rep_greedy_suffix in Hm as (m & p & s' & -> & Hk).
      exists m, p, s', cs. auto.
    + apply rep_lazy_suffix in Hm as (m & p & s' & -> & Hk).
      exists m, p, s', cs. auto.
  - apply IH1 in Hm as (m1 & p1 & s1 & cs1 & -> & Hm).
    apply IH2 in Hm as (m2 & p2 & s2 & cs2 & -> & Hk).
    exists (m1 ++ m2), p2, s2, cs2. rewrite <- app_assoc. auto.
  - destruct (rmatch wordc r1 prev s cs k) as [b|] eqn:E.
    + cbn [or_else] in Hm. injection Hm as ->. exact (IH1 _ _ _ _ _ _ E).
    + cbn [or_else] in Hm. exact (IH2 _ _ _ _ _ _ Hm).
  - apply IH in Hm as (m & p & s' & cs' & -> & Hk).
    exists m, p, s'. eexists. split; [reflexivity|exact Hk].
  - destruct (rmatch wordc r prev s cs _) as [cs'|]; [|discriminate Hm].
    exists [], prev, s, cs'. auto.
  - destruct (at_end s); [|discriminate Hm]. exists [], prev, s, cs. auto.
  - destruct (xorb _ _); [|discriminate Hm]. exists [], prev, s, cs. auto.
Qed.

Lemma scan_pieces (wordc : N -> bool) (r : regex) (s : str) :
  forall (prev : option N) (skip : nat) (x : str * caps),
    In x (scan wordc r prev s skip) -> occurs_in (fst x) s.
Proof.
  assert (Hhere : forall prev s s' cs,
            match_at wordc r prev s = Some (s', cs) ->
            occurs_in (firstn (length s - length s') s) s).
  { intros prev t s' cs Hm. unfold match_at in Hm.
    apply rmatch_suffix in Hm as (m & p & s'' & cs' & -> & [= <- _]).
    rewrite firstn_prefix. apply occurs_in_here. }
  induction s as [|c s IH]; intros prev skip x Hx.
  - destruct skip; [|destruct Hx]. rewrite scan_unfold in Hx.
    destruct (match_at wordc r prev []) as [[s' cs]|] eqn:E; [|destruct Hx].
    destruct Hx as [<-|[]]. exact (Hhere _ _ _ _ E).
  - assert (Hrest : forall prev skip,
              In x (scan wordc r prev s skip) -> occurs_in (fst x) (c :: s)).
    { intros prev' skip' Hin. apply (occurs_in_later _ [c]), (IH _ _ _ Hin). }
    destruct skip as [|skip]; [|exact (Hrest _ _ Hx)].
    rewrite scan_unfold in Hx.
    destruct (match_at wordc r prev (c :: s)) as [[s' cs]|] eqn:E;
      [|exact (Hrest _ _ Hx)].
    destruct Hx as [<-|Hx]; [|exact (Hrest _ _ Hx)].
    exact (Hhere _ _ _ _ E).
Qed.

Lemma findall_pieces (wordc : N -> bool) (r : regex) (s x : str) :
  In x (findall wordc r s) -> occurs_in x s.
Proof.
  unfold findall, finditer. intros (m & <- & Hm)%in_map_iff.
  exact (scan_pieces wordc r s None 0 m Hm).
Qed.

(** X25. The dates and the historical figures of a history chunk are
    taken from its own text: each of them occurs in the paragraph of the
    chunk, and no figure is listed twice. *)
Theorem history_metadata_comes_from_the_text `{Interp}
    (page_text : str) (page_num : Z) (c : chunk) :
  In c (extract_history_content page_text page_num) ->
  exists para dates figures,
    dict_get (u "text") (content c) = Some (PStr para) /\
    dict_get (u "dates") (metadata c) = Some (PList (map PStr dates)) /\
    dict_get (u "historical_figures") (metadata c) =
      Some (PList (map PStr figures)) /\
    Forall (fun date => occurs_in date para) dates /\
    Forall (fun figure => occurs_in figure para) figures /\
    NoDup figures.
Proof.
  unfold extract_history_content.
  intros (idx & Hc)%list_elem_of_In%list_elem_of_lookup_1.
  rewrite list_lookup_imap in Hc.
  destruct (paragraphs page_text !! idx) as [para|]; [|discriminate Hc].
  injection Hc as <-.
  exists para, (findall isword date_pattern para),
    (set_order (findall isword name_pattern para)).
  cbn [content metadata].
  split; [reflexivity|]. split; [reflexivity|]. split; [reflexivity|].
  split; [|split].
  - apply Forall_forall. intros d Hd%list_elem_of_In.
    exact (findall_pieces _ _ _ _ Hd).
  - apply Forall_forall. intros f Hf%list_elem_of_In.
    apply (proj1 (set_order_In _ _)) in Hf.
    exact (findall_pieces _ _ _ _ Hf).
  - apply set_order_NoDup.
Qed.

Lemma history_metadata_comes_from_the_text_witness :
  exists c,
    In c (extract_history_content (H := basic_interp)
            (u "Иван Грозный венчался на царство в 1547 г.") 40) /\
    exists para dates figures,
      dict_get (u "text") (content c) = Some (PStr para) /\
      dict_get (u "dates") (metadata c) = Some (PList (map PStr dates)) /\
      dict_get (u "historical_figures") (metadata c) =
        Some (PList (map PStr figures)) /\
      Forall (fun date => occurs_in date para) dates /\
      Forall (fun figure => occurs_in figure para) figures /\
      NoDup figures.
Proof.
  eexists.
  assert (Hin : In ?[c] (extract_history_content (H := basic_interp)
                         (u "Иван Грозный венчался на царство в 1547 г.") 40))
    by (vm_compute; left; reflexivity).
  split; [exact Hin|].
  exact (history_metadata_comes_from_the_text (H := basic_interp) _ _ _ Hin).
Defined.

Lemma scan_sound (wordc : N -> bool) (r : regex) (s : str) :
  forall (prev : option N) (skip : nat) (x : str * caps),
    In x (scan wordc r prev s skip) ->
    exists prev' pre s0 s',
      s = pre ++ s0 /\ match_at wordc r prev' s0 = Some (s', snd x).
Proof.
  induction s as [|c s IH]; intros prev skip x Hx.
  - destruct skip; [|destruct Hx]. rewrite scan_unfold in Hx.
    destruct (match_at wordc r prev []) as [[s' cs]|] eqn:E; [|destruct Hx].
    destruct Hx as [<-|[]]. exists prev, [], [], s'. auto.
  - assert (Hrest : forall prev skip,
              In x (scan wordc r prev s skip) ->
              exists prev' pre s0 s',
                c :: s = pre ++ s0 /\
                match_at wordc r prev' s0 = Some (s', snd x)).
    { intros prev' skip' Hin.
      destruct (IH _ _ _ Hin) as (q & pre & s0 & s' & -> & Hm).
      exists q, (c :: pre), s0, s'. auto. }
    destruct skip as [|skip]; [|exact (Hrest _ _ Hx)].
    rewrite scan_unfold in Hx.
    destruct (match_at wordc r prev (c :: s)) as [[s' cs]|] eqn:E;
      [|exact (Hrest _ _ Hx)].
    destruct Hx as [<-|Hx]; [|exact (Hrest _ _ Hx)].
    exists prev, [], (c :: s), s'. auto.
Qed.

(** X26. Every task chunk is cut from the page: somewhere on the page
    stand the digits of its number, a full stop, white space and a body,
    followed by the end of the page or by the start of the next item; the
    number of the chunk is the value of the digits, its text is the body
    stripped, and its formulas are those of the body. *)
Theorem task_chunks_are_cut_from_the_page `{Interp}
    (page_text : str) (page_num : Z) (c : chunk) :
  In c (extract_math_tasks page_text page_num) ->
  exists before num gap body rest,
    page_text = before ++ num ++ [0x2e] ++ gap ++ body ++ rest /\
    num <> [] /\ forallb isdecimal num = true /\
    gap <> [] /\ forallb isspace gap = true /\
    ahead_holds rest = true /\
    dict_get (u "task_number") (metadata c) =
      Some (PInt (int_of_digits num)) /\
    dict_get (u "text") (content c) = Some (PStr (PyStr.strip body)) /\
    dict_get (u "formulas") (content c) =
      Some (PList (map PStr (_extract_formulas body))).
Proof.
  unfold extract_math_tasks, findall2, finditer. rewrite map_map.
  intros (x & <- & Hx)%in_map_iff.
  apply scan_sound in Hx as (prev & before & s0 & rest & -> & Hm).
  apply match_at_task in Hm
    as (num & gap & body & -> & Hne & Hnum & Hgne & Hgap & Hah & ->).
  exists before, num, gap, body, rest.
  change (get_cap 1 [(2%nat, body); (1%nat, num)]) with num.
  change (get_cap 2 [(2%nat, body); (1%nat, num)]) with body.
  cbn [metadata content].
  split; [reflexivity|]. split; [exact Hne|]. split; [exact Hnum|].
  split; [exact Hgne|]. split; [exact Hgap|]. split; [exact Hah|].
  split; [reflexivity|]. split; reflexivity.
Qed.

Lemma task_chunks_are_cut_from_the_page_witness :
  exists c,
    In c (extract_math_tasks (H := basic_interp)
            (u "Задания\n12. Найдите сумму.") 3) /\
    exists before num gap body rest,
      u "Задания\n12. Найдите сумму." =
        before ++ num ++ [0x2e] ++ gap ++ body ++ rest /\
      num <> [] /\ forallb isdecimal num = true /\
      gap <> [] /\ forallb isspace gap = true /\
      ahead_holds rest = true /\
      dict_get (u "task_number") (metadata c) =
        Some (PInt (int_of_digits num)) /\
      dict_get (u "text") (content c) = Some (PStr (PyStr.strip body)) /\
      dict_get (u "formulas") (content c) =
        Some (PList (map PStr (_extract_formulas body))).
Proof.
  eexists.
  assert (Hin : In ?[c] (extract_math_tasks (H := basic_interp)
                         (u "Задания\n12. Найдите сумму.") 3))
    by (vm_compute; left; reflexivity).
  split; [exact Hin|].
  exact (task_chunks_are_cut_from_the_page (H := basic_interp) _ _ _ Hin).
Defined.
